(** * SwarmPAL-processor dashboards: the reactive state-and-caching controller

    A shallow embedding of the controller logic of [dashboards/TFA.py]
    (fetch / process / cache / restore) and of [dashboards/DSECS.py]
    (data view, NetCDF loading, animation player), followed by the
    properties of the specification that were checked against it.

    Python objects that are shared and mutated in place (the dataset
    handles of the TFA dashboard) live in an explicit store and are named by
    references; statements that raise are modelled in a state-and-exception
    monad in which the state reached before the exception is kept, as in
    Python. *)

From Stdlib Require Import ZArith QArith Lia Sorted.
From stdpp Require Import base list strings pretty.

Set Warnings "-register-all".
Local Open Scope Z_scope.

(* ===================================================================== *)
(** ** Python values, exceptions and the state-and-exception monad        *)
(* ===================================================================== *)

Module Py.

(** An exception object: its class name and what [str(e)] gives. *)
Record Exn := mkExn { exn_type : string; exn_msg : string }.

Inductive result (A : Type) : Type :=
| Ok (a : A)
| Raise (e : Exn).
Arguments Ok {A} a.
Arguments Raise {A} e.

Definition rbind {A B} (r : result A) (k : A -> result B) : result B :=
  match r with
  | Ok a => k a
  | Raise e => Raise e
  end.

Definition is_ok {A} (r : result A) : bool :=
  match r with Ok _ => true | Raise _ => false end.

(** The values a configuration is built from: scalars, lists and
    insertion-ordered dictionaries with string keys. *)
Inductive PyVal : Type :=
| PStr (s : string)
| PInt (z : Z)
| PFloat (q : Q)
| PBool (b : bool)
| PList (l : list PyVal)
| PDict (d : list (string * PyVal)).

Fixpoint dict_get (k : string) (d : list (string * PyVal)) : option PyVal :=
  match d with
  | [] => None
  | (k', v) :: d' => if String.eqb k k' then Some v else dict_get k d'
  end.

(** [obj[key]] on a value: [KeyError] for a missing key, [TypeError] when the
    value is no dictionary. *)
Definition getitem (obj : PyVal) (key : string) : result PyVal :=
  match obj with
  | PDict d =>
      match dict_get key d with
      | Some v => Ok v
      | None => Raise (mkExn "KeyError" key)
      end
  | _ => Raise (mkExn "TypeError" "object is not subscriptable")
  end.

(** [obj[i]] on a list. *)
Definition getindex (obj : PyVal) (i : nat) : result PyVal :=
  match obj with
  | PList l =>
      match l !! i with
      | Some v => Ok v
      | None => Raise (mkExn "IndexError" "list index out of range")
      end
  | _ => Raise (mkExn "TypeError" "object is not subscriptable")
  end.

Section Monad.
Context {S : Type}.

(** A statement: from a state to the state it leaves and either a value or
  the exception it raised. *)
Definition M (A : Type) : Type := S -> S * result A.

Definition ret {A} (a : A) : M A := fun s => (s, Ok a).

Definition bind {A B} (m : M A) (k : A -> M B) : M B :=
  fun s =>
    match m s with
    | (s', Ok a) => k a s'
    | (s', Raise e) => (s', Raise e)
    end.

Definition raise {A} (e : Exn) : M A := fun s => (s, Raise e).

Definition lift {A} (r : result A) : M A := fun s => (s, r).

Definition gets {A} (f : S -> A) : M A := fun s => (s, Ok (f s)).

Definition modify (f : S -> S) : M unit := fun s => (f s, Ok tt).

(** [try: body / except Exception as e: handler e]. *)
Definition try_except {A} (body : M A) (handler : Exn -> M A) : M A :=
  fun s =>
    match body s with
    | (s', Ok a) => (s', Ok a)
    | (s', Raise e) => handler e s'
    end.

(** [try: body / finally: fin]: [fin] runs on both exits; an exception of
  [fin] replaces the outcome of [body]. *)
Definition try_finally {A} (body : M A) (fin : M unit) : M A :=
  fun s =>
    match body s with
    | (s', r) =>
        match fin s' with
        | (s'', Ok _) => (s'', r)
        | (s'', Raise e) => (s'', Raise e)
        end
    end.

(** [wp m Q s]: running [m] from [s] leaves a state and an outcome that
  satisfy [Q]. *)
Definition wp {A} (m : M A) (Q : S -> result A -> Prop) (s : S) : Prop :=
  Q (fst (m s)) (snd (m s)).
End Monad.

Declare Scope py_scope.
Delimit Scope py_scope with py.
Notation "x <- m ;; k" := (bind m (fun x => k))
  (at level 100, m at next level, right associativity) : py_scope.
Notation "m ;; k" := (bind m (fun _ => k))
  (at level 100, right associativity) : py_scope.
Notation "'let?' x := r 'in' k" := (rbind r (fun x => k))
  (at level 10, x name, r at level 100, k at level 200) : py_scope.

(** Does [hay] contain [needle] as a substring? *)
Fixpoint contains (needle hay : string) : bool :=
  String.prefix needle hay
  || match hay with
     | EmptyString => false
     | String _ hay' => contains needle hay'
     end.

(** [datetime.datetime(year, month, day, hour, minute)]. *)
Record DateTime := datetime {
  year : Z; month : Z; day : Z; hour : Z; minute : Z
}.

(** The file dropper of [common.py], by the attributes the dashboard reads:
    the truth value of [value], and [temp_file.name] and [file_in_mem.name],
    each absent ([None]) while no file is held. *)
Record FileDropper := mkFileDropper {
  fd_value : bool;
  temp_file : option string;
  file_in_mem : option string;
}.

(** [datetime.isoformat()] for a time with no seconds and no microseconds:
    [YYYY-MM-DDTHH:MM:00]. *)
Definition two_digits (z : Z) : string :=
  if z <? 10 then "0" +:+ pretty z else pretty z.

Definition four_digits (z : Z) : string :=
  if z <? 10 then "000" +:+ pretty z
  else if z <? 100 then "00" +:+ pretty z
  else if z <? 1000 then "0" +:+ pretty z
  else pretty z.

Definition isoformat (t : DateTime) : string :=
  four_digits (year t) +:+ "-" +:+ two_digits (month t) +:+ "-"
  +:+ two_digits (day t) +:+ "T" +:+ two_digits (hour t) +:+ ":"
  +:+ two_digits (minute t) +:+ ":00".

(** The newline character, and [' ' * n]. *)
Definition nl : string := String (Ascii.ascii_of_nat 10) EmptyString.

Fixpoint spaces (n : nat) : string :=
  match n with
  | O => EmptyString
  | S n' => String (Ascii.ascii_of_nat 32) (spaces n')
  end.

(** [x.name] where [x] is [None]. *)
Definition no_name : Exn :=
  mkExn "AttributeError" "'NoneType' object has no attribute 'name'".

Definition attr_name (x : option string) : result string :=
  match x with
  | Some name => Ok name
  | None => Raise no_name
  end.

End Py.

(* ===================================================================== *)
(** ** dashboards/TFA.py                                                  *)
(* ===================================================================== *)

Module TFA.
Import Py.
Local Open Scope py_scope.

(** What the module gets from outside: the swarmpal toolbox, the methods of
    the dataset and figure objects it returns, the templates of [common.py]
    and the formatting functions of the Python library. A method that
    changes its object in place gives the object as it is afterwards and
    the exception it raised, if any. The outcome of a fetch depends on the
    outside world: [fetch_data n config] is the outcome of the fetch made
    after [n] earlier ones. *)
Class Collaborators : Type := {
  Dataset : Type;
  Figure : Type;
  fetch_data : nat -> PyVal -> result Dataset;
  apply_processes : Dataset -> PyVal -> Dataset * option Exn;
  quicklook : Dataset -> PyVal * PyVal -> result Figure;
  _repr_html_ : Dataset -> result string;
  dataset_bool : Dataset -> bool;
  tight_layout : Figure -> Figure * option Exn;
  repr : PyVal -> string;
  dump : PyVal -> string;
  render : string -> string -> result string;
  replace : string -> string -> string -> string;
  stem : string -> string;
  strip_date_version : string -> string;
  format_exc : Exn -> string;
}.

Definition TFA_VIRES_CODE_TEMPLATE : string := "tfa_vires.jinja2".
Definition TFA_CDF_CODE_TEMPLATE : string := "tfa_cdf.jinja2".
Definition FAC_SINGLE_SAT_CLI_TEMPLATE : string := "fac-single-sat-cli.jinja2".

(** The values of the input widgets. *)
Record Widgets := mkWidgets {
  spacecraft : string;
  start_end : DateTime * DateTime;
  file_dropper : FileDropper;
  preprocess_active_component : Z;
  preprocess_sampling_rate : Q;
  clean_window_size : Z;
  clean_multiplier : Q;
  clean_method : string;
  filter_cutoff : Q;
  wavelet_min_frequency : Q;
  wavelet_max_frequency : Q;
  wavelet_dj : Q;
}.

(** The module-level [widgets], with the values they are created with. *)
Definition widgets0 : Widgets := {|
  spacecraft := "Swarm-A";
  start_end := (datetime 2026 1 1 0 0, datetime 2026 1 2 0 0);
  file_dropper := mkFileDropper false None None;
  preprocess_active_component := 2;
  preprocess_sampling_rate := 1.0;
  clean_window_size := 300;
  clean_multiplier := 0.5;
  clean_method := "iqr";
  filter_cutoff := 0.02;
  wavelet_min_frequency := 0.02;
  wavelet_max_frequency := 0.1;
  wavelet_dj := 0.1;
|}.

(** A dataset handle: a reference into the store of dataset objects. *)
Definition ref : Type := nat.

(** One entry of the log panel. The panel's HTML text is the concatenation
    of its entries as rendered (time stamp, colour of the level, escaped
    message); the model keeps the entries. *)
Record LogEntry := mkLog { log_level : string; log_message : string }.

Section Controller.
Context `{C : Collaborators}.

(** The value stored under ["tfa_precache"]. *)
Record CacheEntry := mkCache {
  c_raw_data : option ref;
  c_data : option ref;
  c_figure : option Figure;
  c_data_view : option string;
  c_code_snippet : option string;
  c_cli_command : option string;
}.

(** Calls that leave the process, in the order they were made. *)
Inductive Event : Type :=
| EvFetch (config : PyVal)
| EvApply (r : ref) (process_params : PyVal)
| EvQuicklook (r : ref) (tlims : PyVal * PyVal)
| EvPrint (text : string).

(** What the server process holds across sessions: the slot
    [pn.state.cache["tfa_precache"]], the dataset objects, and the calls made
    so far. *)
Record World := mkWorld {
  cache : option CacheEntry;
  heap : list Dataset;
  trace : list Event;
}.

(** The attributes of a [TFA_GUI] object; a pane is given by its [object]. *)
Record TFA_GUI := mkGUI {
  widgets : Widgets;
  output_title : option string;
  swarmpal_quicklook : option Figure;
  data_view : option string;
  code_snippet : option string;
  cli_command : option string;
  log_messages : list LogEntry;
  log_button_name : string;
  log_button_type : string;
  _is_loading : bool;
  data : option ref;
  raw_data : option ref;
  data_tabs : option Z;
}.

Definition St : Type := World * TFA_GUI.

(** *** Attribute assignment *)

Definition set_cache (v : option CacheEntry) (w : World) : World :=
  mkWorld v (heap w) (trace w).
Definition set_heap (v : list Dataset) (w : World) : World :=
  mkWorld (cache w) v (trace w).
Definition add_event (e : Event) (w : World) : World :=
  mkWorld (cache w) (heap w) (trace w ++ [e]).

Definition set_output_title (v : option string) (g : TFA_GUI) : TFA_GUI :=
  mkGUI (widgets g) v (swarmpal_quicklook g) (data_view g) (code_snippet g)
    (cli_command g) (log_messages g) (log_button_name g) (log_button_type g)
    (_is_loading g) (data g) (raw_data g) (data_tabs g).
Definition set_swarmpal_quicklook (v : option Figure) (g : TFA_GUI) : TFA_GUI :=
  mkGUI (widgets g) (output_title g) v (data_view g) (code_snippet g)
    (cli_command g) (log_messages g) (log_button_name g) (log_button_type g)
    (_is_loading g) (data g) (raw_data g) (data_tabs g).
Definition set_data_view (v : option string) (g : TFA_GUI) : TFA_GUI :=
  mkGUI (widgets g) (output_title g) (swarmpal_quicklook g) v (code_snippet g)
    (cli_command g) (log_messages g) (log_button_name g) (log_button_type g)
    (_is_loading g) (data g) (raw_data g) (data_tabs g).
Definition set_code_snippet (v : option string) (g : TFA_GUI) : TFA_GUI :=
  mkGUI (widgets g) (output_title g) (swarmpal_quicklook g) (data_view g) v
    (cli_command g) (log_messages g) (log_button_name g) (log_button_type g)
    (_is_loading g) (data g) (raw_data g) (data_tabs g).
Definition set_cli_command (v : option string) (g : TFA_GUI) : TFA_GUI :=
  mkGUI (widgets g) (output_title g) (swarmpal_quicklook g) (data_view g)
    (code_snippet g) v (log_messages g) (log_button_name g) (log_button_type g)
    (_is_loading g) (data g) (raw_data g) (data_tabs g).
Definition set_log_messages (v : list LogEntry) (g : TFA_GUI) : TFA_GUI :=
  mkGUI (widgets g) (output_title g) (swarmpal_quicklook g) (data_view g)
    (code_snippet g) (cli_command g) v (log_button_name g) (log_button_type g)
    (_is_loading g) (data g) (raw_data g) (data_tabs g).
Definition set_log_button (name type : string) (g : TFA_GUI) : TFA_GUI :=
  mkGUI (widgets g) (output_title g) (swarmpal_quicklook g) (data_view g)
    (code_snippet g) (cli_command g) (log_messages g) name type
    (_is_loading g) (data g) (raw_data g) (data_tabs g).
Definition set__is_loading (v : bool) (g : TFA_GUI) : TFA_GUI :=
  mkGUI (widgets g) (output_title g) (swarmpal_quicklook g) (data_view g)
    (code_snippet g) (cli_command g) (log_messages g) (log_button_name g)
    (log_button_type g) v (data g) (raw_data g) (data_tabs g).
Definition set_data (v : option ref) (g : TFA_GUI) : TFA_GUI :=
  mkGUI (widgets g) (output_title g) (swarmpal_quicklook g) (data_view g)
    (code_snippet g) (cli_command g) (log_messages g) (log_button_name g)
    (log_button_type g) (_is_loading g) v (raw_data g) (data_tabs g).
Definition set_raw_data (v : option ref) (g : TFA_GUI) : TFA_GUI :=
  mkGUI (widgets g) (output_title g) (swarmpal_quicklook g) (data_view g)
    (code_snippet g) (cli_command g) (log_messages g) (log_button_name g)
    (log_button_type g) (_is_loading g) (data g) v (data_tabs g).

Definition on_gui (f : TFA_GUI -> TFA_GUI) : M (S := St) unit :=
  modify (fun s => (fst s, f (snd s))).
Definition on_world (f : World -> World) : M (S := St) unit :=
  modify (fun s => (f (fst s), snd s)).
Definition self {A} (f : TFA_GUI -> A) : M (S := St) A :=
  gets (fun s => f (snd s)).


(** *** Calls on the store of dataset objects *)

Definition is_fetch (e : Event) : bool :=
  match e with EvFetch _ => true | _ => false end.

Definition count_fetches (t : list Event) : nat :=
  length (List.filter is_fetch t).

Definition print (text : string) : M (S := World) unit :=
  modify (add_event (EvPrint text)).

(** A new object in the store; the result is its reference. *)
Definition alloc (d : Dataset) : M (S := World) ref :=
  h <- gets heap ;;
  modify (set_heap (h ++ [d])) ;;
  ret (length h).

(** [swarmpal.fetch_data(config)]: a new dataset object on success. *)
Definition swarmpal_fetch_data (config : PyVal) : M (S := World) (option ref) :=
  t <- gets trace ;;
  modify (add_event (EvFetch config)) ;;
  d <- lift (fetch_data (count_fetches t) config) ;;
  r <- alloc d ;;
  ret (Some r).

(** The object behind a handle. [None] has none of the dataset's methods
    ([AttributeError]); a handle always names an object of the store, the
    last case stands for a store that was tampered with. *)
Definition deref (target : option ref) : M (S := World) (ref * Dataset) :=
  match target with
  | None =>
      raise (mkExn "AttributeError" "'NoneType' object has no such attribute")
  | Some r =>
      h <- gets heap ;;
      match h !! r with
      | Some d => ret (r, d)
      | None => raise (mkExn "ReferenceError" "no such object")
      end
  end.

(** [copy.deepcopy(x)]: [None] for [None], else a new object with the
    contents of [x]. *)
Definition deepcopy (x : option ref) : M (S := World) (option ref) :=
  match x with
  | None => ret None
  | Some _ =>
      rd <- deref x ;;
      r <- alloc (snd rd) ;;
      ret (Some r)
  end.

(** [swarmpal.apply_processes(target, process_params)]: changes the object
    behind [target] in place, also when a step raises. *)
Definition swarmpal_apply_processes (target : option ref) (process_params : PyVal)
  : M (S := World) unit :=
  rd <- deref target ;;
  modify (add_event (EvApply (fst rd) process_params)) ;;
  let out := apply_processes (snd rd) process_params in
  h <- gets heap ;;
  modify (set_heap (<[fst rd := fst out]> h)) ;;
  match snd out with
  | None => ret tt
  | Some e => raise e
  end.

(** [target._repr_html_()]. *)
Definition repr_html_of (target : option ref) : M (S := World) string :=
  rd <- deref target ;;
  lift (_repr_html_ (snd rd)).

(** [not target]. *)
Definition is_falsy (target : option ref) : M (S := World) bool :=
  match target with
  | None => ret true
  | Some _ => rd <- deref target ;; ret (negb (dataset_bool (snd rd)))
  end.

(** [fig, _ = swarmpal.toolboxes.tfa.plotting.quicklook(target, tlims=...,
    extra_x=...)] followed by [fig.tight_layout()]. *)
Definition quicklook_tight (target : option ref) (tlims : PyVal * PyVal)
  : M (S := World) Figure :=
  rd <- deref target ;;
  modify (add_event (EvQuicklook (fst rd) tlims)) ;;
  fig <- lift (quicklook (snd rd) tlims) ;;
  let out := tight_layout fig in
  match snd out with
  | None => ret (fst out)
  | Some e => raise e
  end.

(** A statement on the process state, run from a method of the GUI. *)
Definition in_world {A} (m : M (S := World) A) : M (S := St) A :=
  fun s => let out := m (fst s) in ((fst out, snd s), snd out).

(** *** pprinter *)

Definition _newline (indent : nat) : string := nl +:+ spaces indent.

Fixpoint _pprinter (obj : PyVal) (indent : nat) : string :=
  match obj with
  | PDict d =>
      "dict("
      +:+ (fix items (l : list (string * PyVal)) : string :=
             match l with
             | [] => EmptyString
             | (item, v) :: l' =>
                 _newline (indent + 4) +:+ item +:+ "="
                 +:+ _pprinter v (indent + 4) +:+ "," +:+ items l'
             end) d
      +:+ _newline indent +:+ ")"
  | PList l =>
      "["
      +:+ (fix items (l : list PyVal) : string :=
             match l with
             | [] => EmptyString
             | item :: l' =>
                 _newline (indent + 4) +:+ _pprinter item (indent + 4)
                 +:+ "," +:+ items l'
             end) l
      +:+ _newline indent +:+ "]"
  | _ => repr obj
  end.

Definition pprinter (object : PyVal) : string := _pprinter object 0.

(** *** TFA_GUI: the configuration *)

Definition _using_cdf_input (g : TFA_GUI) : bool :=
  match data_tabs g with
  | None => false
  | Some active => active =? 1
  end.

Definition _get_data_product (g : TFA_GUI) : result string :=
  if _using_cdf_input g then
    match file_in_mem (file_dropper (widgets g)) with
    | None => Raise no_name
    | Some filename => Ok (strip_date_version (stem filename))
    end
  else
    let sc := spacecraft (widgets g) in
    if String.eqb sc "Swarm-A" then Ok "SW_OPER_MAGA_LR_1B"
    else if String.eqb sc "Swarm-B" then Ok "SW_OPER_MAGB_LR_1B"
    else if String.eqb sc "Swarm-C" then Ok "SW_OPER_MAGC_LR_1B"
    else Ok "SW_OPER_MAGA_LR_1B".

Definition vires_data_params (collection start_time end_time : string) : PyVal :=
  PList [PDict [
    ("provider", PStr "vires");
    ("collection", PStr collection);
    ("measurements", PList [PStr "B_NEC"]);
    ("models", PList [PStr "Model='CHAOS-Core'+'CHAOS-Static'"]);
    ("auxiliaries", PList [PStr "QDLat"; PStr "MLT"]);
    ("start_time", PStr start_time);
    ("end_time", PStr end_time);
    ("pad_times", PList [PStr "03:00:00"; PStr "03:00:00"]);
    ("server_url", PStr "https://vires.services/ows")]].

Definition _make_vires_data_params (g : TFA_GUI) : result PyVal :=
  let? data_product := _get_data_product g in
  Ok (vires_data_params data_product
        (isoformat (fst (start_end (widgets g))))
        (isoformat (snd (start_end (widgets g))))).

Definition _make_cdf_data_params (g : TFA_GUI) : result PyVal :=
  match temp_file (file_dropper (widgets g)) with
  | None => Raise no_name
  | Some filename =>
      let? product_name := _get_data_product g in
      Ok (PList [PDict [
        ("provider", PStr "file");
        ("filename", PStr filename);
        ("filetype", PStr "cdf");
        ("dataset", PStr product_name)]])
  end.

Definition _make_data_params (g : TFA_GUI) : result PyVal :=
  if _using_cdf_input g then _make_cdf_data_params g
  else _make_vires_data_params g.

(** The list [process_params] of a configuration. *)
Definition tfa_process_params (dataset : string) (active_component : Z)
  (sampling_rate : Q) (window_size : Z) (method : string) (multiplier : Q)
  (cutoff_frequency min_frequency max_frequency dj : Q) : PyVal :=
  PList [
    PDict [
      ("process_name", PStr "TFA_Preprocess");
      ("dataset", PStr dataset);
      ("active_variable", PStr "B_NEC");
      ("active_component", PInt active_component);
      ("sampling_rate", PFloat sampling_rate);
      ("remove_model", PBool false)];
    PDict [
      ("process_name", PStr "TFA_Clean");
      ("window_size", PInt window_size);
      ("method", PStr method);
      ("multiplier", PFloat multiplier)];
    PDict [
      ("process_name", PStr "TFA_Filter");
      ("cutoff_frequency", PFloat cutoff_frequency)];
    PDict [
      ("process_name", PStr "TFA_Wavelet");
      ("min_frequency", PFloat min_frequency);
      ("max_frequency", PFloat max_frequency);
      ("dj", PFloat dj)]].

Definition widget_process_params (dataset : string) (w : Widgets) : PyVal :=
  tfa_process_params dataset
    (preprocess_active_component w) (preprocess_sampling_rate w)
    (clean_window_size w) (clean_method w) (clean_multiplier w)
    (filter_cutoff w)
    (wavelet_min_frequency w) (wavelet_max_frequency w) (wavelet_dj w).

Definition make_config (g : TFA_GUI) : result PyVal :=
  let? data_product := _get_data_product g in
  let? data_params := _make_data_params g in
  let process_params := widget_process_params data_product (widgets g) in
  Ok (PDict [("data_params", data_params); ("process_params", process_params)]).

(** *** TFA_GUI: snippets *)

Definition replace_file_paths (g : TFA_GUI) (s : string) : result string :=
  if negb (_using_cdf_input g) then Ok s
  else
    match temp_file (file_dropper (widgets g)) with
    | None => Raise no_name
    | Some tmp_filename =>
        match file_in_mem (file_dropper (widgets g)) with
        | None => Raise no_name
        | Some user_filename => Ok (replace s tmp_filename user_filename)
        end
    end.

Definition get_vires_code (g : TFA_GUI) : result string :=
  let? config := make_config g in
  let config_code := pprinter config in
  let? config_code := replace_file_paths g config_code in
  let? rendered := render TFA_VIRES_CODE_TEMPLATE config_code in
  Ok ("```python" +:+ nl +:+ rendered +:+ nl +:+ "```").

Definition get_cli (g : TFA_GUI) : result string :=
  let? config := make_config g in
  let config_yaml := dump config in
  let? config_yaml := replace_file_paths g config_yaml in
  render FAC_SINGLE_SAT_CLI_TEMPLATE config_yaml.


(** *** TFA_GUI: the handlers *)

Definition set_loading (loading : bool) : M (S := St) unit :=
  on_gui (fun g =>
    let g := set__is_loading loading g in
    if loading then set_log_button "⏳ Processing..." "warning" g
    else set_log_button "📋 View Logs" "light" g).

Definition log (message level : string) : M (S := St) unit :=
  on_gui (fun g => set_log_messages (log_messages g ++ [mkLog level message]) g).

Definition default_title : string := "# SwarmPAL TFA Quicklook".

Definition update_analysis (title : string) : M (S := St) unit :=
  raw <- self raw_data ;;
  match raw with
  | None =>
      on_gui (set_output_title (Some "Please fetch data first")) ;;
      log "No data available for analysis" "warning"
  | Some _ =>
      try_finally
        (try_except
           (set_loading true ;;
            log "Running analysis with current parameters..." "info" ;;
            config <- (g <- self id ;; lift (make_config g)) ;;
            raw <- self raw_data ;;
            copy <- in_world (deepcopy raw) ;;
            on_gui (set_data copy) ;;
            d <- self data ;;
            process_params <- lift (getitem config "process_params") ;;
            in_world (swarmpal_apply_processes d process_params) ;;
            on_gui (set_output_title (Some title)) ;;
            cli <- (g <- self id ;; lift (get_cli g)) ;;
            on_gui (set_cli_command (Some cli)) ;;
            code <- (g <- self id ;; lift (get_vires_code g)) ;;
            on_gui (set_code_snippet (Some code)) ;;
            d <- self data ;;
            falsy <- in_world (is_falsy d) ;;
            if falsy : bool then ret tt
            else
              html <- in_world (repr_html_of d) ;;
              on_gui (set_data_view (Some html)) ;;
              cdf <- self _using_cdf_input ;;
              if cdf : bool then log "Analysis complete (CDF mode)" "success"
              else
                log "Generating quicklook plot..." "info" ;;
                w <- self widgets ;;
                d <- self data ;;
                fig <- in_world
                         (quicklook_tight d
                            (PStr (isoformat (fst (start_end w))),
                             PStr (isoformat (snd (start_end w))))) ;;
                on_gui (set_swarmpal_quicklook (Some fig)) ;;
                log "Analysis complete" "success")
           (fun e =>
              log ("Error during analysis: " +:+ exn_msg e) "error" ;;
              log (format_exc e) "error" ;;
              raise e))
        (set_loading false)
  end.

Definition update_input_data : M (S := St) unit :=
  g <- self id ;;
  if _using_cdf_input g && negb (fd_value (file_dropper (widgets g)))
  then ret tt
  else
    try_finally
      (try_except
         (set_loading true ;;
          log "Fetching input data..." "info" ;;
          config <- (g <- self id ;; lift (make_config g)) ;;
          fetched <- in_world (swarmpal_fetch_data config) ;;
          on_gui (set_raw_data fetched) ;;
          raw <- self raw_data ;;
          copy <- in_world (deepcopy raw) ;;
          on_gui (set_data copy) ;;
          log "Applying processes..." "info" ;;
          d <- self data ;;
          process_params <- lift (getitem config "process_params") ;;
          in_world (swarmpal_apply_processes d process_params) ;;
          d <- self data ;;
          html <- in_world (repr_html_of d) ;;
          on_gui (set_data_view (Some html)) ;;
          code <- (g <- self id ;; lift (get_vires_code g)) ;;
          on_gui (set_code_snippet (Some code)) ;;
          log "Data fetched and processed successfully" "success")
         (fun e =>
            log ("Error fetching data: " +:+ exn_msg e) "error" ;;
            log (format_exc e) "error" ;;
            raise e))
      (set_loading false) ;;
    update_analysis default_title.

(** *** TFA_GUI: start of a session *)

Definition cache_entry_of (g : TFA_GUI) : CacheEntry :=
  mkCache (raw_data g) (data g) (swarmpal_quicklook g) (data_view g)
    (code_snippet g) (cli_command g).

Definition _load_initial_data : M (S := St) unit :=
  try_except
    (log "Starting TFA dashboard..." "info" ;;
     update_input_data ;;
     g <- self id ;;
     on_world (set_cache (Some (cache_entry_of g))) ;;
     log "Dashboard initialized successfully" "success")
    (fun e =>
       log ("Failed to load initial data: " +:+ exn_msg e) "error" ;;
       log (format_exc e) "error").

(** The attributes [__init__] sets before it looks at the cache. *)
Definition new_gui (w : Widgets) : TFA_GUI :=
  mkGUI w None None None None None [] "📋 View Logs" "light" false
    None None None.

Definition init_from_cache_or_load : M (S := St) unit :=
  c <- gets (fun s : St => cache (fst s)) ;;
  match c with
  | Some cached =>
      try_except
        (log "Loading from cache..." "info" ;;
         on_gui (set_raw_data (c_raw_data cached)) ;;
         on_gui (set_data (c_data cached)) ;;
         on_gui (set_swarmpal_quicklook (c_figure cached)) ;;
         on_gui (set_data_view (c_data_view cached)) ;;
         on_gui (set_code_snippet (c_code_snippet cached)) ;;
         on_gui (set_cli_command (c_cli_command cached)) ;;
         on_gui (set_output_title (Some default_title)) ;;
         log "Loaded from cache successfully" "success")
        (fun e =>
           log ("Failed to load from cache: " +:+ exn_msg e) "warning" ;;
           _load_initial_data)
  | None => _load_initial_data
  end.

(** [TFA_GUI(widgets)] in a process whose state is [w]. *)
Definition __init__ (w0 : Widgets) (w : World) : St * result unit :=
  init_from_cache_or_load (w, new_gui w0).

(** *** Module level: the precache and the dashboard object *)

Definition default_config : PyVal :=
  PDict [
    ("data_params",
     vires_data_params "SW_OPER_MAGA_LR_1B"
       (isoformat (datetime 2026 1 1 0 0)) (isoformat (datetime 2026 1 2 0 0)));
    ("process_params",
     tfa_process_params "SW_OPER_MAGA_LR_1B" 2 1.0 300 "iqr" 0.5 0.02 0.02 0.1 0.1)].

Definition _populate_tfa_cache : M (S := World) unit :=
  c <- gets cache ;;
  match c with
  | Some _ => ret tt
  | None =>
      print "Starting TFA precache..." ;;
      try_except
        (raw <- swarmpal_fetch_data default_config ;;
         d <- deepcopy raw ;;
         process_params <- lift (getitem default_config "process_params") ;;
         swarmpal_apply_processes d process_params ;;
         tlims <- lift
           (let? dp := getitem default_config "data_params" in
            let? dp0 := getindex dp 0 in
            let? t0 := getitem dp0 "start_time" in
            let? dp := getitem default_config "data_params" in
            let? dp0 := getindex dp 0 in
            let? t1 := getitem dp0 "end_time" in
            Ok (t0, t1)) ;;
         fig <- quicklook_tight d tlims ;;
         html <- repr_html_of d ;;
         modify (set_cache (Some (mkCache raw d (Some fig) (Some html)
           (Some "# Code snippet will be generated on first use")
           (Some "# CLI command will be generated on first use")))) ;;
         print "TFA precache completed successfully.")
        (fun e =>
           print ("TFA precache failed: " +:+ exn_msg e) ;;
           print (format_exc e))
  end.

(** Loading the module: [_populate_tfa_cache()], then
    [tfa_gui = TFA_GUI(widgets)]. *)
Definition module_load (w : World) : St * result unit :=
  __init__ widgets0 (fst (_populate_tfa_cache w)).

(** *** Notions used to state the properties *)

(** Every object of [w] is in [w'], unchanged. *)
Definition heap_preserved (w w' : World) : Prop :=
  forall r d, heap w !! r = Some d -> heap w' !! r = Some d.

(** The names of the steps of a list [process_params], in order. *)
Definition process_names (process_params : PyVal) : list (option PyVal) :=
  match process_params with
  | PList steps =>
      map (fun step =>
             match step with
             | PDict d => dict_get "process_name" d
             | _ => None
             end) steps
  | _ => []
  end.

Definition no_fetch (evs : list Event) : bool :=
  forallb (fun e => negb (is_fetch e)) evs.

(** The number of calls of [swarmpal.fetch_data] that one run of
    [update_input_data] makes: none when it returns at once (the file tab is
    active and no file was dropped) or when the configuration cannot be
    built, one otherwise. *)
Definition fetches_of_update_input_data (g : TFA_GUI) : nat :=
  if _using_cdf_input g && negb (fd_value (file_dropper (widgets g))) then O
  else if is_ok (make_config g) then 1%nat else O.

Definition append_log (level message : string) (g : TFA_GUI) : TFA_GUI :=
  set_log_messages (log_messages g ++ [mkLog level message]) g.

Definition default_process_params : PyVal :=
  tfa_process_params "SW_OPER_MAGA_LR_1B" 2 1.0 300 "iqr" 0.5 0.02 0.02 0.1 0.1.

Definition default_tlims : PyVal * PyVal :=
  (PStr (isoformat (datetime 2026 1 1 0 0)), PStr (isoformat (datetime 2026 1 2 0 0))).

Definition code_placeholder : string := "# Code snippet will be generated on first use".
Definition cli_placeholder : string := "# CLI command will be generated on first use".


End Controller.
End TFA.

(* ===================================================================== *)
(** ** dashboards/DSECS.py                                                *)
(* ===================================================================== *)

Module DSECS.
Import Py.
Local Open Scope py_scope.

(** What the module gets from outside: xarray's [open_datatree] and the
    methods of the data tree it returns ([str(x)], [str(x.groups)] when the
    object has [groups], the name of its type, the keys of [x.__dict__] when
    it has one), the plotting functions, and the template of [common.py].
    Text written to the standard output is not modelled. *)
Class Externals : Type := {
  Dataset : Type;
  Figure : Type;
  open_datatree : string -> result Dataset;
  _repr_html_ : Dataset -> result string;
  str : Dataset -> result string;
  groups_str : Dataset -> option (result string);
  type_name : Dataset -> string;
  attributes : Dataset -> option (list string);
  quicklook : Dataset -> result (list (Z * Figure));
  set_size_inches : Figure -> Z -> Z -> Figure * option Exn;
  tight_layout : Figure -> Figure * option Exn;
  _pending_matplotlib_figure : Figure;
  render_code : string -> string -> bool -> bool -> result string;
  format_exc : Exn -> string;
}.

(** An [IntSlider] and a [Button], by the parameters the dashboard sets. *)
Record Slider := mkSlider {
  sl_start : Z; sl_end : Z; sl_value : Z; sl_disabled : bool
}.
Record Button := mkButton { btn_name : string; btn_disabled : bool }.

(** A periodic callback registered with the server: the list [frames] its
    closure [advance_frame] captured, and its period in milliseconds. *)
Record PeriodicCallback := mkCallback {
  cb_id : nat; cb_frames : list Z; cb_period : Z
}.

(** *** Lists of frame indices and dictionaries of figures *)

Fixpoint index_of (x : Z) (l : list Z) : option nat :=
  match l with
  | [] => None
  | y :: l' => if x =? y then Some O else option_map S (index_of x l')
  end.

Definition py_min (k : Z) (ks : list Z) : Z := fold_left Z.min ks k.
Definition py_max (k : Z) (ks : list Z) : Z := fold_left Z.max ks k.

Section Explorer.
Context `{E : Externals}.

Fixpoint dict_lookup (k : Z) (d : list (Z * Figure)) : option Figure :=
  match d with
  | [] => None
  | (k', v) :: d' => if k =? k' then Some v else dict_lookup k d'
  end.

(** [d[k] = v]: a key already present keeps its place. *)
Fixpoint dict_store (k : Z) (v : Figure) (d : list (Z * Figure))
  : list (Z * Figure) :=
  match d with
  | [] => [(k, v)]
  | (k', v') :: d' =>
      if k =? k' then (k, v) :: d' else (k', v') :: dict_store k v d'
  end.

Definition keys (d : list (Z * Figure)) : list Z := map fst d.

(** The attributes of a [DsecsDataExplorer] object; a pane is given by its
    [object]. [periodic_callbacks] are the callbacks running in the server
    for this session, [callbacks_created] numbers them. *)
Record DsecsDataExplorer := mkExplorer {
  netcdf_dropper : FileDropper;
  start_end : DateTime * DateTime;
  data : option Dataset;
  preprocessed : bool;
  analyzed : bool;
  status_info : string;
  data_view : option string;
  code_snippet : option string;
  swarmpal_animated : option Figure;
  frame_slider : Slider;
  play_button : Button;
  animation_figures : list (Z * Figure);
  animation_playing : bool;
  _animation_callback : option PeriodicCallback;
  periodic_callbacks : list PeriodicCallback;
  callbacks_created : nat;
}.

(** *** Attribute assignment *)

Definition set_data (v : option Dataset) (x : DsecsDataExplorer)
  : DsecsDataExplorer :=
  mkExplorer (netcdf_dropper x) (start_end x) v (preprocessed x) (analyzed x)
    (status_info x) (data_view x) (code_snippet x) (swarmpal_animated x)
    (frame_slider x) (play_button x) (animation_figures x)
    (animation_playing x) (_animation_callback x) (periodic_callbacks x)
    (callbacks_created x).
Definition set_preprocessed (v : bool) (x : DsecsDataExplorer)
  : DsecsDataExplorer :=
  mkExplorer (netcdf_dropper x) (start_end x) (data x) v (analyzed x)
    (status_info x) (data_view x) (code_snippet x) (swarmpal_animated x)
    (frame_slider x) (play_button x) (animation_figures x)
    (animation_playing x) (_animation_callback x) (periodic_callbacks x)
    (callbacks_created x).
Definition set_analyzed (v : bool) (x : DsecsDataExplorer)
  : DsecsDataExplorer :=
  mkExplorer (netcdf_dropper x) (start_end x) (data x) (preprocessed x) v
    (status_info x) (data_view x) (code_snippet x) (swarmpal_animated x)
    (frame_slider x) (play_button x) (animation_figures x)
    (animation_playing x) (_animation_callback x) (periodic_callbacks x)
    (callbacks_created x).
Definition set_status_info (v : string) (x : DsecsDataExplorer)
  : DsecsDataExplorer :=
  mkExplorer (netcdf_dropper x) (start_end x) (data x) (preprocessed x)
    (analyzed x) v (data_view x) (code_snippet x) (swarmpal_animated x)
    (frame_slider x) (play_button x) (animation_figures x)
    (animation_playing x) (_animation_callback x) (periodic_callbacks x)
    (callbacks_created x).
Definition set_data_view (v : option string) (x : DsecsDataExplorer)
  : DsecsDataExplorer :=
  mkExplorer (netcdf_dropper x) (start_end x) (data x) (preprocessed x)
    (analyzed x) (status_info x) v (code_snippet x) (swarmpal_animated x)
    (frame_slider x) (play_button x) (animation_figures x)
    (animation_playing x) (_animation_callback x) (periodic_callbacks x)
    (callbacks_created x).
Definition set_code_snippet (v : option string) (x : DsecsDataExplorer)
  : DsecsDataExplorer :=
  mkExplorer (netcdf_dropper x) (start_end x) (data x) (preprocessed x)
    (analyzed x) (status_info x) (data_view x) v (swarmpal_animated x)
    (frame_slider x) (play_button x) (animation_figures x)
    (animation_playing x) (_animation_callback x) (periodic_callbacks x)
    (callbacks_created x).
Definition set_swarmpal_animated (v : option Figure) (x : DsecsDataExplorer)
  : DsecsDataExplorer :=
  mkExplorer (netcdf_dropper x) (start_end x) (data x) (preprocessed x)
    (analyzed x) (status_info x) (data_view x) (code_snippet x) v
    (frame_slider x) (play_button x) (animation_figures x)
    (animation_playing x) (_animation_callback x) (periodic_callbacks x)
    (callbacks_created x).
Definition set_frame_slider (v : Slider) (x : DsecsDataExplorer)
  : DsecsDataExplorer :=
  mkExplorer (netcdf_dropper x) (start_end x) (data x) (preprocessed x)
    (analyzed x) (status_info x) (data_view x) (code_snippet x)
    (swarmpal_animated x) v (play_button x) (animation_figures x)
    (animation_playing x) (_animation_callback x) (periodic_callbacks x)
    (callbacks_created x).
Definition set_play_button (v : Button) (x : DsecsDataExplorer)
  : DsecsDataExplorer :=
  mkExplorer (netcdf_dropper x) (start_end x) (data x) (preprocessed x)
    (analyzed x) (status_info x) (data_view x) (code_snippet x)
    (swarmpal_animated x) (frame_slider x) v (animation_figures x)
    (animation_playing x) (_animation_callback x) (periodic_callbacks x)
    (callbacks_created x).
Definition set_animation_figures (v : list (Z * Figure)) (x : DsecsDataExplorer)
  : DsecsDataExplorer :=
  mkExplorer (netcdf_dropper x) (start_end x) (data x) (preprocessed x)
    (analyzed x) (status_info x) (data_view x) (code_snippet x)
    (swarmpal_animated x) (frame_slider x) (play_button x) v
    (animation_playing x) (_animation_callback x) (periodic_callbacks x)
    (callbacks_created x).
Definition set_animation_playing (v : bool) (x : DsecsDataExplorer)
  : DsecsDataExplorer :=
  mkExplorer (netcdf_dropper x) (start_end x) (data x) (preprocessed x)
    (analyzed x) (status_info x) (data_view x) (code_snippet x)
    (swarmpal_animated x) (frame_slider x) (play_button x)
    (animation_figures x) v (_animation_callback x) (periodic_callbacks x)
    (callbacks_created x).
Definition set__animation_callback (v : option PeriodicCallback) (x : DsecsDataExplorer)
  : DsecsDataExplorer :=
  mkExplorer (netcdf_dropper x) (start_end x) (data x) (preprocessed x)
    (analyzed x) (status_info x) (data_view x) (code_snippet x)
    (swarmpal_animated x) (frame_slider x) (play_button x)
    (animation_figures x) (animation_playing x) v (periodic_callbacks x)
    (callbacks_created x).
Definition set_periodic_callbacks (v : list PeriodicCallback) (x : DsecsDataExplorer)
  : DsecsDataExplorer :=
  mkExplorer (netcdf_dropper x) (start_end x) (data x) (preprocessed x)
    (analyzed x) (status_info x) (data_view x) (code_snippet x)
    (swarmpal_animated x) (frame_slider x) (play_button x)
    (animation_figures x) (animation_playing x) (_animation_callback x) v
    (callbacks_created x).
Definition set_callbacks_created (v : nat) (x : DsecsDataExplorer)
  : DsecsDataExplorer :=
  mkExplorer (netcdf_dropper x) (start_end x) (data x) (preprocessed x)
    (analyzed x) (status_info x) (data_view x) (code_snippet x)
    (swarmpal_animated x) (frame_slider x) (play_button x)
    (animation_figures x) (animation_playing x) (_animation_callback x)
    (periodic_callbacks x) v.

(** The object [__init__] leaves. *)
Definition new_explorer (dropper : FileDropper) (range : DateTime * DateTime)
  : DsecsDataExplorer := {|
  netcdf_dropper := dropper;
  start_end := range;
  data := None;
  preprocessed := false;
  analyzed := false;
  status_info := "Ready to fetch data...";
  data_view := None;
  code_snippet := None;
  swarmpal_animated := None;
  frame_slider := mkSlider 0 0 0 true;
  play_button := mkButton "▶ Play" true;
  animation_figures := [];
  animation_playing := false;
  _animation_callback := None;
  periodic_callbacks := [];
  callbacks_created := O;
|}.

Definition self {A} (f : DsecsDataExplorer -> A) : M (S := DsecsDataExplorer) A :=
  gets f.


Definition set_status (text : string) : M (S := DsecsDataExplorer) unit :=
  modify (set_status_info text).

(** *** Data view and code snippet *)

(** [str(l)] for a list of attribute names. *)
Definition repr_list (l : list string) : string :=
  "[" +:+ String.concat ", " (map (fun a => "'" +:+ a +:+ "'") l) +:+ "]".

Definition pre_open : string :=
  "<pre style='white-space: pre-wrap; font-family: monospace; font-size: 12px; max-height: 400px; overflow-y: auto;'>".

Definition _update_data_view : M (S := DsecsDataExplorer) unit :=
  d <- self data ;;
  match d with
  | Some x =>
      try_except
        (html <- lift (_repr_html_ x) ;;
         modify (set_data_view (Some html)))
        (fun e =>
           try_except
             (raw_string <- lift (str x) ;;
              modify (set_data_view (Some (pre_open +:+ raw_string +:+ "</pre>"))))
             (fun e2 =>
                let error_info := "❌ Error displaying data: " +:+ exn_msg e +:+ nl in
                let error_info :=
                  error_info +:+ "Fallback error: " +:+ exn_msg e2 +:+ nl in
                let error_info :=
                  error_info +:+ "Data type: <class '" +:+ type_name x +:+ "'>" +:+ nl in
                let error_info :=
                  match attributes x with
                  | Some names => error_info +:+ "Attributes: " +:+ repr_list names
                  | None => error_info
                  end in
                modify (set_data_view (Some ("<pre>" +:+ error_info +:+ "</pre>")))))
  | None => modify (set_data_view (Some "<p>No data loaded</p>"))
  end.

(** [get_code]: the template is rendered with [mode="vires"], the two ends
    of the time range, and the two flags. *)
Definition get_code (x : DsecsDataExplorer) : result string :=
  render_code (isoformat (fst (start_end x))) (isoformat (snd (start_end x)))
    (preprocessed x) (analyzed x).

Definition _update_code_snippet : M (S := DsecsDataExplorer) unit :=
  try_except
    (code <- (x <- self id ;; lift (get_code x)) ;;
     modify (set_code_snippet (Some ("```python" +:+ nl +:+ code +:+ nl +:+ "```"))))
    (fun _ => modify (set_code_snippet (Some "Code snippet generation failed"))).

(** *** Animation player *)

(** The watcher of the slider's [value]; [frame] is [event.new]. *)
Definition _update_animation_frame (frame : Z) : M (S := DsecsDataExplorer) unit :=
  figs <- self animation_figures ;;
  match dict_lookup frame figs with
  | Some fig => modify (set_swarmpal_animated (Some fig))
  | None => ret tt
  end.

(** [self.frame_slider.value = v]: the watcher runs when the value changes.
    This is also what a scrub of the slider by the user does. *)
Definition set_frame_slider_value (v : Z) : M (S := DsecsDataExplorer) unit :=
  sl <- self frame_slider ;;
  modify (set_frame_slider (mkSlider (sl_start sl) (sl_end sl) v (sl_disabled sl))) ;;
  if v =? sl_value sl then ret tt else _update_animation_frame v.

(** [self.frame_slider.param.update(start=, end=, value=, disabled=)]. *)
Definition frame_slider_update (start stop value : Z) (disabled : bool)
  : M (S := DsecsDataExplorer) unit :=
  sl <- self frame_slider ;;
  modify (set_frame_slider (mkSlider start stop value disabled)) ;;
  if value =? sl_value sl then ret tt else _update_animation_frame value.

Definition _disable_animation_controls : M (S := DsecsDataExplorer) unit :=
  sl <- self frame_slider ;;
  modify (set_frame_slider
            (mkSlider (sl_start sl) (sl_end sl) (sl_value sl) true)) ;;
  b <- self play_button ;;
  modify (set_play_button (mkButton (btn_name b) true)) ;;
  modify (set_swarmpal_animated (Some _pending_matplotlib_figure)).

(** The loop of [_setup_animated_quicklook]: each figure is resized in
    place and stored under its key, also when resizing raised. *)
Definition resize_figures (figures_dict : list (Z * Figure)) : list (Z * Figure) :=
  fold_left
    (fun resized_figures item =>
       let frame_id := fst item in
       let sized := set_size_inches (snd item) 12 8 in
       match snd sized with
       | Some e => dict_store frame_id (fst sized) resized_figures
       | None =>
           let tight := tight_layout (fst sized) in
           match snd tight with
           | Some e => dict_store frame_id (fst tight) resized_figures
           | None => dict_store frame_id (fst tight) resized_figures
           end
       end)
    figures_dict [].

Definition _setup_animated_quicklook (figures_dict : list (Z * Figure))
  : M (S := DsecsDataExplorer) unit :=
  let resized_figures := resize_figures figures_dict in
  modify (set_animation_figures resized_figures) ;;
  match resized_figures with
  | [] => _disable_animation_controls
  | _ :: _ =>
      match keys resized_figures with
      | [] => _disable_animation_controls
      | k :: ks =>
          frame_slider_update (py_min k ks) (py_max k ks) (py_min k ks) false ;;
          b <- self play_button ;;
          modify (set_play_button (mkButton (btn_name b) false)) ;;
          match dict_lookup (py_min k ks) resized_figures with
          | Some fig => modify (set_swarmpal_animated (Some fig))
          | None => raise (mkExn "KeyError" (pretty (py_min k ks)))
          end
      end
  end.

Definition _update_quicklook : M (S := DsecsDataExplorer) unit :=
  d <- self data ;;
  a <- self analyzed ;;
  match d with
  | Some x =>
      if a : bool then
        try_except
          (figs <- lift (quicklook x) ;;
           match figs with
           | _ :: _ => _setup_animated_quicklook figs
           | [] => set_status "⚠️ No figures generated from DSECS quicklook"
           end)
          (fun e => set_status ("⚠️ Plotting error: " +:+ exn_msg e))
      else ret tt
  | None => ret tt
  end.

Definition same_callback (a b : PeriodicCallback) : bool :=
  Nat.eqb (cb_id a) (cb_id b).

Definition _start_animation : M (S := DsecsDataExplorer) unit :=
  figs <- self animation_figures ;;
  let frames := keys figs in
  match frames with
  | [] => ret tt
  | _ :: _ =>
      n <- self callbacks_created ;;
      let cb := mkCallback n frames 1200 in
      modify (set_callbacks_created (S n)) ;;
      running <- self periodic_callbacks ;;
      modify (set_periodic_callbacks (running ++ [cb])) ;;
      modify (set__animation_callback (Some cb))
  end.

Definition _toggle_animation : M (S := DsecsDataExplorer) unit :=
  playing <- self animation_playing ;;
  if playing : bool then
    modify (set_animation_playing false) ;;
    b <- self play_button ;;
    modify (set_play_button (mkButton "▶ Play" (btn_disabled b))) ;;
    cb <- self _animation_callback ;;
    match cb with
    | Some c =>
        running <- self periodic_callbacks ;;
        modify (set_periodic_callbacks
                  (List.filter (fun c' => negb (same_callback c' c)) running)) ;;
        modify (set__animation_callback None)
    | None => ret tt
    end
  else
    modify (set_animation_playing true) ;;
    b <- self play_button ;;
    modify (set_play_button (mkButton "⏸ Pause" (btn_disabled b))) ;;
    _start_animation.

(** The closure [advance_frame] of [_start_animation], over the list
    [frames] it captured. *)
Definition advance_frame (frames : list Z) : M (S := DsecsDataExplorer) unit :=
  playing <- self animation_playing ;;
  if negb playing then ret tt
  else
    sl <- self frame_slider ;;
    let current_frame := sl_value sl in
    let current_idx :=
      match index_of current_frame frames with
      | Some i => i
      | None => O
      end in
    match frames with
    | [] => raise (mkExn "ZeroDivisionError" "integer modulo by zero")
    | _ :: _ =>
        let next_idx := ((current_idx + 1) mod length frames)%nat in
        match frames !! next_idx with
        | Some next_frame => set_frame_slider_value next_frame
        | None => raise (mkExn "IndexError" "list index out of range")
        end
    end.

(** One firing of a periodic callback: nothing happens once it is stopped. *)
Definition tick (cb : PeriodicCallback) : M (S := DsecsDataExplorer) unit :=
  running <- self periodic_callbacks ;;
  if existsb (same_callback cb) running then advance_frame (cb_frames cb)
  else ret tt.

(** *** Loading a NetCDF file *)

(** The local variables of [load_netcdf_data]; [None] is a name not yet
    bound. *)
Record Frame := mkFrame { file_path : option string; filename : option string }.

Definition on_self {A} (m : M (S := DsecsDataExplorer) A)
  : M (S := DsecsDataExplorer * Frame) A :=
  fun s => let out := m (fst s) in ((fst out, snd s), snd out).

Definition bind_file_path (v : string) : M (S := DsecsDataExplorer * Frame) unit :=
  modify (fun s => (fst s, mkFrame (Some v) (filename (snd s)))).

Definition bind_filename (v : string) : M (S := DsecsDataExplorer * Frame) unit :=
  modify (fun s => (fst s, mkFrame (file_path (snd s)) (Some v))).

(** Reading a local name: [UnboundLocalError] while it is not bound. *)
Definition read_local (name : string) (f : Frame -> option string)
  : M (S := DsecsDataExplorer * Frame) string :=
  v <- gets (fun s => f (snd s)) ;;
  match v with
  | Some v => ret v
  | None =>
      raise (mkExn "UnboundLocalError"
               ("cannot access local variable '" +:+ name
                +:+ "' where it is not associated with a value"))
  end.

Definition load_netcdf_try : M (S := DsecsDataExplorer * Frame) unit :=
  try_except
    (x <- on_self (self id) ;;
     p <- lift (attr_name (temp_file (netcdf_dropper x))) ;;
     bind_file_path p ;;
     f <- lift (attr_name (file_in_mem (netcdf_dropper x))) ;;
     bind_filename f ;;
     fn <- read_local "filename" filename ;;
     on_self (set_status ("🔄 Loading file: " +:+ fn +:+ "...")) ;;
     fp <- read_local "file_path" file_path ;;
     d <- lift (open_datatree fp) ;;
     on_self (modify (set_data (Some d))) ;;
     data_str <- lift (str d) ;;
     groups <- lift (match groups_str d with
                     | Some text => text
                     | None => str d
                     end) ;;
     if contains "DSECS_output" groups || contains "currents" groups then
       on_self
         (modify (set_preprocessed true) ;;
          modify (set_analyzed true) ;;
          set_status "✅ **Pre-computed DSECS results loaded successfully!**" ;;
          _update_data_view ;;
          _update_quicklook ;;
          _update_code_snippet)
     else
       on_self
         (modify (set_preprocessed false) ;;
          modify (set_analyzed false) ;;
          set_status "✅ Raw data loaded from NetCDF (ready for processing" ;;
          _update_data_view ;;
          _update_code_snippet))
    (fun e =>
       let error_details := format_exc e in
       fn <- read_local "filename" filename ;;
       on_self
         (set_status
            ("❌ **Failed to load file '" +:+ fn +:+ "':** " +:+ exn_msg e
             +:+ "<br><details><summary>Click for details</summary><pre>"
             +:+ error_details +:+ "</pre></details>"))).

Definition load_netcdf_data : M (S := DsecsDataExplorer) unit :=
  x <- self id ;;
  if negb (fd_value (netcdf_dropper x)) then
    set_status "⚠️ Please upload a NetCDF file first"
  else
    fun x =>
      let out := load_netcdf_try (x, mkFrame None None) in
      (fst (fst out), snd out).

(** *** Notions used to state the properties *)

(** The status after a failure to load the file [name]. *)
Definition failed_to_load (name : string) (e : Exn) : string :=
  "❌ **Failed to load file '" +:+ name +:+ "':** " +:+ exn_msg e
  +:+ "<br><details><summary>Click for details</summary><pre>"
  +:+ format_exc e +:+ "</pre></details>".

(** What reading [filename] raises while it is not bound. *)
Definition unbound_filename : Exn :=
  mkExn "UnboundLocalError"
    "cannot access local variable 'filename' where it is not associated with a value".

(** The position [advance_frame] starts from: that of the slider's value
    in the captured list, and the first one for a value that is not in it. *)
Definition current_position (frames : list Z) (value : Z) : nat :=
  match index_of value frames with
  | Some i => i
  | None => O
  end.


End Explorer.
End DSECS.

(* ===================================================================== *)
(** ** Concrete collaborators for the examples                            *)
(* ===================================================================== *)

Module TFA_Demo.
Import Py TFA.

(** A toolbox whose datasets and figures are texts that record what was done
    to them. The two flags make the fetch, or the processing chain, raise. *)
Definition demo (fetch_fails apply_fails : bool) : Collaborators := {|
  Dataset := string;
  Figure := string;
  fetch_data n config :=
    if fetch_fails then Raise (mkExn "ConnectionError" "server unreachable")
    else Ok ("raw" +:+ pretty n);
  apply_processes d process_params :=
    if apply_fails then (d +:+ "|partial", Some (mkExn "KeyError" "B_NEC"))
    else (d +:+ "|tfa", None);
  quicklook d tlims := Ok ("plot of " +:+ d);
  _repr_html_ d := Ok ("<div>" +:+ d +:+ "</div>");
  dataset_bool d := true;
  tight_layout fig := (fig +:+ " (tight)", None);
  repr v := "value";
  dump v := "yaml";
  render template config := Ok (template +:+ ":" +:+ config);
  replace s old new := s;
  stem s := s;
  strip_date_version s := s;
  format_exc e := "Traceback: " +:+ exn_type e +:+ ": " +:+ exn_msg e;
|}.

(** A process with no cache entry and no dataset yet. *)
Definition world0 (C : Collaborators) : World := mkWorld None [] [].

(** A session that holds a raw dataset (object 0) and a processed one
    (object 1), in a process whose cache entry names them. *)
Definition old_entry (C : Collaborators) : CacheEntry :=
  mkCache (Some 0%nat) (Some 1%nat) None (Some "old view") (Some "old code")
    (Some "old cli").

Definition session1 (fetch_fails apply_fails : bool)
  : St (C := demo fetch_fails apply_fails) :=
  let C := demo fetch_fails apply_fails in
  (mkWorld (Some (old_entry C)) ["old raw"; "old processed"] [],
   set_data (Some 1%nat) (set_raw_data (Some 0%nat) (new_gui widgets0))).


(** A toolbox as [demo false false], but whose plot fails for the dataset of
    the first fetch. *)
Definition demo_first_plot_fails : Collaborators := {|
  Dataset := string;
  Figure := string;
  fetch_data n config := Ok ("raw" +:+ pretty n);
  apply_processes d process_params := (d +:+ "|tfa", None);
  quicklook d tlims :=
    if String.eqb d "raw0|tfa"
    then Raise (mkExn "TypeError" "No numeric data to plot.")
    else Ok ("plot of " +:+ d);
  _repr_html_ d := Ok ("<div>" +:+ d +:+ "</div>");
  dataset_bool d := true;
  tight_layout fig := (fig +:+ " (tight)", None);
  repr v := "value";
  dump v := "yaml";
  render template config := Ok (template +:+ ":" +:+ config);
  replace s old new := s;
  stem s := s;
  strip_date_version s := s;
  format_exc e := "Traceback: " +:+ exn_type e +:+ ": " +:+ exn_msg e;
|}.

End TFA_Demo.


Module DSECS_Demo.
Import Py DSECS.

(** A data tree given by what its methods return. *)
Record Tree := mkTree {
  tree_html : result string;
  tree_str : result string;
  tree_groups : option (result string);
  tree_type : string;
  tree_attrs : option (list string);
  tree_figures : result (list (Z * string));
}.

(** Externals for the examples: [open_datatree] gives [file] for every path,
    figures are texts that record what was done to them. *)
Definition demo (file : result Tree) : Externals := {|
  Dataset := Tree;
  Figure := string;
  open_datatree path := file;
  _repr_html_ := tree_html;
  str := tree_str;
  groups_str := tree_groups;
  type_name := tree_type;
  attributes := tree_attrs;
  quicklook := tree_figures;
  set_size_inches fig width height := (fig +:+ " 12x8", None);
  tight_layout fig := (fig +:+ " tight", None);
  _pending_matplotlib_figure := "Processing...";
  render_code start_time end_time preprocessed analyzed := Ok "code";
  format_exc e := "Traceback: " +:+ exn_type e +:+ ": " +:+ exn_msg e;
|}.

Definition no_file : result Tree := Raise (mkExn "FileNotFoundError" "no such file").

Definition default_range : DateTime * DateTime :=
  (datetime 2016 3 18 11 0, datetime 2016 3 18 13 0).

(** The explorer as it is created, with nothing dropped. *)
Definition explorer0 : DsecsDataExplorer (E := demo no_file) :=
  new_explorer (mkFileDropper false None None) default_range.



(** The result of running a statement that is known to return. *)
Definition after {S A} (m : M (S := S) A) (s : S) : S := fst (m s).

(** The player after frames [0], [1], [2] were loaded and play was pressed. *)
Definition playing012 : DsecsDataExplorer (E := demo no_file) :=
  after _toggle_animation
    (after (_setup_animated_quicklook (E := demo no_file)
              [(0, "a"); (1, "b"); (2, "c")]) explorer0).

(** The same for frames [0], [2], [4], and for a dictionary whose keys were
    inserted in the order [0], [2], [1]. *)
Definition playing024 : DsecsDataExplorer (E := demo no_file) :=
  after _toggle_animation
    (after (_setup_animated_quicklook (E := demo no_file)
              [(0, "a"); (2, "b"); (4, "c")]) explorer0).

Definition playing021 : DsecsDataExplorer (E := demo no_file) :=
  after _toggle_animation
    (after (_setup_animated_quicklook (E := demo no_file)
              [(0, "a"); (2, "b"); (1, "c")]) explorer0).

Definition callback0 (frames : list Z) : PeriodicCallback := mkCallback 0 frames 1200.

End DSECS_Demo.

(** The specification's reading of "the next key in cyclic order, wrapping
    after the maximum key back to the minimum": the least key greater than
    [i], and the least key of all when there is none. *)
Definition next_key_cyclic (frames : list Z) (i : Z) : option Z :=
  match List.filter (fun k => i <? k) frames with
  | k :: ks => Some (DSECS.py_min k ks)
  | [] =>
      match frames with
      | k :: ks => Some (DSECS.py_min k ks)
      | [] => None
      end
  end.

(* ===================================================================== *)
(** ** dashboards/TFA.py: log entries, widget events, printed structure   *)
(* ===================================================================== *)

Module TFA_UI.
Import Py TFA.
Local Open Scope py_scope.

(** *** The HTML of a log entry *)

(** The double quote character. *)
Definition dq : string := String (Ascii.ascii_of_nat 34) EmptyString.

(** [s.replace(old, new)] for an [old] of one character. *)
Fixpoint replace_char (old : Ascii.ascii) (new : string) (s : string) : string :=
  match s with
  | EmptyString => EmptyString
  | String c s' =>
      (if Ascii.eqb c old then new else String c EmptyString)
      +:+ replace_char old new s'
  end.

(** The characters that [html.escape] replaces: [&], [<], [>], the double
    quote and the single quote. *)
Definition amp : Ascii.ascii := Ascii.ascii_of_nat 38.
Definition lt : Ascii.ascii := Ascii.ascii_of_nat 60.
Definition gt : Ascii.ascii := Ascii.ascii_of_nat 62.
Definition quot : Ascii.ascii := Ascii.ascii_of_nat 34.
Definition apos : Ascii.ascii := Ascii.ascii_of_nat 39.

(** [html.escape(s)] of the Python library, with its default [quote=True]:
    five replacements, the ampersand first. *)
Definition html_escape (s : string) : string :=
  let s := replace_char amp "&amp;" s in
  let s := replace_char lt "&lt;" s in
  let s := replace_char gt "&gt;" s in
  let s := replace_char quot "&quot;" s in
  let s := replace_char apos "&#x27;" s in
  s.

(** The dictionary [colors] of [log]. *)
Definition colors : list (string * string) :=
  [("info", "#2c3e50"); ("success", "#27ae60");
   ("warning", "#f39c12"); ("error", "#e74c3c")].

Fixpoint colors_lookup (k : string) (d : list (string * string)) : option string :=
  match d with
  | [] => None
  | (k', v) :: d' => if String.eqb k k' then Some v else colors_lookup k d'
  end.

(** [new_entry] of [log], for the time stamp [timestamp] that
    [datetime.datetime.now().strftime("%H:%M:%S")] gave:
    [colors.get(level, colors["info"])], the escaped message, the [div]. *)
Definition new_entry (timestamp level message : string) : result string :=
  let? fallback :=
    match colors_lookup "info" colors with
    | Some c => Ok c
    | None => Raise (mkExn "KeyError" "info")
    end in
  let color :=
    match colors_lookup level colors with
    | Some c => c
    | None => fallback
    end in
  let escaped_message := html_escape message in
  Ok ("<div style=" +:+ dq +:+ "color: " +:+ color +:+ "; margin-bottom: 5px;"
      +:+ dq +:+ "><strong>[" +:+ timestamp +:+ "]</strong> "
      +:+ escaped_message +:+ "</div>").

(** Does the character [c] occur in [s]? *)
Fixpoint occurs (c : Ascii.ascii) (s : string) : bool :=
  match s with
  | EmptyString => false
  | String c' s' => Ascii.eqb c' c || occurs c s'
  end.

(** *** Printed structure: notions for [pprinter] *)

(** [s] with [k] more spaces after each of its line breaks. *)
Fixpoint reindent (k : nat) (s : string) : string :=
  match s with
  | EmptyString => EmptyString
  | String c s' =>
      if Ascii.eqb c (Ascii.ascii_of_nat 10)
      then String c (spaces k +:+ reindent k s')
      else String c (reindent k s')
  end.

Definition one_line (s : string) : bool := negb (occurs (Ascii.ascii_of_nat 10) s).

Section Printed.
Context `{C : Collaborators}.

(** No key of [obj] and no [repr] of a scalar in it holds a line break. *)
Fixpoint flat (obj : PyVal) : bool :=
  match obj with
  | PDict d =>
      (fix items (l : list (string * PyVal)) : bool :=
         match l with
         | [] => true
         | (item, v) :: l' => one_line item && flat v && items l'
         end) d
  | PList l =>
      (fix items (l : list PyVal) : bool :=
         match l with
         | [] => true
         | item :: l' => flat item && items l'
         end) l
  | _ => one_line (repr obj)
  end.

(** *** The callbacks [__init__] registers *)

(** A click on a button, or a change of the [value] of a widget; widgets
    are named by their keys in the dictionary [widgets]. *)
Inductive UIEvent : Type :=
| Click (widget : string)
| ValueChanged (widget : string).

(** The widgets whose [value] [__init__] watches. *)
Definition watched : list string :=
  ["preprocess-active-component"; "preprocess-sampling-rate"; "clean-method";
   "clean-window-size"; "clean-multiplier"; "filter-cutoff";
   "wavelet-min-frequency"; "wavelet-max-frequency"; "wavelet-dj"].

(** What the server runs on an event: [on_click] of the two buttons, and
    [param.watch(self.update_analysis, 'value')] of the nine process
    widgets; no callback is registered for any other widget. The callbacks
    get the event as their first argument, so [title] has its default. *)
Definition dispatch (ev : UIEvent) : M (S := St) unit :=
  match ev with
  | Click widget =>
      if String.eqb widget "button-fetch-data" then update_input_data
      else if String.eqb widget "button-run-analysis" then update_analysis default_title
      else ret tt
  | ValueChanged widget =>
      if existsb (String.eqb widget) watched then update_analysis default_title
      else ret tt
  end.

(** *** Notions used to state the properties *)

(** The indicator of the log button at rest. *)
Definition idle (g : TFA_GUI) : Prop :=
  _is_loading g = false
  /\ log_button_name g = "📋 View Logs"
  /\ log_button_type g = "light".

(** A handle names an object of the store. *)
Definition valid_handle (h : list Dataset) (r : option ref) : Prop :=
  match r with
  | Some r => (r < length h)%nat
  | None => True
  end.

(** Two handles do not name the same object. *)
Definition distinct_handles (a b : option ref) : Prop :=
  match a, b with
  | Some r, Some r' => r <> r'
  | _, _ => True
  end.

(** The handles of the cache entry name two different objects of the
    store. *)
Definition cache_ok (w : World) : Prop :=
  match cache w with
  | Some c =>
      valid_handle (heap w) (c_raw_data c)
      /\ valid_handle (heap w) (c_data c)
      /\ distinct_handles (c_raw_data c) (c_data c)
  | None => True
  end.

(** The same for the handles of a session, in a process whose cache entry
    is in order. *)
Definition session_ok (s : St) : Prop :=
  cache_ok (fst s)
  /\ valid_handle (heap (fst s)) (raw_data (snd s))
  /\ valid_handle (heap (fst s)) (data (snd s))
  /\ distinct_handles (raw_data (snd s)) (data (snd s)).

Definition is_quicklook (e : Event) : bool :=
  match e with EvQuicklook _ _ => true | _ => false end.

End Printed.
End TFA_UI.

Module TFA_UI_Demo.
Import Py TFA TFA_Demo.

(** The widgets with a file dropped. *)
Definition widgets_with_file : Widgets := {|
  spacecraft := "Swarm-A";
  start_end := (datetime 2026 1 1 0 0, datetime 2026 1 2 0 0);
  file_dropper :=
    mkFileDropper true (Some "/tmp/upload.cdf")
      (Some "SW_OPER_MAGA_LR_1B_20260101T000000_20260101T235959_0605.cdf");
  preprocess_active_component := 2;
  preprocess_sampling_rate := 1.0;
  clean_window_size := 300;
  clean_multiplier := 0.5;
  clean_method := "iqr";
  filter_cutoff := 0.02;
  wavelet_min_frequency := 0.02;
  wavelet_max_frequency := 0.1;
  wavelet_dj := 0.1;
|}.

(** A session whose file tab is active, which holds a raw dataset
    (object 0) and has shown a plot. *)
Definition file_session : St (C := demo false false) :=
  let C := demo false false in
  (mkWorld None ["raw of file"] [],
   mkGUI widgets_with_file None (Some "old plot") None
     None None [] "📋 View Logs" "light" false None (Some 0%nat) (Some 1)).

(** A session as it is created, in a process with nothing in it. *)
Definition new_session : St (C := demo false false) :=
  (world0 (demo false false), new_gui widgets0).

End TFA_UI_Demo.

(* ===================================================================== *)
(** ** dashboards/DSECS.py: the handlers of the disabled buttons          *)
(* ===================================================================== *)

Module DSECS_Handlers.
Import Py DSECS.
Local Open Scope py_scope.

(** What these handlers get from swarmpal: the table
    [SPACECRAFT_TO_MAGLR_DATASET], [PalDataItem.from_vires] and
    [create_paldata], the names of the groups of a data tree
    ([list(x.groups.keys())], or [list(x.groups)] when [groups] has no
    [keys]), the two processes of the toolbox, and the formatting of a number
    with one decimal. A process that is called on a tree works on it in
    place: [call p x] gives the tree as it is afterwards and the tree the
    call returned, or the exception it raised. *)
Class Toolbox `{E : Externals} : Type := {
  SPACECRAFT_TO_MAGLR_DATASET : list (string * string);
  Item : Type;
  from_vires : list (string * option PyVal) -> result Item;
  create_paldata : list (string * Item) -> result Dataset;
  dataset_names : Dataset -> result (list string);
  Process : Type;
  Preprocess : result Process;
  Analysis : result Process;
  set_config : Process -> string -> string -> result Process;
  call : Process -> Dataset -> Dataset * result Dataset;
  format_1f : Q -> string;
}.

(** [d.get(k)] on a dictionary of texts. *)
Fixpoint dict_get_str (k : string) (d : list (string * string)) : option string :=
  match d with
  | [] => None
  | (k', v) :: d' => if String.eqb k k' then Some v else dict_get_str k d'
  end.

(** Equality of two keys that may be [None]. *)
Definition key_eqb (a b : option string) : bool :=
  match a, b with
  | Some x, Some y => String.eqb x y
  | None, None => true
  | _, _ => false
  end.

Section Handlers.
Context `{T : Toolbox}.

(** *** get_data_config and fetch_data *)

(** The keyword arguments of one request; [None] is Python's [None]. *)
Definition Request : Type := list (string * option PyVal).

(** [d[k] = v]: a key already present keeps its place. *)
Fixpoint config_store (k : option string) (v : Request)
    (d : list (option string * Request)) : list (option string * Request) :=
  match d with
  | [] => [(k, v)]
  | (k', v') :: d' =>
      if key_eqb k k' then (k, v) :: d' else (k', v') :: config_store k v d'
  end.

Definition request_of (collection : option string) (start_time end_time : string)
  : Request :=
  [("collection", option_map PStr collection);
   ("measurements", Some (PList [PStr "B_NEC"]));
   ("models", Some (PList [PStr "Model = CHAOS"]));
   ("auxiliaries", Some (PList [PStr "QDLat"]));
   ("start_time", Some (PStr start_time));
   ("end_time", Some (PStr end_time));
   ("filters", Some (PList [PStr "OrbitDirection == 1"]));
   ("server_url", Some (PStr "https://vires.services/ows"));
   ("options",
    Some (PDict [("asynchronous", PBool false); ("show_progress", PBool false)]))].

Definition get_data_config (x : DsecsDataExplorer)
  : list (option string * Request) :=
  let spacecraft := ["Swarm-A"; "Swarm-C"] in
  let collections :=
    map (fun sc => dict_get_str sc SPACECRAFT_TO_MAGLR_DATASET) spacecraft in
  fold_left
    (fun data_config collection =>
       config_store collection
         (request_of collection
            (isoformat (fst (start_end x))) (isoformat (snd (start_end x))))
         data_config)
    collections [].

(** The dictionary comprehension of [fetch_data]: one item per entry, in
    order, up to the first request that raises. *)
Fixpoint from_vires_all (config : list (option string * Request))
  : result (list (option string * Item)) :=
  match config with
  | [] => Ok []
  | (label, data_params) :: config' =>
      let? item := from_vires data_params in
      let? items := from_vires_all config' in
      Ok ((label, item) :: items)
  end.

(** A call with the dictionary [d] as its keyword arguments: every key of
    [d] has to be a text. *)
Fixpoint keywords (d : list (option string * Item)) : result (list (string * Item)) :=
  match d with
  | [] => Ok []
  | (Some label, item) :: d' =>
      let? rest := keywords d' in
      Ok ((label, item) :: rest)
  | (None, _) :: _ => Raise (mkExn "TypeError" "keywords must be strings")
  end.

(** [fetch_data]; of the three lines it prints, what their arguments
    evaluate: [str(data.groups)] when the tree has [groups], and
    [str(data)]. *)
Definition fetch_data : M (S := DsecsDataExplorer) Dataset :=
  x <- self id ;;
  items <- lift (from_vires_all (get_data_config x)) ;;
  kwargs <- lift (keywords items) ;;
  data <- lift (create_paldata kwargs) ;;
  set_status "Fetched data from VirES" ;;
  _ <- lift (match groups_str data with
             | Some text => text
             | None => Ok "No groups attribute"
             end) ;;
  _ <- lift (str data) ;;
  ret data.

Definition update_input_data : M (S := DsecsDataExplorer) unit :=
  try_except
    (fetched <- fetch_data ;;
     modify (set_data (Some fetched)) ;;
     modify (set_preprocessed false) ;;
     modify (set_analyzed false) ;;
     d <- self data ;;
     _ <- lift (match d with
                | Some x => str x
                | None => Ok "None"
                end) ;;
     _update_data_view ;;
     _update_code_snippet)
    (fun e => set_status ("❌ Data fetch failed: " +:+ exn_msg e)).

(** *** run_preprocessing *)

Definition is_alpha (name : string) : bool :=
  contains "MAGA" name || contains "Swarm-A" name.

Definition is_charlie (name : string) : bool :=
  contains "MAGC" name || contains "Swarm-C" name.

(** The loop that looks for the two datasets: the pair
    [(alpha_dataset, charlie_dataset)] after it. *)
Definition find_datasets (dataset_names : list string)
  : option string * option string :=
  fold_left
    (fun found name =>
       if is_alpha name then (Some name, snd found)
       else if is_charlie name then (fst found, Some name)
       else found)
    dataset_names (None, None).

(** The value of a name that is neither [None] nor empty. *)
Definition truthy (v : option string) : option string :=
  match v with
  | Some s => if String.eqb s EmptyString then None else Some s
  | None => None
  end.

Definition run_preprocessing : M (S := DsecsDataExplorer) unit :=
  d <- self data ;;
  match d with
  | None => set_status "⚠️ Please fetch data first"
  | Some x =>
      try_except
        (p1 <- lift Preprocess ;;
         dataset_names <- lift (dataset_names x) ;;
         set_status ("🔍 Found datasets: " +:+ repr_list dataset_names) ;;
         let found := find_datasets dataset_names in
         match truthy (fst found), truthy (snd found) with
         | Some alpha_dataset, Some charlie_dataset =>
             p1 <- lift (set_config p1 alpha_dataset charlie_dataset) ;;
             let out := call p1 x in
             modify (set_data (Some (fst out))) ;;
             returned <- lift (snd out) ;;
             modify (set_data (Some returned)) ;;
             modify (set_preprocessed true) ;;
             set_status "✅ Preprocessing completed" ;;
             _update_data_view ;;
             _update_code_snippet
         | _, _ =>
             set_status "⚠️ Could not find both Swarm-A and Swarm-C datasets"
         end)
        (fun e => set_status ("❌ Preprocessing failed: " +:+ exn_msg e))
  end.

(** *** run_analysis *)

(** [start_time] and [end_time] are what the two readings of the clock
    give, in seconds. *)
Definition run_analysis (start_time end_time : Q)
  : M (S := DsecsDataExplorer) unit :=
  d <- self data ;;
  match d with
  | None => set_status "⚠️ Please fetch data first"
  | Some x =>
      p <- self preprocessed ;;
      if negb p then set_status "⚠️ Please run preprocessing first"
      else
        try_except
          (set_status
             "🔄 **Running DSECS analysis...** This may take several minutes. Please be patient." ;;
           p2 <- lift Analysis ;;
           let out := call p2 x in
           modify (set_data (Some (fst out))) ;;
           returned <- lift (snd out) ;;
           modify (set_data (Some returned)) ;;
           modify (set_analyzed true) ;;
           let elapsed_time := (end_time - start_time)%Q in
           set_status ("✅ **DSECS analysis completed** in "
                       +:+ format_1f elapsed_time +:+ " seconds") ;;
           _update_data_view ;;
           _update_quicklook ;;
           _update_code_snippet)
          (fun e => set_status ("❌ **Analysis failed:** " +:+ exn_msg e))
  end.

(** *** What can happen to an explorer *)

Definition set_netcdf_dropper (v : FileDropper) (x : DsecsDataExplorer)
  : DsecsDataExplorer :=
  mkExplorer v (start_end x) (data x) (preprocessed x) (analyzed x)
    (status_info x) (data_view x) (code_snippet x) (swarmpal_animated x)
    (frame_slider x) (play_button x) (animation_figures x)
    (animation_playing x) (_animation_callback x) (periodic_callbacks x)
    (callbacks_created x).

(** The calls of the methods of the explorer, by the user interface or by
    the server: a file is dropped or removed, a button is pressed, the
    slider is moved, a periodic callback fires. *)
Inductive Action : Type :=
| Drop (dropper : FileDropper)
| LoadNetcdf
| UpdateInputData
| RunPreprocessing
| RunAnalysis (start_time end_time : Q)
| PressPlay
| Scrub (value : Z)
| Tick (cb : PeriodicCallback).

Definition act (a : Action) : M (S := DsecsDataExplorer) unit :=
  match a with
  | Drop dropper => modify (set_netcdf_dropper dropper)
  | LoadNetcdf => load_netcdf_data
  | UpdateInputData => update_input_data
  | RunPreprocessing => run_preprocessing
  | RunAnalysis start_time end_time => run_analysis start_time end_time
  | PressPlay => _toggle_animation
  | Scrub value => set_frame_slider_value value
  | Tick cb => tick cb
  end.

(** *** Notions used to state the properties *)

(** The two flags and the dataset: nothing is analysed that was not
    preprocessed, and nothing is preprocessed without a dataset. *)
Definition flags_ok (x : DsecsDataExplorer) : Prop :=
  (analyzed x = true -> preprocessed x = true)
  /\ (preprocessed x = true -> data x <> None).

(** The player and its timer: the callbacks running are the one the
    explorer holds, if it holds one; it holds one only while playing, over a
    list of frames that is not empty, with the period of 1200 ms; and the
    button names the action that pressing it takes. *)
Definition player_ok (x : DsecsDataExplorer) : Prop :=
  periodic_callbacks x =
    match _animation_callback x with
    | Some cb => [cb]
    | None => []
    end
  /\ (forall cb, _animation_callback x = Some cb ->
        animation_playing x = true
        /\ cb_frames cb <> []
        /\ cb_period cb = 1200
        /\ (cb_id cb < callbacks_created x)%nat)
  /\ btn_name (play_button x) =
     (if animation_playing x then "⏸ Pause" else "▶ Play").

(** The controls and the figure shown: the slider and the button are
    enabled together, exactly when there are frames; the range of the slider
    is then the range of the keys; and the figure shown is the placeholder or
    one of the frames. *)
Definition controls_ok (x : DsecsDataExplorer) : Prop :=
  sl_disabled (frame_slider x) = btn_disabled (play_button x)
  /\ (btn_disabled (play_button x) = false <-> animation_figures x <> [])
  /\ match keys (animation_figures x) with
     | k :: ks =>
         sl_start (frame_slider x) = py_min k ks
         /\ sl_end (frame_slider x) = py_max k ks
     | [] => True
     end
  /\ match swarmpal_animated x with
     | Some fig =>
         fig = _pending_matplotlib_figure
         \/ exists k, dict_lookup k (animation_figures x) = Some fig
     | None => True
     end.

(** The explorer after the panes were updated: [_update_data_view()],
    [_update_quicklook()] where the handler calls it, and
    [_update_code_snippet()]. *)
Definition updated_views (with_quicklook : bool) (x : DsecsDataExplorer)
  : DsecsDataExplorer :=
  let x1 := fst (_update_data_view x) in
  let x2 := if with_quicklook then fst (_update_quicklook x1) else x1 in
  fst (_update_code_snippet x2).

(** [x'] is [x] up to the panes, the status, the frames, and the range,
    the value and the enabling of the controls. *)
Definition same_session (x x' : DsecsDataExplorer) : Prop :=
  netcdf_dropper x' = netcdf_dropper x
  /\ start_end x' = start_end x
  /\ data x' = data x
  /\ preprocessed x' = preprocessed x
  /\ analyzed x' = analyzed x
  /\ animation_playing x' = animation_playing x
  /\ _animation_callback x' = _animation_callback x
  /\ periodic_callbacks x' = periodic_callbacks x
  /\ callbacks_created x' = callbacks_created x
  /\ btn_name (play_button x') = btn_name (play_button x).

(** The text [_update_code_snippet] shows for the flags and the time range
    of [x]. *)
Definition snippet_of (x : DsecsDataExplorer) : string :=
  match get_code x with
  | Ok code => "```python" +:+ nl +:+ code +:+ nl +:+ "```"
  | Raise _ => "Code snippet generation failed"
  end.

(** The code pane is empty or shows the snippet for the flags as they
    are. *)
Definition code_ok (x : DsecsDataExplorer) : Prop :=
  code_snippet x = None \/ code_snippet x = Some (snippet_of x).

(** The status after a fetch that failed. *)
Definition fetch_failed (e : Exn) : string :=
  "❌ Data fetch failed: " +:+ exn_msg e.

(** What the three debug lines of [fetch_data] and [update_input_data]
    evaluate on a tree: the first of them that raises, if any. *)
Definition printing (d : Dataset) : result unit :=
  let? _ := match groups_str d with
            | Some text => text
            | None => Ok "No groups attribute"
            end in
  let? _ := str d in
  Ok tt.

(** What [fetch_data] returns, or the first exception on its way: the
    requests, the call of [create_paldata], the debug lines. *)
Definition fetched (x : DsecsDataExplorer) : result Dataset :=
  let? items := from_vires_all (get_data_config x) in
  let? kwargs := keywords items in
  let? d := create_paldata kwargs in
  let? _ := printing d in
  Ok d.

Definition preprocessing_failed (e : Exn) : string :=
  "❌ Preprocessing failed: " +:+ exn_msg e.

Definition analysis_failed (e : Exn) : string :=
  "❌ **Analysis failed:** " +:+ exn_msg e.

(** The text in which [load_netcdf_data] looks for the results. *)
Definition groups_text (d : Dataset) : result string :=
  match groups_str d with
  | Some text => text
  | None => str d
  end.

Definition has_dsecs_output (groups : string) : bool :=
  contains "DSECS_output" groups || contains "currents" groups.

End Handlers.
End DSECS_Handlers.

Module DSECS_Handlers_Demo.
Import Py DSECS DSECS_Demo DSECS_Handlers.

(** A toolbox for the examples: the table of swarmpal, requests that always
    go through, [create_paldata] giving [file], groups named after the two
    products, and processes that add their name to the text of the tree. *)
Definition toolbox (file : result Tree) : Toolbox (E := demo file) := {|
  SPACECRAFT_TO_MAGLR_DATASET :=
    [("Swarm-A", "SW_OPER_MAGA_LR_1B"); ("Swarm-B", "SW_OPER_MAGB_LR_1B");
     ("Swarm-C", "SW_OPER_MAGC_LR_1B")];
  Item := string;
  from_vires request := Ok "item";
  create_paldata kwargs := file : result (Dataset (Externals := demo file));
  dataset_names d := Ok ["/"; "/SW_OPER_MAGA_LR_1B"; "/SW_OPER_MAGC_LR_1B"];
  Process := string;
  Preprocess := Ok "Preprocess";
  Analysis := Ok "Analysis";
  set_config p dataset_alpha dataset_charlie := Ok p;
  call p (d : Dataset (Externals := demo file)) :=
    (d, Ok (mkTree (tree_html d) (Ok p) (tree_groups d) (tree_type d)
              (tree_attrs d) (tree_figures d)
            : Dataset (Externals := demo file)));
  format_1f q := "1.5";
|}.

(** The explorer after frames [0], [1], [2] were loaded, not playing. *)
Definition loaded012 : DsecsDataExplorer (E := demo no_file) :=
  after (_setup_animated_quicklook (E := demo no_file)
           [(0, "a"); (1, "b"); (2, "c")]) explorer0.

End DSECS_Handlers_Demo.

(* ===================================================================== *)
(** ** noxfile.py                                                         *)
(* ===================================================================== *)

Module Noxfile.

(** [s.endswith(suffix)]. *)
Fixpoint endswith (s suffix : string) : bool :=
  String.eqb s suffix
  || match s with
     | EmptyString => false
     | String _ s' => endswith s' suffix
     end.

(** The list [dashboard_files], for the paths [globbed] that
    [glob.glob("dashboards/*.py")] gave. *)
Definition dashboard_files (globbed : list string) : list string :=
  List.filter (fun f => negb (endswith f "common.py")) globbed.

(** The session [dashboards]: the arguments of the command it runs. *)
Definition dashboards (globbed : list string) : list string :=
  ["panel"; "serve"] ++ dashboard_files globbed
  ++ ["--index"; "dashboards/index.html";
      "--static-dirs"; "thumbnails=./dashboards/thumbnails";
      "--autoreload"; "--warm"].

End Noxfile.

(* ===================================================================== *)
(** ** Reasoning about statements                                         *)
(* ===================================================================== *)

Module PyFacts.
Import Py.

Section Rules.
Context {S : Type}.
Implicit Types s : S.

Lemma wp_ret {A} (a : A) (Q : S -> result A -> Prop) s :
  Q s (Ok a) -> wp (ret a) Q s.
Proof. exact id. Qed.

Lemma wp_raise {A} e (Q : S -> result A -> Prop) s :
  Q s (Raise e) -> wp (raise e) Q s.
Proof. exact id. Qed.

Lemma wp_lift {A} (r : result A) (Q : S -> result A -> Prop) s :
  Q s r -> wp (lift r) Q s.
Proof. exact id. Qed.

Lemma wp_gets {A} (f : S -> A) (Q : S -> result A -> Prop) s :
  Q s (Ok (f s)) -> wp (gets f) Q s.
Proof. exact id. Qed.

Lemma wp_modify (f : S -> S) (Q : S -> result unit -> Prop) s :
  Q (f s) (Ok tt) -> wp (modify f) Q s.
Proof. exact id. Qed.

Lemma wp_bind {A B} (m : M A) (k : A -> M B) (Q : S -> result B -> Prop) s :
  wp m (fun s1 r =>
          match r with
          | Ok a => wp (k a) Q s1
          | Raise e => Q s1 (Raise e)
          end) s ->
  wp (bind m k) Q s.
Proof. unfold wp, bind. destruct (m s) as [s1 [a|e]]; simpl; auto. Qed.

Lemma wp_try_except {A} (body : M A) handler (Q : S -> result A -> Prop) s :
  wp body (fun s1 r =>
             match r with
             | Ok a => Q s1 (Ok a)
             | Raise e => wp (handler e) Q s1
             end) s ->
  wp (try_except body handler) Q s.
Proof. unfold wp, try_except. destruct (body s) as [s1 [a|e]]; simpl; auto. Qed.

Lemma wp_try_finally {A} (body : M A) fin (Q : S -> result A -> Prop) s :
  wp body (fun s1 r =>
             wp fin (fun s2 r2 =>
                       match r2 with
                       | Ok _ => Q s2 r
                       | Raise e => Q s2 (Raise e)
                       end) s1) s ->
  wp (try_finally body fin) Q s.
Proof.
  unfold wp, try_finally. destruct (body s) as [s1 r]; simpl.
  destruct (fin s1) as [s2 [[]|e]]; simpl; auto.
Qed.

Lemma wp_mono {A} (m : M A) (Q Q' : S -> result A -> Prop) s :
  wp m Q s -> (forall s' r, Q s' r -> Q' s' r) -> wp m Q' s.
Proof. unfold wp; auto. Qed.

Lemma wp_conj {A} (m : M A) (Q Q' : S -> result A -> Prop) s :
  wp m Q s -> wp m Q' s -> wp m (fun s' r => Q s' r /\ Q' s' r) s.
Proof. unfold wp; auto. Qed.

Lemma wp_run {A} (m : M A) (Q : S -> result A -> Prop) s :
  wp m Q s -> Q (fst (m s)) (snd (m s)).
Proof. exact id. Qed.
End Rules.

Ltac head_of t := lazymatch t with ?f _ => head_of f | _ => t end.

(** One step of symbolic execution of the statement under [wp]; [simp]
    simplifies the state afterwards, [stop] fails on the calls that are to
    be kept for a lemma of their own. *)
Ltac wp_step_with simp stop :=
  lazymatch goal with
  | |- wp (bind _ _) _ _ => apply wp_bind
  | |- wp (try_except _ _) _ _ => apply wp_try_except
  | |- wp (try_finally _ _) _ _ => apply wp_try_finally
  | |- wp (ret _) _ _ => apply wp_ret
  | |- wp (raise _) _ _ => apply wp_raise
  | |- wp (gets _) _ _ => apply wp_gets
  | |- wp (modify _) _ _ => apply wp_modify
  | |- wp (lift ?r) _ _ =>
      apply wp_lift;
      first [ match goal with H : r = _ |- _ => rewrite H end
            | destruct r eqn:? ]
  | |- wp (match ?x with _ => _ end) _ _ =>
      first [ match goal with H : x = _ |- _ => rewrite H end
            | destruct x eqn:? ]
  | |- wp (let _ := _ in _) _ _ => cbv zeta
  | |- wp ?m _ _ => stop m; let h := head_of m in unfold h
  end;
  cbv beta iota; simp.

(** The object just added to a store, before and after it is replaced. *)
Lemma lookup_fresh {A} (l : list A) (x : A) : (l ++ [x]) !! length l = Some x.
Proof. apply list_lookup_middle. reflexivity. Qed.

Lemma lookup_insert_fresh {A} (l : list A) (x y : A) :
  <[length l := y]> (l ++ [x]) !! length l = Some y.
Proof. apply list_lookup_insert_eq. rewrite length_app. simpl. lia. Qed.

Lemma insert_fresh {A} (l : list A) (x y : A) :
  <[length l := y]> (l ++ [x]) = l ++ [y].
Proof. rewrite insert_app_r_alt by lia. rewrite Nat.sub_diag. reflexivity. Qed.




End PyFacts.

(* ===================================================================== *)
(** ** The TFA controller: fetch, reprocess, cache                        *)
(* ===================================================================== *)

Module TFA_Facts.
Import Py TFA PyFacts.
Local Open Scope py_scope.

Ltac tfa_cbn :=
  cbn [fst snd id widgets output_title swarmpal_quicklook data_view
       code_snippet cli_command log_messages log_button_name log_button_type
       _is_loading data raw_data data_tabs cache heap trace
       set_output_title set_swarmpal_quicklook set_data_view set_code_snippet
       set_cli_command set_log_messages set_log_button set__is_loading
       set_data set_raw_data set_cache set_heap add_event] in *.

Ltac tfa_simp := tfa_cbn; rewrite ?insert_fresh, ?lookup_fresh.

Ltac keep_calls m :=
  lazymatch m with
  | update_analysis _ => fail
  | update_input_data => fail
  | _ => idtac
  end.


Section Controller.
Context `{C : Collaborators}.

Lemma wp_in_world {A} (m : M (S := World) A) (Q : St -> result A -> Prop) (s : St) :
  wp m (fun w r => Q (w, snd s) r) (fst s) -> wp (in_world m) Q s.
Proof. exact id. Qed.

(** The configuration depends on the widgets and on the active tab only. *)
Lemma _using_cdf_input_frame (g g' : TFA_GUI) :
  data_tabs g' = data_tabs g -> _using_cdf_input g' = _using_cdf_input g.
Proof. unfold _using_cdf_input. intros ->. reflexivity. Qed.

Lemma make_config_frame (g g' : TFA_GUI) :
  widgets g' = widgets g -> data_tabs g' = data_tabs g ->
  make_config g' = make_config g.
Proof.
  intros Hw Ht.
  unfold make_config, _make_data_params, _make_cdf_data_params,
    _make_vires_data_params, _get_data_product.
  rewrite (_using_cdf_input_frame g g' Ht), Hw. reflexivity.
Qed.

Lemma get_cli_frame (g g' : TFA_GUI) :
  widgets g' = widgets g -> data_tabs g' = data_tabs g ->
  get_cli g' = get_cli g.
Proof.
  intros Hw Ht. unfold get_cli, replace_file_paths.
  rewrite (make_config_frame g g' Hw Ht), (_using_cdf_input_frame g g' Ht), Hw.
  reflexivity.
Qed.

Lemma get_vires_code_frame (g g' : TFA_GUI) :
  widgets g' = widgets g -> data_tabs g' = data_tabs g ->
  get_vires_code g' = get_vires_code g.
Proof.
  intros Hw Ht. unfold get_vires_code, replace_file_paths.
  rewrite (make_config_frame g g' Hw Ht), (_using_cdf_input_frame g g' Ht), Hw.
  reflexivity.
Qed.

(** Bring the configuration read from a later state back to the one read
    from [g]. *)
Ltac norm_gui g :=
  repeat match goal with
  | |- context [make_config ?x] =>
      lazymatch x with
      | g => fail
      | _ => rewrite (make_config_frame g x) by reflexivity
      end
  | |- context [get_cli ?x] =>
      lazymatch x with
      | g => fail
      | _ => rewrite (get_cli_frame g x) by reflexivity
      end
  | |- context [get_vires_code ?x] =>
      lazymatch x with
      | g => fail
      | _ => rewrite (get_vires_code_frame g x) by reflexivity
      end
  | |- context [_using_cdf_input ?x] =>
      lazymatch x with
      | g => fail
      | _ => rewrite (_using_cdf_input_frame g x) by reflexivity
      end
  end.

Ltac wp_step g := wp_step_with ltac:(tfa_simp; norm_gui g) keep_calls.

(** *** The store only grows, and only new objects are changed *)

Lemma lookup_old_app {A} (l l' : list A) (r : nat) (x : A) :
  l !! r = Some x -> (l ++ l') !! r = Some x.
Proof. apply lookup_app_l_Some. Qed.

Lemma lookup_old_insert {A} (l : list A) (i r : nat) (x y : A) :
  l !! r = Some x -> (r < i)%nat -> <[i := y]> l !! r = Some x.
Proof. intros H Hlt. rewrite list_lookup_insert_ne by lia. exact H. Qed.

Lemma snoc2 {A} (l : list A) (x y : A) : (l ++ [x]) ++ [y] = l ++ [x; y].
Proof. rewrite <- app_assoc. reflexivity. Qed.

Lemma count_fetches_app (t t' : list Event) :
  count_fetches (t ++ t') = (count_fetches t + count_fetches t')%nat.
Proof. unfold count_fetches. rewrite List.filter_app, length_app. reflexivity. Qed.

Lemma count_fetches_no_fetch (evs : list Event) :
  no_fetch evs = true -> count_fetches evs = O.
Proof.
  unfold no_fetch, count_fetches. induction evs as [|e evs IH]; simpl; [reflexivity|].
  intros H. apply andb_true_iff in H as [He Hevs].
  apply negb_true_iff in He. rewrite He. auto.
Qed.

Lemma heap_preserved_trans (w1 w2 w3 : World) :
  heap_preserved w1 w2 -> heap_preserved w2 w3 -> heap_preserved w1 w3.
Proof. unfold heap_preserved. auto. Qed.

(** An object that was in the store at the start is still there. *)
Ltac solve_lookup :=
  repeat first
    [ assumption
    | apply lookup_old_app
    | apply lookup_old_insert;
      [ | repeat rewrite ?length_app, ?length_insert; simpl;
          match goal with
          | H : _ !! _ = Some _ |- _ => apply lookup_lt_Some in H; lia
          end ] ].

Ltac solve_trace :=
  first
    [ exists []; split; [symmetry; apply app_nil_r | reflexivity]
    | rewrite <- ?app_assoc; simpl; eexists; split; reflexivity ].

Ltac solve_log := eexists; first [ apply snoc2 | reflexivity ].

Ltac solve_count :=
  unfold fetches_of_update_input_data;
  match goal with H : _using_cdf_input _ && _ = _ |- _ => rewrite H end;
  try match goal with H : make_config _ = _ |- _ => rewrite H end;
  cbn [is_ok];
  try match goal with H : trace _ = _ |- _ => rewrite H end;
  rewrite <- ?app_assoc;
  first
    [ exists []; split; [symmetry; apply app_nil_r | reflexivity]
    | eexists; split; [reflexivity|];
      rewrite ?count_fetches_app;
      try match goal with
          | H : no_fetch _ = true |- _ => rewrite (count_fetches_no_fetch _ H)
          end;
      reflexivity ].

Ltac leaf :=
  tfa_simp;
  repeat match goal with
  | |- _ /\ _ => split
  | |- heap_preserved _ _ =>
      unfold heap_preserved; tfa_simp; intros; solve_lookup
  | |- exists evs, _ = _ ++ evs /\ no_fetch evs = true => solve_trace
  | |- forall e, _ = Raise e -> _ => let H := fresh in intros ? H; inversion H; subst; clear H
  | |- _ = Ok _ -> _ => let H := fresh in intros H; inversion H; subst; clear H
  | |- exists pre, _ = pre ++ [_; _] => solve_log
  end;
  try reflexivity; try assumption; try discriminate.

(** What [update_analysis] leaves alone, whatever its outcome, and what it
    logs when it raises. *)
Lemma update_analysis_frame (title : string) (s : St) :
  wp (update_analysis title)
    (fun s' res =>
       cache (fst s') = cache (fst s)
       /\ heap_preserved (fst s) (fst s')
       /\ (exists evs, trace (fst s') = trace (fst s) ++ evs /\ no_fetch evs = true)
       /\ raw_data (snd s') = raw_data (snd s)
       /\ widgets (snd s') = widgets (snd s)
       /\ data_tabs (snd s') = data_tabs (snd s)
       /\ (forall e, res = Raise e ->
             _is_loading (snd s') = false /\
             exists pre,
               log_messages (snd s') =
               pre ++ [mkLog "error" ("Error during analysis: " +:+ exn_msg e);
                       mkLog "error" (format_exc e)])) s.
Proof.
  destruct s as [w g]. unfold update_analysis.
  repeat (first [apply wp_in_world | wp_step g]).
  all: leaf.
Qed.

(** What [update_analysis] computes from the raw dataset. *)
Lemma update_analysis_result (title : string) (w : World) (g : TFA_GUI)
    (r0 : ref) (d0 : Dataset) (config process_params : PyVal) :
  raw_data g = Some r0 ->
  heap w !! r0 = Some d0 ->
  make_config g = Ok config ->
  getitem config "process_params" = Ok process_params ->
  let d' := fst (apply_processes d0 process_params) in
  let tlims := (PStr (isoformat (fst (start_end (widgets g)))),
                PStr (isoformat (snd (start_end (widgets g))))) in
  wp (update_analysis title)
    (fun s' res =>
       data (snd s') = Some (length (heap w))
       /\ heap (fst s') = heap w ++ [d']
       /\ (exists evs,
             trace (fst s') = trace w ++ EvApply (length (heap w)) process_params :: evs)
       /\ (res = Ok tt ->
           snd (apply_processes d0 process_params) = None
           /\ output_title (snd s') = Some title
           /\ (exists cli, get_cli g = Ok cli /\ cli_command (snd s') = Some cli)
           /\ (exists code,
                 get_vires_code g = Ok code /\ code_snippet (snd s') = Some code)
           /\ (dataset_bool d' = true ->
               (exists html,
                  _repr_html_ d' = Ok html /\ data_view (snd s') = Some html)
               /\ (_using_cdf_input g = false ->
                   exists fig,
                     quicklook d' tlims = Ok fig
                     /\ snd (tight_layout fig) = None
                     /\ swarmpal_quicklook (snd s') = Some (fst (tight_layout fig))))))
    (w, g).
Proof.
  intros Hraw Hd0 Hcfg Hpp d' tlims. unfold update_analysis.
  repeat (first [apply wp_in_world | wp_step g]).
  all: subst d' tlims; tfa_simp.
  all: repeat match goal with
       | H : negb _ = true |- _ => apply negb_true_iff in H
       | H : negb _ = false |- _ => apply negb_false_iff in H
       end.
  all: repeat split; try reflexivity; intros; try congruence;
    try (rewrite <- ?app_assoc; simpl; eexists; reflexivity); eauto 10.
Qed.

(** *** update_input_data *)

(** What [update_input_data] leaves alone, whatever its outcome, how many
    fetches it makes, and what it logs when it raises. *)
Lemma update_input_data_frame (s : St) :
  wp update_input_data
    (fun s' res =>
       cache (fst s') = cache (fst s)
       /\ heap_preserved (fst s) (fst s')
       /\ (exists evs,
             trace (fst s') = trace (fst s) ++ evs
             /\ count_fetches evs = fetches_of_update_input_data (snd s))
       /\ widgets (snd s') = widgets (snd s)
       /\ data_tabs (snd s') = data_tabs (snd s)
       /\ (forall e, res = Raise e ->
             _is_loading (snd s') = false /\
             exists pre what,
               (what = "Error fetching data: " \/ what = "Error during analysis: ")
               /\ log_messages (snd s') =
                  pre ++ [mkLog "error" (what +:+ exn_msg e);
                          mkLog "error" (format_exc e)])) s.
Proof.
  destruct s as [w g]. unfold update_input_data.
  repeat (first [apply wp_in_world | wp_step g]).
  all: try (eapply wp_mono; [apply update_analysis_frame|]; cbv beta;
            intros [w' g'] res (Hc & Hh & [evs [Ht Hn]] & Hr & Hw & Hdt & Hlog)).
  all: tfa_simp.
  all: repeat match goal with
       | |- _ /\ _ => split
       | |- heap_preserved _ _ =>
           try (eapply heap_preserved_trans; [|eassumption]);
           unfold heap_preserved; tfa_simp; intros; solve_lookup
       | |- exists evs, _ /\ count_fetches evs = _ => solve_count
       | H : forall e, ?res = Raise e -> _ |- forall e, ?res = Raise e -> _ =>
           let e := fresh "e" in let He := fresh "He" in
           intros e He; destruct (H e He) as [? [pre ?]];
           split; [assumption | exists pre; eexists; split; [right; reflexivity | eassumption]]
       | |- forall e, _ = Raise e -> _ =>
           let H := fresh in intros ? H; inversion H; subst; clear H
       | |- exists pre what, _ /\ _ = pre ++ [_; _] =>
           do 2 eexists; split; cycle 1; [apply snoc2 | left; reflexivity]
       end;
       try reflexivity; try congruence.
Qed.


Lemma process_names_widget_process_params (dataset : string) (w : Widgets) :
  process_names (widget_process_params dataset w) =
  [Some (PStr "TFA_Preprocess"); Some (PStr "TFA_Clean");
   Some (PStr "TFA_Filter"); Some (PStr "TFA_Wavelet")].
Proof. reflexivity. Qed.





Lemma update_input_data_config_raises (w : World) (g : TFA_GUI) (e : Exn) :
  _using_cdf_input g && negb (fd_value (file_dropper (widgets g))) = false ->
  make_config g = Raise e ->
  wp update_input_data
    (fun s' res =>
       res = Raise e /\ fst s' = w
       /\ raw_data (snd s') = raw_data g /\ data (snd s') = data g) (w, g).
Proof.
  intros Hguard Hcfg. unfold update_input_data.
  repeat (first [apply wp_in_world | wp_step g]).
  all: tfa_simp; repeat split; try reflexivity; try congruence.
Qed.

Lemma update_input_data_fetch_raises (w : World) (g : TFA_GUI)
    (config : PyVal) (e : Exn) :
  _using_cdf_input g && negb (fd_value (file_dropper (widgets g))) = false ->
  make_config g = Ok config ->
  fetch_data (count_fetches (trace w)) config = Raise e ->
  wp update_input_data
    (fun s' res =>
       res = Raise e
       /\ raw_data (snd s') = raw_data g /\ data (snd s') = data g
       /\ heap (fst s') = heap w /\ cache (fst s') = cache w
       /\ trace (fst s') = trace w ++ [EvFetch config]) (w, g).
Proof.
  intros Hguard Hcfg Hfetch. unfold update_input_data.
  repeat (first [apply wp_in_world | wp_step g]).
  all: tfa_simp; repeat split; try reflexivity; try congruence.
Qed.

Lemma update_input_data_process_raises (w : World) (g : TFA_GUI)
    (config process_params : PyVal) (d : Dataset) (e : Exn) :
  _using_cdf_input g && negb (fd_value (file_dropper (widgets g))) = false ->
  make_config g = Ok config ->
  fetch_data (count_fetches (trace w)) config = Ok d ->
  getitem config "process_params" = Ok process_params ->
  snd (apply_processes d process_params) = Some e ->
  wp update_input_data
    (fun s' res =>
       res = Raise e
       /\ raw_data (snd s') = Some (length (heap w))
       /\ data (snd s') = Some (S (length (heap w)))
       /\ heap (fst s') = heap w ++ [d; fst (apply_processes d process_params)]
       /\ cache (fst s') = cache w) (w, g).
Proof.
  intros Hguard Hcfg Hfetch Hpp Hraise. unfold update_input_data.
  repeat (first [apply wp_in_world | wp_step g]).
  all: tfa_simp; repeat split; try reflexivity.
  - rewrite length_app. simpl. f_equal. lia.
  - apply snoc2.
Qed.

Lemma update_input_data_returns_at_once (s : St) :
  _using_cdf_input (snd s) && negb (fd_value (file_dropper (widgets (snd s)))) = true ->
  update_input_data s = (s, Ok tt).
Proof.
  intros Hguard. unfold update_input_data, bind, self, gets. cbn [fst snd id].
  rewrite Hguard. reflexivity.
Qed.

Lemma update_analysis_process_raises (title : string) (w : World) (g : TFA_GUI)
    (r0 : ref) (d0 : Dataset) (config process_params : PyVal) (e : Exn) :
  raw_data g = Some r0 ->
  heap w !! r0 = Some d0 ->
  make_config g = Ok config ->
  getitem config "process_params" = Ok process_params ->
  snd (apply_processes d0 process_params) = Some e ->
  wp (update_analysis title) (fun _ res => res = Raise e) (w, g).
Proof.
  intros Hraw Hd0 Hcfg Hpp Hraise. unfold update_analysis.
  repeat (first [apply wp_in_world | wp_step g]).
  all: congruence.
Qed.




(** A run of [update_input_data] that returns normally: the raw handle is
    the dataset just fetched, the processed handle a copy of it to which the
    chain was applied. *)
Lemma update_input_data_ok (w : World) (g : TFA_GUI) (config : PyVal) :
  _using_cdf_input g && negb (fd_value (file_dropper (widgets g))) = false ->
  make_config g = Ok config ->
  wp update_input_data
    (fun s' res =>
       res = Ok tt ->
       exists d process_params,
         fetch_data (count_fetches (trace w)) config = Ok d
         /\ getitem config "process_params" = Ok process_params
         /\ snd (apply_processes d process_params) = None
         /\ raw_data (snd s') = Some (length (heap w))
         /\ data (snd s') = Some (S (S (length (heap w))))
         /\ heap (fst s') =
            heap w ++ [d; fst (apply_processes d process_params);
                       fst (apply_processes d process_params)]) (w, g).
Proof.
  intros Hguard Hcfg. unfold update_input_data.
  repeat (first [apply wp_in_world | wp_step g]).
  all: try (intros; discriminate).
  eapply wp_mono.
  - apply wp_conj; [apply update_analysis_frame|].
    eapply update_analysis_result with (d0 := a); tfa_cbn.
    + reflexivity.
    + apply lookup_old_app, lookup_fresh.
    + rewrite (make_config_frame g) by reflexivity. exact Hcfg.
    + eassumption.
  - cbv beta. intros [w' g'] res [(_ & _ & _ & Hraw & _) (Hdata & Hheap & _)] Hres.
    tfa_cbn. exists a, a0. repeat split; try assumption.
    + rewrite Hdata, !length_app. simpl. f_equal. lia.
    + rewrite Hheap, <- !app_assoc. reflexivity.
Qed.


(** The first call of a run that gets as far as fetching is the fetch, with
    the configuration built from the widgets. *)
Lemma update_input_data_fetch_event (w : World) (g : TFA_GUI) (config : PyVal) :
  _using_cdf_input g && negb (fd_value (file_dropper (widgets g))) = false ->
  make_config g = Ok config ->
  wp update_input_data
    (fun s' _ => exists evs, trace (fst s') = trace w ++ EvFetch config :: evs)
    (w, g).
Proof.
  intros Hguard Hcfg. unfold update_input_data.
  repeat (first [apply wp_in_world | wp_step g]).
  all: try (eapply wp_mono; [apply update_analysis_frame|]; cbv beta;
            intros [w' g'] res (_ & _ & [evs [Ht _]] & _); rewrite Ht).
  all: tfa_simp; rewrite <- ?app_assoc; simpl; eexists; reflexivity.
Qed.

(** *** Start of a session *)

Lemma _load_initial_data_run (s : St) :
  _load_initial_data s =
  match update_input_data (fst s, append_log "info" "Starting TFA dashboard..." (snd s)) with
  | (s2, Ok _) =>
      ((set_cache (Some (cache_entry_of (snd s2))) (fst s2),
        append_log "success" "Dashboard initialized successfully" (snd s2)),
       Ok tt)
  | (s2, Raise e) =>
      ((fst s2,
        append_log "error" (format_exc e)
          (append_log "error" ("Failed to load initial data: " +:+ exn_msg e)
             (snd s2))),
       Ok tt)
  end.
Proof.
  unfold _load_initial_data, try_except, bind, log, on_gui, on_world, self,
    gets, modify, append_log.
  cbn [fst snd].
  destruct (update_input_data _) as [s2 [[]|e]]; reflexivity.
Qed.

Lemma cache_entry_of_append_log (level message : string) (g : TFA_GUI) :
  cache_entry_of (append_log level message g) = cache_entry_of g.
Proof. reflexivity. Qed.

(** A session that starts with an entry in the cache takes its six
    attributes from the entry and touches nothing in the process. *)
Lemma init_with_cache (ws : Widgets) (w : World) (c : CacheEntry) :
  cache w = Some c ->
  snd (__init__ ws w) = Ok tt
  /\ fst (fst (__init__ ws w)) = w
  /\ cache_entry_of (snd (fst (__init__ ws w))) = c
  /\ output_title (snd (fst (__init__ ws w))) = Some default_title.
Proof.
  intros Hc. unfold __init__, init_from_cache_or_load, bind, gets.
  cbn [fst snd]. rewrite Hc.
  unfold try_except, bind, log, on_gui, modify. cbn. destruct c. auto.
Qed.

Lemma init_without_cache (ws : Widgets) (w : World) :
  cache w = None ->
  __init__ ws w = _load_initial_data (w, new_gui ws).
Proof.
  intros Hc. unfold __init__, init_from_cache_or_load, bind, gets.
  cbn [fst snd]. rewrite Hc. reflexivity.
Qed.

(** At the start of a session the remote tab is the source, and the
    configuration can always be built. *)
Lemma make_config_new_gui (ws : Widgets) (log : list LogEntry) :
  exists config, make_config (set_log_messages log (new_gui ws)) = Ok config.
Proof.
  unfold make_config, _make_data_params, _make_vires_data_params,
    _get_data_product, _using_cdf_input. cbn.
  repeat destruct (String.eqb _ _); cbn; eexists; reflexivity.
Qed.

Lemma make_config_widgets0 : make_config (new_gui widgets0) = Ok default_config.
Proof. reflexivity. Qed.


(** *** The precache at module level *)

Lemma _populate_tfa_cache_present (w : World) (c : CacheEntry) :
  cache w = Some c -> _populate_tfa_cache w = (w, Ok tt).
Proof.
  intros Hc. unfold _populate_tfa_cache, bind, gets. cbn [fst snd].
  rewrite Hc. reflexivity.
Qed.

Lemma _populate_tfa_cache_absent (w : World) :
  cache w = None ->
  wp _populate_tfa_cache
    (fun w' res =>
       res = Ok tt
       /\ heap_preserved w w'
       /\ (exists evs,
             trace w' = trace w ++ EvPrint "Starting TFA precache..."
                                 :: EvFetch default_config :: evs
             /\ count_fetches evs = O)
       /\ (cache w' = None
           \/ exists d fig html,
                let d' := fst (apply_processes d default_process_params) in
                fetch_data (count_fetches (trace w)) default_config = Ok d
                /\ snd (apply_processes d default_process_params) = None
                /\ quicklook d' default_tlims = Ok fig
                /\ snd (tight_layout fig) = None
                /\ _repr_html_ d' = Ok html
                /\ heap w' = heap w ++ [d; d']
                /\ cache w' =
                   Some (mkCache (Some (length (heap w))) (Some (S (length (heap w))))
                           (Some (fst (tight_layout fig))) (Some html)
                           (Some code_placeholder) (Some cli_placeholder)))) w.
Proof.
  intros Hc. unfold _populate_tfa_cache.
  assert (Hpp : getitem default_config "process_params" = Ok default_process_params)
    by reflexivity.
  assert (Hn : count_fetches (trace w ++ [EvPrint "Starting TFA precache..."])
               = count_fetches (trace w)).
  { unfold count_fetches. rewrite List.filter_app, length_app. simpl. lia. }
  apply wp_bind, wp_gets. cbv beta iota. rewrite Hc.
  apply wp_bind. unfold print. apply wp_modify. cbv beta iota.
  apply wp_try_except, wp_bind.
  unfold swarmpal_fetch_data. apply wp_bind, wp_gets. cbv beta iota.
  apply wp_bind, wp_modify. cbv beta iota.
  tfa_cbn. rewrite Hn.
  repeat wp_step w.
  all: tfa_cbn;
    repeat match goal with
    | |- _ /\ _ => split
    | |- heap_preserved _ _ =>
        unfold heap_preserved; tfa_cbn; intros; solve_lookup
    | |- exists evs, _ = _ ++ _ :: _ :: evs /\ _ =>
        rewrite <- ?app_assoc; simpl; eexists; split; reflexivity
    end; try reflexivity.
  all: try (left; assumption).
  right.
  change (Ok default_tlims = Ok a0) in Heqr0. injection Heqr0 as <-.
  exists a, a1, a2. repeat split; try assumption.
  - apply snoc2.
  - rewrite length_app, Nat.add_comm. reflexivity.
Qed.


(** On an empty slot the precache stores its entry when the fetch, the
    chain, the plot and the HTML view all went through. *)
Lemma _populate_tfa_cache_stores (w : World) (d : Dataset) (fig : Figure)
    (html : string) :
  cache w = None ->
  fetch_data (count_fetches (trace w)) default_config = Ok d ->
  snd (apply_processes d default_process_params) = None ->
  quicklook (fst (apply_processes d default_process_params)) default_tlims = Ok fig ->
  snd (tight_layout fig) = None ->
  _repr_html_ (fst (apply_processes d default_process_params)) = Ok html ->
  cache (fst (_populate_tfa_cache w)) =
  Some (mkCache (Some (length (heap w))) (Some (S (length (heap w))))
          (Some (fst (tight_layout fig))) (Some html)
          (Some code_placeholder) (Some cli_placeholder)).
Proof.
  intros Hc Hf Ha Hq Ht Hh.
  apply (wp_run _populate_tfa_cache
           (fun w' _ =>
              cache w' =
              Some (mkCache (Some (length (heap w))) (Some (S (length (heap w))))
                      (Some (fst (tight_layout fig))) (Some html)
                      (Some code_placeholder) (Some cli_placeholder)))).
  unfold _populate_tfa_cache.
  assert (Hpp : getitem default_config "process_params" = Ok default_process_params)
    by reflexivity.
  assert (Hn : count_fetches (trace w ++ [EvPrint "Starting TFA precache..."])
               = count_fetches (trace w)).
  { unfold count_fetches. rewrite List.filter_app, length_app. simpl. lia. }
  apply wp_bind, wp_gets. cbv beta iota. rewrite Hc.
  apply wp_bind. unfold print. apply wp_modify. cbv beta iota.
  apply wp_try_except, wp_bind.
  unfold swarmpal_fetch_data. apply wp_bind, wp_gets. cbv beta iota.
  apply wp_bind, wp_modify. cbv beta iota.
  tfa_cbn. rewrite Hn.
  repeat wp_step w.
  all: tfa_cbn.
  all: repeat match goal with
       | H : _ = Ok ?a |- _ =>
           is_var a; change (Ok default_tlims = Ok a) in H; injection H as <-
       end.
  all: try congruence.
  all: try match goal with
           | H : _ = Raise ?e |- _ =>
               change (Ok default_tlims = Raise e) in H; discriminate
           end.
  rewrite Hq in Heqr0. injection Heqr0 as <-.
  rewrite length_app, Nat.add_comm. reflexivity.
Qed.

(** *** The claims about the TFA controller *)

(** C1 (amended). When [update_input_data] raises, the cache entry and every
    dataset object that existed before are unchanged, the loading flag is
    cleared and two error entries (message and traceback) end the log. When
    it is the building of the configuration or the fetch that raised, the
    raw and processed handles are the ones held before. When a step of the
    processing chain raised, the raw handle already names the dataset just
    fetched and the processed handle names a copy of it, in the state the
    failing chain left it. *)
Theorem update_input_data_failure (s : St) (e : Exn) :
  snd (update_input_data s) = Raise e ->
  let s' := fst (update_input_data s) in
  cache (fst s') = cache (fst s)
  /\ heap_preserved (fst s) (fst s')
  /\ _is_loading (snd s') = false
  /\ (exists pre what,
        log_messages (snd s') =
        pre ++ [mkLog "error" (what +:+ exn_msg e); mkLog "error" (format_exc e)])
  /\ (is_ok (make_config (snd s)) = false ->
      raw_data (snd s') = raw_data (snd s) /\ data (snd s') = data (snd s)
      /\ heap (fst s') = heap (fst s))
  /\ (forall config,
        make_config (snd s) = Ok config ->
        is_ok (fetch_data (count_fetches (trace (fst s))) config) = false ->
        raw_data (snd s') = raw_data (snd s) /\ data (snd s') = data (snd s)
        /\ heap (fst s') = heap (fst s))
  /\ (forall config d process_params e',
        make_config (snd s) = Ok config ->
        fetch_data (count_fetches (trace (fst s))) config = Ok d ->
        getitem config "process_params" = Ok process_params ->
        snd (apply_processes d process_params) = Some e' ->
        e' = e
        /\ raw_data (snd s') = Some (length (heap (fst s)))
        /\ data (snd s') = Some (S (length (heap (fst s))))
        /\ heap (fst s') =
           heap (fst s) ++ [d; fst (apply_processes d process_params)]).
Proof.
  intros Hraise s'.
  destruct (_using_cdf_input (snd s) && negb (fd_value (file_dropper (widgets (snd s)))))
    eqn:Hguard.
  { rewrite (update_input_data_returns_at_once s Hguard) in Hraise. discriminate. }
  pose proof (wp_run _ _ _ (update_input_data_frame s)) as F. cbv beta in F.
  destruct F as (Hc & Hh & _ & _ & _ & Hlog).
  destruct (Hlog e Hraise) as (Hl & pre & what & _ & Hpre).
  destruct s as [w g]. cbn [fst snd] in *. subst s'.
  split; [exact Hc|]. split; [exact Hh|]. split; [exact Hl|].
  split; [exists pre, what; exact Hpre|].
  split; [|split].
  - intros Hbad. destruct (make_config g) as [config|e0] eqn:Hcfg; [discriminate|].
    pose proof (wp_run _ _ _ (update_input_data_config_raises w g e0 Hguard Hcfg)) as R.
    cbv beta in R. cbn [fst snd] in R. destruct R as (_ & Hw & Hr & Hd).
    rewrite Hw. auto.
  - intros config Hcfg Hbad.
    destruct (fetch_data (count_fetches (trace w)) config) as [d|e0] eqn:Hf;
      [discriminate|].
    pose proof (wp_run _ _ _
      (update_input_data_fetch_raises w g config e0 Hguard Hcfg Hf)) as R.
    cbv beta in R. cbn [fst snd] in R. tauto.
  - intros config d process_params e' Hcfg Hf Hpp He'.
    pose proof (wp_run _ _ _
      (update_input_data_process_raises w g config process_params d e'
         Hguard Hcfg Hf Hpp He')) as R.
    cbv beta in R. cbn [fst snd] in R. destruct R as (R & Hr & Hd & Hhp & _).
    repeat split; try assumption. congruence.
Qed.


(** C2 (amended). No run of [update_input_data] or of [update_analysis]
    writes the cache slot, whatever its outcome. The slot is written at the
    start of a session that found no usable entry, by [_load_initial_data],
    when its run of [update_input_data] returned normally, with the handles
    and pane contents the session then holds; and by [_populate_tfa_cache]
    on an empty slot, exactly when its fetch with the default
    configuration, the chain, the plot and the HTML view all went through:
    the entry then names the dataset fetched and its processed copy and
    holds the figure, the view and the two placeholder texts. A slot that
    is already filled is left alone by [_populate_tfa_cache]. *)
Theorem cache_written_only_at_start (s : St) (title : string) (c : CacheEntry) :
  cache (fst (fst (update_input_data s))) = cache (fst s)
  /\ cache (fst (fst (update_analysis title s))) = cache (fst s)
  /\ cache (fst (fst (_load_initial_data s))) =
     match snd (update_input_data
                  (fst s, append_log "info" "Starting TFA dashboard..." (snd s))) with
     | Ok _ => Some (cache_entry_of (snd (fst (_load_initial_data s))))
     | Raise _ => cache (fst s)
     end
  /\ _populate_tfa_cache (set_cache (Some c) (fst s))
     = (set_cache (Some c) (fst s), Ok tt)
  /\ (cache (fst s) = None ->
      (forall d fig html,
         fetch_data (count_fetches (trace (fst s))) default_config = Ok d ->
         snd (apply_processes d default_process_params) = None ->
         quicklook (fst (apply_processes d default_process_params)) default_tlims
         = Ok fig ->
         snd (tight_layout fig) = None ->
         _repr_html_ (fst (apply_processes d default_process_params)) = Ok html ->
         cache (fst (_populate_tfa_cache (fst s))) =
         Some (mkCache (Some (length (heap (fst s))))
                 (Some (S (length (heap (fst s)))))
                 (Some (fst (tight_layout fig))) (Some html)
                 (Some "# Code snippet will be generated on first use")
                 (Some "# CLI command will be generated on first use"))
         /\ heap (fst (_populate_tfa_cache (fst s))) =
            heap (fst s) ++ [d; fst (apply_processes d default_process_params)])
      /\ (cache (fst (_populate_tfa_cache (fst s))) = None
          \/ exists d fig html,
               fetch_data (count_fetches (trace (fst s))) default_config = Ok d
               /\ snd (apply_processes d default_process_params) = None
               /\ quicklook (fst (apply_processes d default_process_params))
                    default_tlims = Ok fig
               /\ snd (tight_layout fig) = None
               /\ _repr_html_ (fst (apply_processes d default_process_params))
                  = Ok html)).
Proof.
  split; [|split; [|split; [|split]]].
  - exact (proj1 (wp_run _ _ _ (update_input_data_frame s))).
  - exact (proj1 (wp_run _ _ _ (update_analysis_frame title s))).
  - rewrite _load_initial_data_run.
    pose proof (wp_run _ _ _
      (update_input_data_frame
         (fst s, append_log "info" "Starting TFA dashboard..." (snd s)))) as F.
    cbv beta in F. destruct F as (Hc & _).
    destruct (update_input_data _) as [s2 [[]|e]]; cbn [fst snd] in *.
    + reflexivity.
    + exact Hc.
  - apply _populate_tfa_cache_present with (c := c). reflexivity.
  - intros Hnone.
    pose proof (wp_run _ _ _ (_populate_tfa_cache_absent (fst s) Hnone)) as P.
    cbv beta zeta in P. destruct P as (_ & _ & _ & P).
    split.
    + intros d fig html Hf Ha Hq Ht Hh.
      pose proof (_populate_tfa_cache_stores (fst s) d fig html Hnone Hf Ha Hq Ht Hh)
        as Hstored.
      split; [exact Hstored|].
      destruct P as [P|(d2 & fig2 & html2 & Hf2 & _ & _ & _ & _ & Hheap & _)];
        [congruence|].
      rewrite Hf in Hf2. injection Hf2 as <-. exact Hheap.
    + destruct P as [P|(d & fig & html & Hf & Ha & Hq & Ht & Hh & _)];
        [left; exact P|].
      right. exists d, fig, html. auto.
Qed.

(** C3 (amended). An exception raised during [update_analysis] or
    [update_input_data] is caught in the handler, which appends two error
    entries to the log (the message, then the traceback), and the loading
    indicator is reset; the handler then raises the exception again, so it
    does reach the caller of the handler: a fetch that raises makes
    [update_input_data] raise, a processing step that raises makes
    [update_analysis] raise. *)
Theorem handlers_log_and_raise_again (title : string) (w : World) (g : TFA_GUI) (e : Exn) :
  (snd (update_analysis title (w, g)) = Raise e ->
   _is_loading (snd (fst (update_analysis title (w, g)))) = false
   /\ exists pre,
        log_messages (snd (fst (update_analysis title (w, g)))) =
        pre ++ [mkLog "error" ("Error during analysis: " +:+ exn_msg e);
                mkLog "error" (format_exc e)])
  /\ (snd (update_input_data (w, g)) = Raise e ->
      _is_loading (snd (fst (update_input_data (w, g)))) = false
      /\ exists pre what,
           (what = "Error fetching data: " \/ what = "Error during analysis: ")
           /\ log_messages (snd (fst (update_input_data (w, g)))) =
              pre ++ [mkLog "error" (what +:+ exn_msg e);
                      mkLog "error" (format_exc e)])
  /\ (forall config,
        _using_cdf_input g && negb (fd_value (file_dropper (widgets g))) = false ->
        make_config g = Ok config ->
        fetch_data (count_fetches (trace w)) config = Raise e ->
        snd (update_input_data (w, g)) = Raise e)
  /\ (forall r0 d0 config process_params,
        raw_data g = Some r0 ->
        heap w !! r0 = Some d0 ->
        make_config g = Ok config ->
        getitem config "process_params" = Ok process_params ->
        snd (apply_processes d0 process_params) = Some e ->
        snd (update_analysis title (w, g)) = Raise e).
Proof.
  split; [|split; [|split]].
  - intros Hraise.
    exact (proj2 (proj2 (proj2 (proj2 (proj2 (proj2
      (wp_run _ _ _ (update_analysis_frame title (w, g)))))))) e Hraise).
  - intros Hraise.
    exact (proj2 (proj2 (proj2 (proj2 (proj2
      (wp_run _ _ _ (update_input_data_frame (w, g))))))) e Hraise).
  - intros config Hguard Hcfg Hf.
    exact (proj1 (wp_run _ _ _
      (update_input_data_fetch_raises w g config e Hguard Hcfg Hf))).
  - intros r0 d0 config process_params Hraw Hd0 Hcfg Hpp Hraise.
    exact (wp_run _ _ _
      (update_analysis_process_raises title w g r0 d0 config process_params e
         Hraw Hd0 Hcfg Hpp Hraise)).
Qed.


(** C5. A run of [update_analysis] with no raw data returns at once: the
    title pane says "Please fetch data first" and a warning is appended to
    the log; the process state (cache entry, dataset objects, calls made),
    the raw and processed handles and the plot, data view, code and CLI
    panes are as they were. *)
Theorem update_analysis_without_raw (title : string) (w : World) (g : TFA_GUI) :
  raw_data g = None ->
  let out := update_analysis title (w, g) in
  snd out = Ok tt
  /\ fst (fst out) = w
  /\ output_title (snd (fst out)) = Some "Please fetch data first"
  /\ log_messages (snd (fst out)) =
     log_messages g ++ [mkLog "warning" "No data available for analysis"]
  /\ raw_data (snd (fst out)) = None
  /\ data (snd (fst out)) = data g
  /\ cache_entry_of (snd (fst out)) = cache_entry_of g
  /\ _is_loading (snd (fst out)) = _is_loading g
  /\ widgets (snd (fst out)) = widgets g.
Proof.
  intros Hraw out. subst out.
  unfold update_analysis, bind, self, gets. cbn [fst snd]. rewrite Hraw.
  unfold log, on_gui, bind, modify, cache_entry_of. cbn. rewrite Hraw.
  repeat split; reflexivity.
Qed.


Lemma count_fetches_cons_fetch (config : PyVal) (evs : list Event) :
  count_fetches (EvFetch config :: evs) = S (count_fetches evs).
Proof. reflexivity. Qed.

(** A session that starts with no entry in the cache. *)
Lemma init_loads_once (ws : Widgets) (w0 : World) :
  cache w0 = None ->
  let s1 := (w0, append_log "info" "Starting TFA dashboard..." (new_gui ws)) in
  let out := __init__ ws w0 in
  snd out = Ok tt
  /\ (exists config evs,
        make_config (new_gui ws) = Ok config
        /\ trace (fst (fst out)) = trace w0 ++ EvFetch config :: evs
        /\ count_fetches evs = O)
  /\ cache (fst (fst out)) =
     match snd (update_input_data s1) with
     | Ok _ => Some (cache_entry_of (snd (fst out)))
     | Raise _ => None
     end
  /\ heap_preserved w0 (fst (fst out))
  /\ (snd (update_input_data s1) = Ok tt ->
      exists config d process_params,
        let d' := fst (apply_processes d process_params) in
        make_config (new_gui ws) = Ok config
        /\ fetch_data (count_fetches (trace w0)) config = Ok d
        /\ getitem config "process_params" = Ok process_params
        /\ snd (apply_processes d process_params) = None
        /\ raw_data (snd (fst out)) = Some (length (heap w0))
        /\ data (snd (fst out)) = Some (S (S (length (heap w0))))
        /\ heap (fst (fst out)) = heap w0 ++ [d; d'; d']).
Proof.
  intros Hc s1 out. subst out.
  rewrite (init_without_cache ws w0 Hc), _load_initial_data_run.
  cbn [fst snd]. fold s1.
  assert (Hguard : _using_cdf_input (snd s1)
                   && negb (fd_value (file_dropper (widgets (snd s1)))) = false)
    by reflexivity.
  destruct (make_config_new_gui ws
              ([] ++ [mkLog "info" "Starting TFA dashboard..."])) as [config Hcfg].
  assert (Hcfg0 : make_config (new_gui ws) = Ok config).
  { rewrite <- Hcfg. apply make_config_frame; reflexivity. }
  pose proof (wp_run _ _ _ (update_input_data_frame s1)) as F.
  assert (E : exists evs,
             trace (fst (fst (update_input_data s1)))
             = trace w0 ++ EvFetch config :: evs)
    by exact (wp_run _ _ _ (update_input_data_fetch_event w0 _ config Hguard Hcfg)).
  assert (K : snd (update_input_data s1) = Ok tt ->
              exists d process_params,
                fetch_data (count_fetches (trace w0)) config = Ok d
                /\ getitem config "process_params" = Ok process_params
                /\ snd (apply_processes d process_params) = None
                /\ raw_data (snd (fst (update_input_data s1))) = Some (length (heap w0))
                /\ data (snd (fst (update_input_data s1)))
                   = Some (S (S (length (heap w0))))
                /\ heap (fst (fst (update_input_data s1))) =
                   heap w0 ++ [d; fst (apply_processes d process_params);
                               fst (apply_processes d process_params)])
    by exact (wp_run _ _ _ (update_input_data_ok w0 _ config Hguard Hcfg)).
  cbv beta in F.
  destruct F as (Hcache & Hh & [evs0 [Ht Hn]] & _).
  destruct E as [evs Hev].
  assert (Hcount : count_fetches evs = O).
  { rewrite Ht in Hev. apply app_inv_head in Hev. subst evs0.
    assert (Hcfg1 : make_config (snd s1) = Ok config).
    { rewrite <- Hcfg0. apply make_config_frame; reflexivity. }
    unfold fetches_of_update_input_data in Hn.
    rewrite Hguard, Hcfg1, count_fetches_cons_fetch in Hn.
    cbn [is_ok] in Hn. lia. }
  destruct (update_input_data s1) as [s2 [[]|e]]; cbn [fst snd] in *.
  - split; [reflexivity|]. split; [exists config, evs; auto|].
    split; [reflexivity|]. split; [exact Hh|].
    intros _. destruct (K eq_refl) as (d & pp & Hf & Hpp & Hnone & Hr & Hd & Hhp).
    exists config, d, pp. cbv zeta. repeat split; assumption.
  - split; [reflexivity|]. split; [exists config, evs; auto|].
    split; [exact (eq_trans Hcache Hc)|]. split; [exact Hh|]. discriminate.
Qed.

(** Loading the module in a process with no entry: when the precache
    stores an entry, one fetch was made, with the default configuration, and
    the dashboard object is built from that entry. *)
Lemma module_load_after_precache (w : World) (c : CacheEntry) :
  cache w = None ->
  cache (fst (_populate_tfa_cache w)) = Some c ->
  snd (module_load w) = Ok tt
  /\ fst (fst (module_load w)) = fst (_populate_tfa_cache w)
  /\ cache_entry_of (snd (fst (module_load w))) = c
  /\ c_code_snippet c = Some code_placeholder
  /\ c_cli_command c = Some cli_placeholder
  /\ count_fetches (trace (fst (_populate_tfa_cache w))) = S (count_fetches (trace w)).
Proof.
  intros Hnone Hsome. unfold module_load.
  destruct (init_with_cache widgets0 _ c Hsome) as (H1 & H2 & H3 & _).
  pose proof (wp_run _ _ _ (_populate_tfa_cache_absent w Hnone)) as P.
  cbv beta in P. destruct P as (_ & _ & (evs & Ht & Hn) & Hcache).
  split; [exact H1|]. split; [exact H2|]. split; [exact H3|].
  destruct Hcache as [Hc|(d & fig & html & Hc)]; [congruence|].
  cbv zeta in Hc. destruct Hc as (_ & _ & _ & _ & _ & _ & Hc).
  rewrite Hsome in Hc. injection Hc as ->. cbn [c_code_snippet c_cli_command].
  split; [reflexivity|]. split; [reflexivity|].
  rewrite Ht, count_fetches_app.
  change (EvPrint "Starting TFA precache..." :: EvFetch default_config :: evs)
    with ([EvPrint "Starting TFA precache..."] ++ EvFetch default_config :: evs).
  rewrite count_fetches_app, count_fetches_cons_fetch, Hn. simpl. lia.
Qed.

(** C6 (amended). A start is the loading of the module:
    [_populate_tfa_cache()], then [TFA_GUI(widgets)]. With an entry in the
    cache the precache does nothing and the session takes its raw and
    processed handles and its four panes from the entry; the process state
    is untouched: no fetch, no processing, no new object. With no entry the
    precache makes one fetch, with the default configuration. When it stores
    an entry, the session is built from that entry and nothing more is done:
    one fetch in all, and the code and CLI panes hold the placeholder texts.
    When the precache fails, the session runs [update_input_data], which
    makes a second fetch, again with the default configuration; when that
    run returns normally, the handles and panes of the session are stored as
    the entry. In each case an entry that is in the cache after the start is
    the one the session holds, its handles name the dataset fetched and a
    processed copy of it, and a start that follows gets the same handles and
    pane contents back and leaves the process state untouched. *)
Theorem cache_round_trip (ws' : Widgets) (w : World) :
  (forall c,
     cache w = Some c ->
     module_load w = __init__ widgets0 w
     /\ snd (__init__ ws' w) = Ok tt
     /\ fst (fst (__init__ ws' w)) = w
     /\ cache_entry_of (snd (fst (__init__ ws' w))) = c)
  /\ (cache w = None ->
      let w1 := fst (_populate_tfa_cache w) in
      let out := module_load w in
      snd out = Ok tt
      /\ (exists evs,
            trace w1 = trace w ++ EvPrint "Starting TFA precache..."
                               :: EvFetch default_config :: evs
            /\ count_fetches evs = O)
      /\ (forall c,
            cache w1 = Some c ->
            fst (fst out) = w1
            /\ cache_entry_of (snd (fst out)) = c
            /\ count_fetches (trace (fst (fst out))) = S (count_fetches (trace w))
            /\ c_code_snippet c = Some "# Code snippet will be generated on first use"
            /\ c_cli_command c = Some "# CLI command will be generated on first use")
      /\ (cache w1 = None ->
          (exists evs,
             trace (fst (fst out)) = trace w1 ++ EvFetch default_config :: evs
             /\ count_fetches evs = O)
          /\ count_fetches (trace (fst (fst out))) = S (S (count_fetches (trace w)))
          /\ cache (fst (fst out)) =
             match snd (update_input_data
                          (w1, append_log "info" "Starting TFA dashboard..."
                                 (new_gui widgets0))) with
             | Ok _ => Some (cache_entry_of (snd (fst out)))
             | Raise _ => None
             end)
      /\ (forall c,
            cache (fst (fst out)) = Some c ->
            let out2 := __init__ ws' (fst (fst out)) in
            cache_entry_of (snd (fst out)) = c
            /\ module_load (fst (fst out)) = __init__ widgets0 (fst (fst out))
            /\ snd out2 = Ok tt
            /\ fst (fst out2) = fst (fst out)
            /\ cache_entry_of (snd (fst out2)) = c
            /\ exists r r' d,
                 raw_data (snd (fst out2)) = Some r
                 /\ data (snd (fst out2)) = Some r'
                 /\ r <> r'
                 /\ heap (fst (fst out2)) !! r = Some d
                 /\ heap (fst (fst out2)) !! r'
                    = Some (fst (apply_processes d default_process_params)))).
Proof.
  split.
  { intros c Hc.
    destruct (init_with_cache ws' w c Hc) as (H1 & H2 & H3 & _).
    split; [|auto].
    unfold module_load. rewrite (_populate_tfa_cache_present w c Hc). reflexivity. }
  intros Hc w1 out.
  pose proof (wp_run _ _ _ (_populate_tfa_cache_absent w Hc)) as P.
  cbv beta zeta in P. fold w1 in P.
  destruct P as (_ & _ & (evs0 & Ht0 & Hn0) & Hstored).
  assert (Hcount1 : count_fetches (trace w1) = S (count_fetches (trace w))).
  { rewrite Ht0, count_fetches_app.
    change (EvPrint "Starting TFA precache..." :: EvFetch default_config :: evs0)
      with ([EvPrint "Starting TFA precache..."] ++ EvFetch default_config :: evs0).
    rewrite count_fetches_app, count_fetches_cons_fetch, Hn0. simpl. lia. }
  destruct (cache w1) as [c1|] eqn:Hc1.
  - (* the precache stored an entry *)
    destruct (module_load_after_precache w c1 Hc Hc1)
      as (Hok & Hw & Hentry & Hcode & Hcli & _).
    fold out in Hok, Hw, Hentry. fold w1 in Hw.
    split; [exact Hok|]. split; [exists evs0; auto|].
    split; [|split; [discriminate|]].
    + intros c [= <-]. rewrite Hw. auto.
    + intros c Hcache out2. rewrite Hw in Hcache. rewrite Hc1 in Hcache.
      injection Hcache as <-.
      subst out2. rewrite Hw.
      destruct (init_with_cache ws' w1 c1 Hc1) as (H1 & H2 & H3 & _).
      split; [exact Hentry|].
      split; [unfold module_load;
              rewrite (_populate_tfa_cache_present w1 c1 Hc1); reflexivity|].
      split; [exact H1|]. split; [exact H2|]. split; [exact H3|].
      destruct Hstored as [Hnone|(d & fig & html & _ & _ & _ & _ & _ & Hheap & Hval)];
        [congruence|].
      injection Hval as Hval. rewrite Hval in H3.
      exists (length (heap w)), (S (length (heap w))), d.
      split; [exact (f_equal c_raw_data H3)|].
      split; [exact (f_equal c_data H3)|].
      split; [lia|].
      rewrite H2, Hheap. split.
      * rewrite (lookup_app_r (heap w)) by lia. rewrite Nat.sub_diag. reflexivity.
      * rewrite (lookup_app_r (heap w)) by lia.
        replace (S (length (heap w)) - length (heap w))%nat with 1%nat by lia.
        reflexivity.
  - (* the precache failed: the session loads the data itself *)
    assert (Hout : out = __init__ widgets0 w1) by reflexivity.
    destruct (init_loads_once widgets0 w1 Hc1) as (Hok & Hfetch & Hcache & _ & Hres).
    cbv zeta in Hok, Hfetch, Hcache, Hres.
    rewrite <- Hout in Hok, Hfetch, Hcache, Hres.
    destruct Hfetch as (config & evs & Hcfg & Ht & Hn).
    rewrite make_config_widgets0 in Hcfg. injection Hcfg as <-.
    split; [exact Hok|]. split; [exists evs0; auto|].
    split; [discriminate|]. split.
    + intros _. split; [exists evs; auto|]. split; [|exact Hcache].
      rewrite Ht, count_fetches_app, count_fetches_cons_fetch, Hn, Hcount1. lia.
    + intros c Hsome out2.
      destruct (snd (update_input_data _)) as [[]|e] eqn:Hrun;
        [|rewrite Hcache in Hsome; discriminate].
      rewrite Hcache in Hsome. injection Hsome as <-.
      assert (Hsome : cache (fst (fst out)) = Some (cache_entry_of (snd (fst out))))
        by exact Hcache.
      subst out2.
      destruct (init_with_cache ws' _ _ Hsome) as (H1 & H2 & H3 & _).
      split; [reflexivity|].
      split; [unfold module_load;
              rewrite (_populate_tfa_cache_present _ _ Hsome); reflexivity|].
      split; [exact H1|]. split; [exact H2|]. split; [exact H3|].
      destruct (Hres eq_refl) as (config & d & pp & Hcfg & _ & Hpp & _ & Hr & Hd & Hhp).
      rewrite make_config_widgets0 in Hcfg. injection Hcfg as <-.
      change (Ok default_process_params = Ok pp) in Hpp. injection Hpp as <-.
      exists (length (heap w1)), (S (S (length (heap w1)))), d.
      split; [exact (eq_trans (f_equal c_raw_data H3) Hr)|].
      split; [exact (eq_trans (f_equal c_data H3) Hd)|].
      split; [lia|].
      rewrite H2, Hhp. split.
      * rewrite (lookup_app_r (heap w1)) by lia. rewrite Nat.sub_diag. reflexivity.
      * rewrite (lookup_app_r (heap w1)) by lia.
        replace (S (S (length (heap w1))) - length (heap w1))%nat with 2%nat by lia.
        reflexivity.
Qed.

End Controller.

(** *** Concrete runs *)

Import TFA_Demo.

(** C1, as stated, fails: the processing chain raises after a successful
    fetch, and the raw and processed handles no longer name the datasets
    held before; the new processed dataset is the partly processed copy. *)
Lemma update_input_data_partial_mutation :
  snd (update_input_data (session1 false true)) = Raise (mkExn "KeyError" "B_NEC")
  /\ raw_data (snd (session1 false true)) = Some 0%nat
  /\ data (snd (session1 false true)) = Some 1%nat
  /\ raw_data (snd (fst (update_input_data (session1 false true)))) = Some 2%nat
  /\ data (snd (fst (update_input_data (session1 false true)))) = Some 3%nat
  /\ heap (fst (fst (update_input_data (session1 false true)))) !! 3%nat
     = Some "raw0|partial".
Proof. vm_compute. repeat split; reflexivity. Qed.

Lemma update_input_data_failure_witness :
  snd (update_input_data (session1 true false))
  = Raise (mkExn "ConnectionError" "server unreachable")
  /\ raw_data (snd (fst (update_input_data (session1 true false)))) = Some 0%nat
  /\ data (snd (fst (update_input_data (session1 true false)))) = Some 1%nat
  /\ heap (fst (fst (update_input_data (session1 true false))))
     = ["old raw"; "old processed"].
Proof.
  split; [vm_compute; reflexivity|].
  apply (proj1 (proj2 (proj2 (proj2 (proj2 (proj2
    (update_input_data_failure (C := demo true false) (session1 true false)
       (mkExn "ConnectionError" "server unreachable") eq_refl))))))
    default_config eq_refl eq_refl).
Defined.

(** C2, as stated, fails: a fetch after the start returns normally and the
    cache slot still holds the entry it held before, which is not the
    session's new result. *)
Lemma update_input_data_keeps_cache_entry :
  snd (update_input_data (session1 false false)) = Ok tt
  /\ cache (fst (fst (update_input_data (session1 false false))))
     = Some (old_entry (demo false false))
  /\ c_raw_data (old_entry (demo false false)) = Some 0%nat
  /\ raw_data (snd (fst (update_input_data (session1 false false)))) = Some 2%nat.
Proof. vm_compute. repeat split; reflexivity. Qed.

(** C3, as stated, fails: the fetch raises and the exception leaves the
    handler. *)
Lemma update_input_data_raises :
  snd (update_input_data (session1 true false))
  = Raise (mkExn "ConnectionError" "server unreachable").
Proof. vm_compute. reflexivity. Qed.

Lemma handlers_log_and_raise_again_witness :
  fetch_data (Collaborators := demo true false)
    (count_fetches (trace (fst (session1 true false)))) default_config
  = Raise (mkExn "ConnectionError" "server unreachable")
  /\ snd (update_input_data (session1 true false))
     = Raise (mkExn "ConnectionError" "server unreachable").
Proof.
  split; [reflexivity|].
  apply (proj1 (proj2 (proj2
    (handlers_log_and_raise_again (C := demo true false) default_title
       (fst (session1 true false)) (snd (session1 true false))
       (mkExn "ConnectionError" "server unreachable"))))
    default_config eq_refl eq_refl eq_refl).
Defined.



Lemma update_analysis_without_raw_witness :
  raw_data (new_gui (C := demo false false) widgets0) = None
  /\ output_title
       (snd (fst (update_analysis default_title
                    (world0 (demo false false), new_gui widgets0))))
     = Some "Please fetch data first".
Proof.
  split; [reflexivity|].
  pose proof (update_analysis_without_raw (C := demo false false) default_title
                (world0 (demo false false)) (new_gui widgets0) eq_refl) as H.
  cbv zeta in H. destruct H as (_ & _ & Ht & _). exact Ht.
Defined.

(** C6, as stated, fails: in a process with no entry the plot of the
    precache fails, after its fetch and its run of the chain; the session
    then fetches and processes again, so that the start has made two
    fetches and run the chain three times before an entry is stored. *)
Lemma start_fetches_and_processes_twice :
  let out := module_load (C := demo_first_plot_fails) (world0 demo_first_plot_fails) in
  cache (world0 demo_first_plot_fails) = None
  /\ snd out = Ok tt
  /\ trace (fst (fst out)) =
     [EvPrint "Starting TFA precache...";
      EvFetch default_config;
      EvApply 1%nat default_process_params;
      EvQuicklook 1%nat default_tlims;
      EvPrint "TFA precache failed: No numeric data to plot.";
      EvPrint "Traceback: TypeError: No numeric data to plot.";
      EvFetch default_config;
      EvApply 3%nat default_process_params;
      EvApply 4%nat default_process_params;
      EvQuicklook 4%nat default_tlims]
  /\ count_fetches (trace (fst (fst out))) = 2%nat
  /\ heap (fst (fst out)) = ["raw0"; "raw0|tfa"; "raw1"; "raw1|tfa"; "raw1|tfa"]
  /\ raw_data (snd (fst out)) = Some 2%nat
  /\ data (snd (fst out)) = Some 4%nat
  /\ c_raw_data <$> cache (fst (fst out)) = Some (Some 2%nat).
Proof. vm_compute. repeat split; reflexivity. Qed.

Lemma cache_round_trip_witness :
  cache (fst (session1 false false)) = Some (old_entry (demo false false))
  /\ cache_entry_of
       (snd (fst (__init__ widgets0 (fst (session1 false false)))))
     = old_entry (demo false false)
  /\ cache (world0 (demo false false)) = None
  /\ count_fetches
       (trace (fst (fst (module_load (C := demo false false)
                           (world0 (demo false false)))))) = 1%nat.
Proof.
  split; [reflexivity|].
  pose proof (cache_round_trip (C := demo false false) widgets0
                (fst (session1 false false))) as H1.
  pose proof (cache_round_trip (C := demo false false) widgets0
                (world0 (demo false false))) as H0.
  split; [exact (proj2 (proj2 (proj2 (proj1 H1 _ eq_refl))))|].
  split; [reflexivity|].
  destruct (proj2 H0 eq_refl) as (_ & _ & Hstored & _).
  exact (proj1 (proj2 (proj2 (Hstored _ eq_refl)))).
Defined.

End TFA_Facts.

(* ===================================================================== *)
(** ** The DSECS explorer: data view, NetCDF loading, animation player    *)
(* ===================================================================== *)

Module DSECS_Facts.
Import Py DSECS PyFacts.
Local Open Scope py_scope.

Ltac dsecs_cbn :=
  cbn [fst snd id netcdf_dropper start_end data preprocessed analyzed
       status_info data_view code_snippet swarmpal_animated frame_slider
       play_button animation_figures animation_playing _animation_callback
       periodic_callbacks callbacks_created
       set_data set_preprocessed set_analyzed set_status_info set_data_view
       set_code_snippet set_swarmpal_animated set_frame_slider set_play_button
       set_animation_figures set_animation_playing set__animation_callback
       set_periodic_callbacks set_callbacks_created
       sl_start sl_end sl_value sl_disabled btn_name btn_disabled
       file_path filename attr_name] in *.

Ltac keep_calls m :=
  lazymatch m with
  | _update_data_view => fail
  | _update_quicklook => fail
  | _update_code_snippet => fail
  | _ => idtac
  end.

Ltac keep_none m := idtac.

Ltac wp_step := wp_step_with dsecs_cbn keep_none.
Ltac wp_step_calls := wp_step_with dsecs_cbn keep_calls.

Section Explorer.
Context `{E : Externals}.

(** *** The data view *)




(** *** Loading a NetCDF file *)

Lemma wp_on_self {A} (m : M (S := DsecsDataExplorer) A)
    (Q : DsecsDataExplorer * Frame -> result A -> Prop) (s : DsecsDataExplorer * Frame) :
  wp m (fun x r => Q (x, snd s) r) (fst s) -> wp (on_self m) Q s.
Proof. exact id. Qed.

Lemma wp_of_ok {S} (m : M (S := S) unit) (Q : S -> result unit -> Prop) (s : S) :
  snd (m s) = Ok tt -> Q (fst (m s)) (Ok tt) -> wp m Q s.
Proof. unfold wp. intros ->. exact id. Qed.

Lemma _update_data_view_returns (x : DsecsDataExplorer) :
  snd (_update_data_view x) = Ok tt.
Proof.
  apply (wp_run _update_data_view (fun _ res => res = Ok tt)).
  unfold _update_data_view. repeat wp_step. all: reflexivity.
Qed.

Lemma _update_code_snippet_returns (x : DsecsDataExplorer) :
  snd (_update_code_snippet x) = Ok tt.
Proof.
  apply (wp_run _update_code_snippet (fun _ res => res = Ok tt)).
  unfold _update_code_snippet. repeat wp_step. all: reflexivity.
Qed.

Lemma _update_quicklook_returns (x : DsecsDataExplorer) :
  snd (_update_quicklook x) = Ok tt.
Proof.
  apply (wp_run _update_quicklook (fun _ res => res = Ok tt)).
  unfold _update_quicklook. repeat wp_step. all: reflexivity.
Qed.

Ltac wp_call :=
  first
    [ apply wp_on_self
    | wp_step_calls
    | apply wp_of_ok;
      [ first [ apply _update_data_view_returns
              | apply _update_quicklook_returns
              | apply _update_code_snippet_returns ]
      | cbv beta iota ] ].

(** Where the claim C10 holds: once both names of the dropped file can be
    read, the handler of [load_netcdf_data] completes, and a failure to open
    the file gives a status that names the file. *)
Lemma load_netcdf_data_named_file (x : DsecsDataExplorer) (p f : string) :
  fd_value (netcdf_dropper x) = true ->
  temp_file (netcdf_dropper x) = Some p ->
  file_in_mem (netcdf_dropper x) = Some f ->
  snd (load_netcdf_data x) = Ok tt
  /\ (forall e, open_datatree p = Raise e ->
        status_info (fst (load_netcdf_data x)) = failed_to_load f e).
Proof.
  intros Hv Hp Hf.
  apply (wp_run load_netcdf_data
           (fun x' res =>
              res = Ok tt
              /\ forall e, open_datatree p = Raise e ->
                   status_info x' = failed_to_load f e)).
  unfold load_netcdf_data.
  apply wp_bind, wp_gets. cbv beta iota. unfold id. rewrite Hv. cbn [negb].
  change (wp load_netcdf_try
            (fun s res =>
               res = Ok tt
               /\ forall e, open_datatree p = Raise e ->
                    status_info (fst s) = failed_to_load f e)
            (x, mkFrame None None)).
  unfold load_netcdf_try.
  apply wp_try_except, wp_bind, wp_on_self. unfold self. apply wp_gets.
  cbv beta iota. unfold id. cbn [fst snd]. rewrite Hp, Hf.
  repeat wp_call.
  all: split; [first [reflexivity | congruence]|].
  all: intros e' He'; first [congruence | inversion He'; subst; reflexivity].
Qed.


(** C10 (what the code does instead). When a file is held but one of its
    two names cannot be read, the failure happens before [filename] is
    bound; the handler then fails on reading [filename] itself: the status
    is not set and [UnboundLocalError] leaves [load_netcdf_data]. *)
Theorem load_netcdf_data_unbound_filename (x : DsecsDataExplorer) :
  fd_value (netcdf_dropper x) = true ->
  temp_file (netcdf_dropper x) = None \/ file_in_mem (netcdf_dropper x) = None ->
  load_netcdf_data x = (x, Raise unbound_filename).
Proof.
  intros Hv Hnone.
  unfold load_netcdf_data, bind, self, gets. cbn [fst snd id]. rewrite Hv. cbn [negb].
  unfold load_netcdf_try, try_except, bind, on_self, self, gets, lift, read_local,
    bind_file_path, modify, raise.
  cbn [fst snd id].
  destruct Hnone as [Hnone|Hnone].
  - rewrite Hnone. reflexivity.
  - destruct (temp_file (netcdf_dropper x)); rewrite Hnone; reflexivity.
Qed.

(** *** Frames and their keys *)

Lemma dict_lookup_in_keys (k : Z) (d : list (Z * Figure)) :
  In k (keys d) -> exists v, dict_lookup k d = Some v.
Proof.
  induction d as [|[k' v] d IH]; simpl; [tauto|].
  intros [->|Hin].
  - rewrite Z.eqb_refl. eauto.
  - destruct (k =? k'); eauto.
Qed.

Lemma py_min_spec (k : Z) (ks : list Z) :
  py_min k ks <= k /\ (forall a, In a ks -> py_min k ks <= a)
  /\ In (py_min k ks) (k :: ks).
Proof.
  unfold py_min. revert k. induction ks as [|a ks IH]; intros k; simpl.
  - split; [lia|]. split; [tauto|]. auto.
  - destruct (IH (Z.min k a)) as (H1 & H2 & H3).
    split; [lia|]. split.
    + intros b [<-|Hb]; [lia|auto].
    + simpl in H3 |- *. destruct H3 as [H3|H3]; [|tauto].
      destruct (Z.min_spec k a) as [[_ Hm]|[_ Hm]]; rewrite Hm in H3 |- *; tauto.
Qed.

Lemma py_max_spec (k : Z) (ks : list Z) :
  k <= py_max k ks /\ (forall a, In a ks -> a <= py_max k ks)
  /\ In (py_max k ks) (k :: ks).
Proof.
  unfold py_max. revert k. induction ks as [|a ks IH]; intros k; simpl.
  - split; [lia|]. split; [tauto|]. auto.
  - destruct (IH (Z.max k a)) as (H1 & H2 & H3).
    split; [lia|]. split.
    + intros b [<-|Hb]; [lia|auto].
    + simpl in H3 |- *. destruct H3 as [H3|H3]; [|tauto].
      destruct (Z.max_spec k a) as [[_ Hm]|[_ Hm]]; rewrite Hm in H3 |- *; tauto.
Qed.

Lemma keys_dict_store_new (k : Z) (v : Figure) (d : list (Z * Figure)) :
  ~ In k (keys d) -> keys (dict_store k v d) = keys d ++ [k].
Proof.
  induction d as [|[k' v'] d IH]; simpl; [reflexivity|].
  intros Hn. destruct (Z.eqb_spec k k') as [->|Hne]; [tauto|].
  simpl. f_equal. apply IH. tauto.
Qed.

(** For a dictionary (no key twice) the frames kept are the frames given,
    in the order given. *)
Lemma keys_resize_figures (figures_dict : list (Z * Figure)) :
  NoDup (keys figures_dict) ->
  keys (resize_figures figures_dict) = keys figures_dict.
Proof.
  unfold resize_figures.
  enough (H : forall acc,
            NoDup (keys acc ++ keys figures_dict) ->
            keys (fold_left
                    (fun resized_figures item =>
                       let frame_id := fst item in
                       let sized := set_size_inches (snd item) 12 8 in
                       match snd sized with
                       | Some e => dict_store frame_id (fst sized) resized_figures
                       | None =>
                           let tight := tight_layout (fst sized) in
                           match snd tight with
                           | Some e => dict_store frame_id (fst tight) resized_figures
                           | None => dict_store frame_id (fst tight) resized_figures
                           end
                       end) figures_dict acc)
            = keys acc ++ keys figures_dict).
  { intros Hnd. apply (H []). exact Hnd. }
  induction figures_dict as [|[k v] d IH]; intros acc Hnd; simpl.
  - symmetry. apply app_nil_r.
  - simpl in Hnd.
    assert (Hk : ~ In k (keys acc)).
    { apply NoDup_app in Hnd as (_ & Hdis & _). intros Hin.
      apply (Hdis k); [apply list_elem_of_In; exact Hin | left]. }
    assert (Hnd' : NoDup ((keys acc ++ [k]) ++ keys d)).
    { rewrite <- app_assoc. exact Hnd. }
    destruct (snd (set_size_inches v 12 8)).
    + rewrite IH; rewrite keys_dict_store_new by exact Hk;
        [rewrite <- app_assoc; reflexivity | exact Hnd'].
    + destruct (snd (tight_layout _)).
      * rewrite IH; rewrite keys_dict_store_new by exact Hk;
          [rewrite <- app_assoc; reflexivity | exact Hnd'].
      * rewrite IH; rewrite keys_dict_store_new by exact Hk;
          [rewrite <- app_assoc; reflexivity | exact Hnd'].
Qed.


(** *** The animation player *)

(** C7 (amended). Loading a new set of frames leaves the player as it was:
    the playing flag, the callback held and the callbacks running are not
    touched, so a player that was playing keeps playing, with the list of
    frames its callback captured before. The slider goes to the least of the
    new keys, with the range from the least to the greatest key, both
    controls are enabled and the frame of the least key is shown. When
    there is no frame, both controls are disabled and the placeholder
    figure is shown. *)
Theorem _setup_animated_quicklook_spec (figures_dict : list (Z * Figure))
    (x : DsecsDataExplorer) :
  let x' := fst (_setup_animated_quicklook figures_dict x) in
  snd (_setup_animated_quicklook figures_dict x) = Ok tt
  /\ animation_playing x' = animation_playing x
  /\ _animation_callback x' = _animation_callback x
  /\ periodic_callbacks x' = periodic_callbacks x
  /\ animation_figures x' = resize_figures figures_dict
  /\ match keys (resize_figures figures_dict) with
     | [] =>
         sl_disabled (frame_slider x') = true
         /\ btn_disabled (play_button x') = true
         /\ swarmpal_animated x' = Some _pending_matplotlib_figure
     | k :: ks =>
         frame_slider x' = mkSlider (py_min k ks) (py_max k ks) (py_min k ks) false
         /\ btn_disabled (play_button x') = false
         /\ (exists fig,
               dict_lookup (py_min k ks) (resize_figures figures_dict) = Some fig
               /\ swarmpal_animated x' = Some fig)
         /\ In (py_min k ks) (k :: ks)
         /\ (forall k', In k' (k :: ks) -> py_min k ks <= k' <= py_max k ks)
     end.
Proof.
  cbv zeta.
  apply (wp_run (_setup_animated_quicklook figures_dict)
           (fun x' res =>
              res = Ok tt
              /\ animation_playing x' = animation_playing x
              /\ _animation_callback x' = _animation_callback x
              /\ periodic_callbacks x' = periodic_callbacks x
              /\ animation_figures x' = resize_figures figures_dict
              /\ match keys (resize_figures figures_dict) with
                 | [] =>
                     sl_disabled (frame_slider x') = true
                     /\ btn_disabled (play_button x') = true
                     /\ swarmpal_animated x' = Some _pending_matplotlib_figure
                 | k :: ks =>
                     frame_slider x' =
                     mkSlider (py_min k ks) (py_max k ks) (py_min k ks) false
                     /\ btn_disabled (play_button x') = false
                     /\ (exists fig,
                           dict_lookup (py_min k ks) (resize_figures figures_dict)
                           = Some fig
                           /\ swarmpal_animated x' = Some fig)
                     /\ In (py_min k ks) (k :: ks)
                     /\ (forall k', In k' (k :: ks) ->
                           py_min k ks <= k' <= py_max k ks)
                 end)).
  unfold _setup_animated_quicklook. cbv zeta.
  apply wp_bind, wp_modify. cbv beta iota.
  destruct (resize_figures figures_dict) as [|[k0 v0] rest] eqn:Hres.
  - repeat wp_step. cbn [keys map]. repeat split; reflexivity.
  - cbn [keys map fst].
    destruct (py_min_spec k0 (map fst rest)) as (Hle & Hall & Hin).
    destruct (py_max_spec k0 (map fst rest)) as (Hge & Hall' & _).
    destruct (dict_lookup_in_keys (py_min k0 (map fst rest)) ((k0, v0) :: rest) Hin)
      as [fig Hfig].
    repeat wp_step.
    all: repeat split; try reflexivity; try exact Hin; eauto.
    all: match goal with
         | H : In ?k' (_ :: _) |- _ <= _ => destruct H as [<-|H]; [lia | solve [auto]]
         end.
Qed.


Lemma index_of_lookup (frames : list Z) (i : nat) (k : Z) :
  NoDup frames -> frames !! i = Some k -> index_of k frames = Some i.
Proof.
  intros Hnd. revert i. induction Hnd as [|a l Hnotin Hnd IH]; intros i Hi.
  - discriminate.
  - destruct i as [|i]; simpl in *.
    + injection Hi as ->. rewrite Z.eqb_refl. reflexivity.
    + destruct (Z.eqb_spec k a) as [->|Hne].
      * exfalso. apply Hnotin. apply list_elem_of_lookup. eauto.
      * rewrite (IH i Hi). reflexivity.
Qed.

Lemma index_of_None (frames : list Z) (k : Z) :
  ~ In k frames -> index_of k frames = None.
Proof.
  induction frames as [|a l IH]; simpl; [reflexivity|].
  intros Hn. destruct (Z.eqb_spec k a) as [->|Hne]; [tauto|].
  rewrite IH by tauto. reflexivity.
Qed.

Lemma sorted_lookup_lt (l : list Z) (i j : nat) (a b : Z) :
  StronglySorted Z.lt l -> l !! i = Some a -> l !! j = Some b ->
  (i < j)%nat -> a < b.
Proof.
  intros Hs. revert i j. induction Hs as [|x l Hs IH Hall]; intros i j Hi Hj Hlt.
  - discriminate.
  - destruct j as [|j]; [lia|]. simpl in Hj. destruct i as [|i]; simpl in Hi.
    + injection Hi as <-. rewrite List.Forall_forall in Hall. apply Hall.
      apply list_elem_of_In, list_elem_of_lookup. eauto.
    + apply (IH i j); [assumption | assumption | lia].
Qed.

Lemma sorted_lookup_le (l : list Z) (i j : nat) (a b : Z) :
  StronglySorted Z.lt l -> l !! i = Some a -> l !! j = Some b ->
  (i <= j)%nat -> a <= b.
Proof.
  intros Hs Hi Hj Hle. destruct (Nat.eq_dec i j) as [->|Hne].
  - rewrite Hi in Hj. injection Hj as <-. lia.
  - pose proof (sorted_lookup_lt l i j a b Hs Hi Hj). lia.
Qed.

(** One firing of a running callback while playing: the slider goes to the
    frame that follows the current position in the captured list,
    cyclically. *)
Lemma tick_moves (x : DsecsDataExplorer) (cb : PeriodicCallback) :
  animation_playing x = true ->
  existsb (same_callback cb) (periodic_callbacks x) = true ->
  cb_frames cb <> [] ->
  exists next,
    cb_frames cb
      !! ((current_position (cb_frames cb) (sl_value (frame_slider x)) + 1)
          mod length (cb_frames cb))%nat = Some next
    /\ snd (tick cb x) = Ok tt
    /\ sl_value (frame_slider (fst (tick cb x))) = next
    /\ animation_playing (fst (tick cb x)) = true
    /\ _animation_callback (fst (tick cb x)) = _animation_callback x
    /\ periodic_callbacks (fst (tick cb x)) = periodic_callbacks x.
Proof.
  intros Hplay Hrun Hne.
  assert (Hlen : (0 < length (cb_frames cb))%nat).
  { destruct (cb_frames cb); [congruence | simpl; lia]. }
  destruct (lookup_lt_is_Some_2 (cb_frames cb)
              ((current_position (cb_frames cb) (sl_value (frame_slider x)) + 1)
               mod length (cb_frames cb))%nat) as [next Hnext].
  { apply Nat.mod_upper_bound. lia. }
  exists next. split; [exact Hnext|].
  apply (wp_run (tick cb)
           (fun x' res =>
              res = Ok tt /\ sl_value (frame_slider x') = next
              /\ animation_playing x' = true
              /\ _animation_callback x' = _animation_callback x
              /\ periodic_callbacks x' = periodic_callbacks x)).
  unfold tick. apply wp_bind. unfold self. apply wp_gets. cbv beta iota.
  rewrite Hrun. unfold advance_frame.
  apply wp_bind, wp_gets. cbv beta iota. rewrite Hplay. cbn [negb].
  apply wp_bind, wp_gets. cbv beta iota zeta.
  fold (current_position (cb_frames cb) (sl_value (frame_slider x))).
  destruct (cb_frames cb) as [|k ks] eqn:Hframes; [congruence|].
  rewrite Hnext.
  repeat wp_step.
  all: repeat split; try reflexivity; assumption.
Qed.

(** A scrub of the slider: the value is the one chosen, whatever the player
    does; the frame is shown when the value changed and is a key. *)
Lemma scrub_sets_value (x : DsecsDataExplorer) (j : Z) :
  snd (set_frame_slider_value j x) = Ok tt
  /\ sl_value (frame_slider (fst (set_frame_slider_value j x))) = j
  /\ animation_playing (fst (set_frame_slider_value j x)) = animation_playing x
  /\ _animation_callback (fst (set_frame_slider_value j x)) = _animation_callback x
  /\ periodic_callbacks (fst (set_frame_slider_value j x)) = periodic_callbacks x
  /\ (forall fig,
        dict_lookup j (animation_figures x) = Some fig ->
        j <> sl_value (frame_slider x) ->
        swarmpal_animated (fst (set_frame_slider_value j x)) = Some fig).
Proof.
  apply (wp_run (set_frame_slider_value j)
           (fun x' res =>
              res = Ok tt /\ sl_value (frame_slider x') = j
              /\ animation_playing x' = animation_playing x
              /\ _animation_callback x' = _animation_callback x
              /\ periodic_callbacks x' = periodic_callbacks x
              /\ (forall fig,
                    dict_lookup j (animation_figures x) = Some fig ->
                    j <> sl_value (frame_slider x) ->
                    swarmpal_animated x' = Some fig))).
  unfold set_frame_slider_value. repeat wp_step.
  all: repeat split; try reflexivity; intros; try congruence.
  apply Z.eqb_eq in Heqb. congruence.
Qed.

Lemma same_callback_sym (a b : PeriodicCallback) :
  same_callback a b = same_callback b a.
Proof. unfold same_callback. apply Nat.eqb_sym. Qed.

Lemma stopped_not_running (cb : PeriodicCallback) (running : list PeriodicCallback) :
  existsb (same_callback cb)
    (List.filter (fun c' => negb (same_callback c' cb)) running) = false.
Proof.
  induction running as [|c l IH]; simpl; [reflexivity|].
  destruct (same_callback c cb) eqn:Hs; simpl; [exact IH|].
  rewrite same_callback_sym, Hs. exact IH.
Qed.

(** Pressing the button while playing: the callback is stopped and
    forgotten, and a late firing of it does nothing. *)
Lemma _toggle_animation_stops (x : DsecsDataExplorer) (cb : PeriodicCallback) :
  animation_playing x = true ->
  _animation_callback x = Some cb ->
  snd (_toggle_animation x) = Ok tt
  /\ animation_playing (fst (_toggle_animation x)) = false
  /\ _animation_callback (fst (_toggle_animation x)) = None
  /\ existsb (same_callback cb) (periodic_callbacks (fst (_toggle_animation x))) = false
  /\ btn_name (play_button (fst (_toggle_animation x))) = "▶ Play"
  /\ tick cb (fst (_toggle_animation x)) = (fst (_toggle_animation x), Ok tt).
Proof.
  intros Hplay Hcb.
  assert (H : snd (_toggle_animation x) = Ok tt
              /\ animation_playing (fst (_toggle_animation x)) = false
              /\ _animation_callback (fst (_toggle_animation x)) = None
              /\ existsb (same_callback cb)
                   (periodic_callbacks (fst (_toggle_animation x))) = false
              /\ btn_name (play_button (fst (_toggle_animation x))) = "▶ Play").
  { apply (wp_run _toggle_animation
             (fun x' res =>
                res = Ok tt /\ animation_playing x' = false
                /\ _animation_callback x' = None
                /\ existsb (same_callback cb) (periodic_callbacks x') = false
                /\ btn_name (play_button x') = "▶ Play")).
    unfold _toggle_animation. repeat wp_step.
    repeat split; try reflexivity. apply stopped_not_running. }
  destruct H as (H1 & H2 & H3 & H4 & H5).
  repeat split; try assumption.
  unfold tick, bind, self, gets. cbn [fst snd]. rewrite H4. reflexivity.
Qed.

(** Pressing the button while stopped, with frames loaded: a callback over
    the keys of the frames, in the order of the dictionary, is registered
    with a period of 1200 ms. *)
Lemma _toggle_animation_starts (x : DsecsDataExplorer) (k : Z) (ks : list Z) :
  animation_playing x = false ->
  keys (animation_figures x) = k :: ks ->
  let cb := mkCallback (callbacks_created x) (k :: ks) 1200 in
  snd (_toggle_animation x) = Ok tt
  /\ animation_playing (fst (_toggle_animation x)) = true
  /\ _animation_callback (fst (_toggle_animation x)) = Some cb
  /\ periodic_callbacks (fst (_toggle_animation x)) = periodic_callbacks x ++ [cb]
  /\ sl_value (frame_slider (fst (_toggle_animation x))) = sl_value (frame_slider x).
Proof.
  intros Hplay Hkeys cb. subst cb.
  apply (wp_run _toggle_animation
           (fun x' res =>
              res = Ok tt /\ animation_playing x' = true
              /\ _animation_callback x'
                 = Some (mkCallback (callbacks_created x) (k :: ks) 1200)
              /\ periodic_callbacks x'
                 = periodic_callbacks x
                   ++ [mkCallback (callbacks_created x) (k :: ks) 1200]
              /\ sl_value (frame_slider x') = sl_value (frame_slider x))).
  unfold _toggle_animation. repeat wp_step.
  repeat split; reflexivity.
Qed.

Lemma current_position_of_key (frames : list Z) (i : nat) (k : Z) :
  NoDup frames -> frames !! i = Some k -> current_position frames k = i.
Proof.
  intros Hnd Hi. unfold current_position.
  rewrite (index_of_lookup frames i k Hnd Hi). reflexivity.
Qed.

Lemma current_position_outside (frames : list Z) (k : Z) :
  ~ In k frames -> current_position frames k = O.
Proof.
  intros Hn. unfold current_position. rewrite (index_of_None frames k Hn).
  reflexivity.
Qed.

(** For keys in increasing order, the frame after position [i] is the next
    greater key, and after the last position it is the least key. *)
Lemma sorted_successor (frames : list Z) (i : nat) (cur next : Z) :
  StronglySorted Z.lt frames ->
  frames !! i = Some cur ->
  frames !! ((i + 1) mod length frames)%nat = Some next ->
  ((S i < length frames)%nat ->
   cur < next /\ forall k, In k frames -> ~ (cur < k < next))
  /\ ((S i = length frames)%nat -> forall k, In k frames -> next <= k <= cur).
Proof.
  intros Hs Hi Hnext. split.
  - intros Hlt. rewrite Nat.mod_small in Hnext by lia.
    split; [apply (sorted_lookup_lt frames i (i + 1) cur next); auto; lia|].
    intros k Hk [Hck Hkn].
    apply list_elem_of_In, list_elem_of_lookup in Hk as [j Hj].
    destruct (Nat.le_gt_cases j i) as [Hle|Hgt].
    + pose proof (sorted_lookup_le frames j i k cur Hs Hj Hi Hle). lia.
    + assert (Hle : (i + 1 <= j)%nat) by lia.
      pose proof (sorted_lookup_le frames (i + 1) j next k Hs Hnext Hj Hle). lia.
  - intros Heq k Hk.
    replace (i + 1)%nat with (length frames) in Hnext by lia.
    rewrite Nat.Div0.mod_same in Hnext.
    apply list_elem_of_In, list_elem_of_lookup in Hk as [j Hj].
    split.
    + apply (sorted_lookup_le frames 0 j next k Hs Hnext Hj). lia.
    + apply (sorted_lookup_le frames j i k cur Hs Hj Hi).
      apply lookup_lt_Some in Hj. lia.
Qed.

(** C8 (amended). While playing, a firing of the running callback moves the
    slider from the key at position [i] of the list of keys the callback
    captured (the keys of the frames in the order of the dictionary, no key
    twice) to the key at position [(i + 1) mod len]; when the keys are in
    increasing order this is the next greater key, and the least key after
    the greatest. A scrub sets the slider to the value chosen whatever the
    player does; the next firing goes on from that value when it is a key,
    and to the second key of the list when it is not. Pressing the button
    while playing stops and forgets the callback, and a late firing of it
    does nothing. *)
Theorem animation_player_playing (x : DsecsDataExplorer) (cb : PeriodicCallback)
    (i : nat) (cur : Z) :
  animation_playing x = true ->
  _animation_callback x = Some cb ->
  existsb (same_callback cb) (periodic_callbacks x) = true ->
  NoDup (cb_frames cb) ->
  cb_frames cb !! i = Some cur ->
  let frames := cb_frames cb in
  let len := length frames in
  (sl_value (frame_slider x) = cur ->
   exists next,
     frames !! ((i + 1) mod len)%nat = Some next
     /\ snd (tick cb x) = Ok tt
     /\ sl_value (frame_slider (fst (tick cb x))) = next
     /\ animation_playing (fst (tick cb x)) = true
     /\ (StronglySorted Z.lt frames ->
         ((S i < len)%nat ->
          cur < next /\ forall k, In k frames -> ~ (cur < k < next))
         /\ ((S i = len)%nat -> forall k, In k frames -> next <= k <= cur)))
  /\ (forall j,
        let x' := fst (set_frame_slider_value j x) in
        snd (set_frame_slider_value j x) = Ok tt
        /\ sl_value (frame_slider x') = j
        /\ animation_playing x' = true
        /\ (j = cur ->
            exists next,
              frames !! ((i + 1) mod len)%nat = Some next
              /\ sl_value (frame_slider (fst (tick cb x'))) = next)
        /\ (~ In j frames ->
            exists next,
              frames !! (1 mod len)%nat = Some next
              /\ sl_value (frame_slider (fst (tick cb x'))) = next))
  /\ (snd (_toggle_animation x) = Ok tt
      /\ animation_playing (fst (_toggle_animation x)) = false
      /\ _animation_callback (fst (_toggle_animation x)) = None
      /\ existsb (same_callback cb)
           (periodic_callbacks (fst (_toggle_animation x))) = false
      /\ tick cb (fst (_toggle_animation x)) = (fst (_toggle_animation x), Ok tt)).
Proof.
  intros Hplay Hcb Hrun Hnd Hi frames len.
  assert (Hne : cb_frames cb <> []) by (intros H0; rewrite H0 in Hi; discriminate).
  split; [|split].
  - intros Hcur.
    destruct (tick_moves x cb Hplay Hrun Hne) as (next & Hnext & Hok & Hv & Hp & _).
    rewrite Hcur, (current_position_of_key _ i cur Hnd Hi) in Hnext.
    exists next. split; [exact Hnext|]. split; [exact Hok|].
    split; [exact Hv|]. split; [exact Hp|].
    intros Hs. exact (sorted_successor (cb_frames cb) i cur next Hs Hi Hnext).
  - intros j x'.
    destruct (scrub_sets_value x j) as (Hok & Hv & Hp & _ & Hr & _).
    fold x' in Hv, Hp, Hr.
    assert (Hplay' : animation_playing x' = true) by congruence.
    assert (Hrun' : existsb (same_callback cb) (periodic_callbacks x') = true)
      by (rewrite Hr; exact Hrun).
    destruct (tick_moves x' cb Hplay' Hrun' Hne) as (next & Hnext & _ & Hv' & _).
    rewrite Hv in Hnext.
    split; [exact Hok|]. split; [exact Hv|]. split; [exact Hplay'|]. split.
    + intros ->. rewrite (current_position_of_key _ i cur Hnd Hi) in Hnext.
      exists next. split; assumption.
    + intros Hout. rewrite (current_position_outside (cb_frames cb) j Hout) in Hnext.
      exists next. split; assumption.
  - destruct (_toggle_animation_stops x cb Hplay Hcb) as (H1 & H2 & H3 & H4 & _ & H6).
    repeat split; assumption.
Qed.

End Explorer.

(** *** Concrete runs *)

Import DSECS_Demo.

(** C7, as stated, fails: new frames are loaded while the player is playing,
    and the player is still playing afterwards, its callback running over
    the keys of the old frames. *)
Lemma setup_keeps_playing :
  let x' := after (_setup_animated_quicklook (E := demo no_file) [(5, "e")]) playing012 in
  animation_playing playing012 = true
  /\ animation_playing x' = true
  /\ _animation_callback x' = Some (callback0 [0; 1; 2])
  /\ periodic_callbacks x' = [callback0 [0; 1; 2]]
  /\ keys (animation_figures x') = [5]
  /\ sl_value (frame_slider x') = 5.
Proof. vm_compute. repeat split; reflexivity. Qed.

(** The example of the specification: frames [0], [1], [2], play from [0];
    three firings give [1], [2], [0]; a scrub to [1] after two firings sets
    the slider to [1] and the next firing gives [2]. *)
Example player_012 :
  let t := tick (E := demo no_file) (callback0 [0; 1; 2]) in
  sl_value (frame_slider playing012) = 0
  /\ sl_value (frame_slider (after t playing012)) = 1
  /\ sl_value (frame_slider (after t (after t playing012))) = 2
  /\ sl_value (frame_slider (after t (after t (after t playing012)))) = 0
  /\ sl_value (frame_slider
       (after (set_frame_slider_value 1) (after t (after t playing012)))) = 1
  /\ sl_value (frame_slider
       (after t (after (set_frame_slider_value 1) (after t (after t playing012))))) = 2.
Proof. vm_compute. repeat split; reflexivity. Qed.

(** C8, as stated, fails. With keys inserted in the order [0], [2], [1] the
    firing at [0] gives [2], where the next key in cyclic order is [1]; with
    keys [0], [2], [4] a scrub to [3] sets the slider to [3] and the next
    firing gives [2], where the next key in cyclic order is [4]. *)
Lemma tick_follows_captured_order :
  animation_playing playing021 = true
  /\ sl_value (frame_slider playing021) = 0
  /\ sl_value (frame_slider
       (after (tick (E := demo no_file) (callback0 [0; 2; 1])) playing021)) = 2
  /\ next_key_cyclic [0; 2; 1] 0 = Some 1
  /\ animation_playing playing024 = true
  /\ sl_value (frame_slider
       (after (set_frame_slider_value (E := demo no_file) 3) playing024)) = 3
  /\ sl_value (frame_slider
       (after (tick (E := demo no_file) (callback0 [0; 2; 4]))
          (after (set_frame_slider_value (E := demo no_file) 3) playing024))) = 2
  /\ next_key_cyclic [0; 2; 4] 3 = Some 4.
Proof. vm_compute. repeat split; reflexivity. Qed.

Lemma animation_player_playing_witness :
  animation_playing playing012 = true
  /\ _animation_callback playing012 = Some (callback0 [0; 1; 2])
  /\ exists next,
       [0; 1; 2] !! 1%nat = Some next
       /\ sl_value (frame_slider
            (fst (tick (E := demo no_file) (callback0 [0; 1; 2]) playing012))) = next.
Proof.
  split; [reflexivity|]. split; [reflexivity|].
  assert (Hnd : NoDup (cb_frames (callback0 [0; 1; 2]))) by (vm_compute; compute_done).
  destruct (proj1 (animation_player_playing (E := demo no_file) playing012
                     (callback0 [0; 1; 2]) 0%nat 0 eq_refl eq_refl eq_refl Hnd eq_refl)
              eq_refl) as (next & Hnext & _ & Hv & _).
  exists next. split; [exact Hnext | exact Hv].
Defined.


(** C10, at the failing input: a file is held ([value] is set) and
    [temp_file] is [None]. *)
Lemma load_netcdf_data_unbound_filename_witness :
  load_netcdf_data (E := demo no_file)
    (new_explorer (mkFileDropper true None None) default_range)
  = (new_explorer (mkFileDropper true None None) default_range,
     Raise unbound_filename).
Proof.
  apply load_netcdf_data_unbound_filename; [reflexivity | left; reflexivity].
Defined.

End DSECS_Facts.

(* ===================================================================== *)
(** ** noxfile.py: the files that are served                              *)
(* ===================================================================== *)

Module Noxfile_Facts.
Import Noxfile.

Lemma endswith_app (p suffix : string) : endswith (p +:+ suffix) suffix = true.
Proof.
  induction p as [|c p IH].
  - change (EmptyString +:+ suffix) with suffix.
    destruct suffix; cbn [endswith]; rewrite String.eqb_refl; reflexivity.
  - change (String c p +:+ suffix) with (String c (p +:+ suffix)).
    cbn [endswith]. rewrite IH. apply orb_true_r.
Qed.

Lemma endswith_inv (s suffix : string) :
  endswith s suffix = true -> exists p, s = p +:+ suffix.
Proof.
  induction s as [|c s IH]; cbn [endswith]; intros H.
  - apply orb_true_iff in H as [H|H]; [|discriminate].
    apply String.eqb_eq in H. subst. exists EmptyString. reflexivity.
  - apply orb_true_iff in H as [H|H].
    + apply String.eqb_eq in H. subst. exists EmptyString. reflexivity.
    + destruct (IH H) as [p ->]. exists (String c p). reflexivity.
Qed.

Lemma endswith_spec (s suffix : string) :
  endswith s suffix = true <-> exists p, s = p +:+ suffix.
Proof.
  split; [apply endswith_inv|]. intros [p ->]. apply endswith_app.
Qed.

Lemma dashboard_files_sublist (globbed : list string) :
  sublist (dashboard_files globbed) globbed.
Proof.
  unfold dashboard_files. induction globbed as [|f l IH]; simpl.
  - constructor.
  - destruct (negb (endswith f "common.py")); constructor; exact IH.
Qed.

(** X1. The dashboards served are the globbed paths that do not end in
    [common.py], in the order of the glob: a path of the form
    [p + "common.py"] is left out whatever [p] is, every other path is
    served. In the command they stand between [panel serve] and the
    options. *)
Theorem dashboards_served (globbed : list string) :
  (forall f, In f (dashboard_files globbed) <->
             In f globbed /\ ~ exists p, f = p +:+ "common.py")
  /\ sublist (dashboard_files globbed) globbed
  /\ dashboards globbed =
     "panel" :: "serve" :: dashboard_files globbed
     ++ ["--index"; "dashboards/index.html";
         "--static-dirs"; "thumbnails=./dashboards/thumbnails";
         "--autoreload"; "--warm"].
Proof.
  split; [|split; [apply dashboard_files_sublist | reflexivity]].
  intros f. unfold dashboard_files. rewrite List.filter_In, negb_true_iff.
  rewrite <- (endswith_spec f "common.py").
  destruct (endswith f "common.py"); intuition congruence.
Qed.

(** X2. When the glob finds nothing but files that end in [common.py]
    (or nothing at all), the command is still run, with no dashboard in
    it. *)
Theorem dashboards_without_files (globbed : list string) :
  (forall f, In f globbed -> exists p, f = p +:+ "common.py") ->
  dashboards globbed =
  ["panel"; "serve"; "--index"; "dashboards/index.html";
   "--static-dirs"; "thumbnails=./dashboards/thumbnails";
   "--autoreload"; "--warm"].
Proof.
  intros Hall. unfold dashboards.
  replace (dashboard_files globbed) with (@nil string); [reflexivity|].
  unfold dashboard_files. induction globbed as [|f l IH]; [reflexivity|].
  simpl. rewrite (proj2 (endswith_spec f "common.py")) by (apply Hall; left; reflexivity).
  simpl. apply IH. intros g Hg. apply Hall. right. exact Hg.
Qed.

Lemma dashboards_without_files_witness :
  dashboards ["dashboards/common.py"] =
  ["panel"; "serve"; "--index"; "dashboards/index.html";
   "--static-dirs"; "thumbnails=./dashboards/thumbnails";
   "--autoreload"; "--warm"].
Proof.
  apply dashboards_without_files.
  intros f [<-|[]]. exists "dashboards/". reflexivity.
Defined.

End Noxfile_Facts.

(* ===================================================================== *)
(** ** dashboards/TFA.py: log entries, printed structure, widget events   *)
(* ===================================================================== *)

Module TFA_Log_Facts.
Import Py TFA TFA_UI PyFacts.
Local Open Scope py_scope.

(** *** The HTML of a log entry *)

Lemma append_nil (b : string) : EmptyString +:+ b = b.
Proof. reflexivity. Qed.

Lemma append_cons (x : Ascii.ascii) (a b : string) :
  String x a +:+ b = String x (a +:+ b).
Proof. reflexivity. Qed.

Lemma append_assoc (a b c : string) : (a +:+ b) +:+ c = a +:+ b +:+ c.
Proof.
  induction a as [|x a IH]; rewrite ?append_nil, ?append_cons;
    [reflexivity | f_equal; exact IH].
Qed.

Lemma occurs_app (c : Ascii.ascii) (a b : string) :
  occurs c (a +:+ b) = occurs c a || occurs c b.
Proof.
  induction a as [|x a IH]; rewrite ?append_nil, ?append_cons; cbn [occurs];
    [reflexivity|].
  rewrite IH. apply orb_assoc.
Qed.

Lemma occurs_replace_char (c old : Ascii.ascii) (new s : string) :
  occurs c (replace_char old new s) =
  (negb (Ascii.eqb c old) && occurs c s) || (occurs old s && occurs c new).
Proof.
  induction s as [|x s IH]; cbn [replace_char occurs].
  - rewrite andb_false_r. reflexivity.
  - rewrite occurs_app, IH.
    destruct (Ascii.eqb_spec x old) as [->|Hxo].
    + destruct (Ascii.eqb_spec c old) as [->|Hco].
      * rewrite Ascii.eqb_refl. simpl.
        destruct (occurs old new), (occurs old s); reflexivity.
      * destruct (Ascii.eqb_spec old c) as [->|_]; [congruence|]. simpl.
        destruct (occurs c new), (occurs c s), (occurs old s); reflexivity.
    + cbn [occurs]. rewrite orb_false_r.
      destruct (Ascii.eqb_spec c old) as [->|Hco].
      * destruct (Ascii.eqb_spec x old) as [->|_]; [congruence|]. simpl.
        reflexivity.
      * simpl. destruct (Ascii.eqb x c), (occurs c s), (occurs old s), (occurs c new);
          reflexivity.
Qed.

Lemma replace_char_absent (old : Ascii.ascii) (new s : string) :
  occurs old s = false -> replace_char old new s = s.
Proof.
  induction s as [|x s IH]; cbn [replace_char occurs]; [reflexivity|].
  intros H. apply orb_false_iff in H as [Hx Hs].
  rewrite Hx, (IH Hs). reflexivity.
Qed.

Lemma colors_fallback (level : string) :
  level <> "info" -> level <> "success" -> level <> "warning" -> level <> "error" ->
  colors_lookup level colors = None.
Proof.
  intros H1 H2 H3 H4. unfold colors. simpl.
  repeat match goal with
         | |- context [String.eqb level ?k] =>
             destruct (String.eqb_spec level k); [congruence|]
         end.
  reflexivity.
Qed.

(** X3. An entry of the log never fails to be built. Its colour is the one
    of its level, and the colour of [info] for a level that is none of the
    four; its message is escaped: no [<], [>] or quote character of the
    message is left in the entry's message part, and a message with none of
    the five special characters is kept as it is. *)
Theorem new_entry_escaped (timestamp level message : string) :
  exists color,
    new_entry timestamp level message
    = Ok ("<div style=" +:+ dq +:+ "color: " +:+ color +:+ "; margin-bottom: 5px;"
          +:+ dq +:+ "><strong>[" +:+ timestamp +:+ "]</strong> "
          +:+ html_escape message +:+ "</div>")
    /\ (level = "success" -> color = "#27ae60")
    /\ (level = "warning" -> color = "#f39c12")
    /\ (level = "error" -> color = "#e74c3c")
    /\ (level <> "success" -> level <> "warning" -> level <> "error" ->
        color = "#2c3e50")
    /\ occurs lt (html_escape message) = false
    /\ occurs gt (html_escape message) = false
    /\ occurs quot (html_escape message) = false
    /\ occurs apos (html_escape message) = false
    /\ (occurs amp message = false -> occurs lt message = false ->
        occurs gt message = false -> occurs quot message = false ->
        occurs apos message = false -> html_escape message = message).
Proof.
  unfold new_entry.
  change (colors_lookup "info" colors) with (Some "#2c3e50"). cbn [rbind].
  exists (match colors_lookup level colors with
          | Some c => c
          | None => "#2c3e50"
          end).
  split; [reflexivity|].
  split; [intros ->; reflexivity|]. split; [intros ->; reflexivity|].
  split; [intros ->; reflexivity|].
  split.
  { intros H2 H3 H4. destruct (String.eqb_spec level "info") as [->|H1]; [reflexivity|].
    rewrite colors_fallback by assumption. reflexivity. }
  unfold html_escape. cbv zeta.
  repeat split.
  1-4: rewrite !occurs_replace_char; cbn;
       rewrite ?andb_false_r, ?orb_false_r, ?andb_false_l; reflexivity.
  intros Ha Hl Hg Hq Hp.
  rewrite (replace_char_absent amp) by exact Ha.
  rewrite (replace_char_absent lt) by exact Hl.
  rewrite (replace_char_absent gt) by exact Hg.
  rewrite (replace_char_absent quot) by exact Hq.
  rewrite (replace_char_absent apos) by exact Hp.
  reflexivity.
Qed.

End TFA_Log_Facts.

(* ===================================================================== *)
(** ** dashboards/TFA.py: pprinter                                        *)
(* ===================================================================== *)

Module TFA_Printer_Facts.
Import Py TFA TFA_UI TFA_Log_Facts.

Lemma PyVal_nested_ind (P : PyVal -> Prop) :
  (forall s, P (PStr s)) -> (forall z, P (PInt z)) ->
  (forall q, P (PFloat q)) -> (forall b, P (PBool b)) ->
  (forall l, Forall P l -> P (PList l)) ->
  (forall d, Forall (fun kv => P (snd kv)) d -> P (PDict d)) ->
  forall v, P v.
Proof.
  intros HS HI HF HB HL HD. fix IH 1. intros [s|z|q|b|l|d].
  - apply HS.
  - apply HI.
  - apply HF.
  - apply HB.
  - apply HL. induction l as [|v l IHl]; constructor; [apply IH | exact IHl].
  - apply HD. induction d as [|[k v] d IHd]; constructor; [apply IH | exact IHd].
Qed.

Lemma reindent_app (k : nat) (a b : string) :
  reindent k (a +:+ b) = reindent k a +:+ reindent k b.
Proof.
  induction a as [|x a IH]; rewrite ?append_nil, ?append_cons; cbn [reindent];
    [reflexivity|].
  rewrite IH. destruct (Ascii.eqb x (Ascii.ascii_of_nat 10)).
  - rewrite append_cons, append_assoc. reflexivity.
  - rewrite append_cons. reflexivity.
Qed.

Lemma reindent_one_line (k : nat) (s : string) :
  one_line s = true -> reindent k s = s.
Proof.
  unfold one_line. rewrite negb_true_iff.
  induction s as [|x s IH]; cbn [occurs reindent]; [reflexivity|].
  intros H. apply orb_false_iff in H as [Hx Hs].
  rewrite Hx, (IH Hs). reflexivity.
Qed.

Lemma one_line_spaces (n : nat) : one_line (spaces n) = true.
Proof.
  unfold one_line. rewrite negb_true_iff.
  induction n as [|n IH]; cbn [spaces occurs]; [reflexivity|].
  rewrite IH. reflexivity.
Qed.

Lemma spaces_add (k n : nat) : spaces (k + n) = spaces k +:+ spaces n.
Proof.
  induction k as [|k IH]; cbn [spaces Nat.add]; [reflexivity|].
  rewrite append_cons, IH. reflexivity.
Qed.

Lemma reindent_newline (k n : nat) : reindent k (_newline n) = _newline (n + k).
Proof.
  unfold _newline, nl. rewrite !append_cons, !append_nil. cbn [reindent].
  rewrite Ascii.eqb_refl, (reindent_one_line k (spaces n)) by apply one_line_spaces.
  rewrite (Nat.add_comm n k), spaces_add. reflexivity.
Qed.

Section Printed.
Context `{C : Collaborators}.

(** X4. Printing a structure [k] columns deeper changes nothing but the
    indentation: when no key and no printed scalar holds a line break, the
    text at indentation [indent + k] is the text at indentation [indent]
    with [k] more spaces after each line break. *)
Theorem _pprinter_indent (obj : PyVal) (k : nat) :
  flat obj = true ->
  forall indent, _pprinter obj (indent + k) = reindent k (_pprinter obj indent).
Proof.
  induction obj as [s|z|q|b|l IHl|d IHd] using PyVal_nested_ind; intros Hflat indent.
  1-4: cbn [_pprinter flat] in *; symmetry; apply reindent_one_line; exact Hflat.
  - cbn [_pprinter]. rewrite !reindent_app, reindent_newline.
    rewrite (reindent_one_line k "[") by reflexivity.
    rewrite (reindent_one_line k "]") by reflexivity.
    f_equal. f_equal.
    cbn [flat] in Hflat. revert Hflat.
    induction IHl as [|v l Hv _ IH]; intros Hflat; [reflexivity|].
    apply andb_true_iff in Hflat as [Hfv Hfl].
    rewrite !reindent_app, reindent_newline.
    rewrite (reindent_one_line k ",") by reflexivity.
    rewrite <- (Hv Hfv), <- (IH Hfl).
    replace (indent + k + 4)%nat with (indent + 4 + k)%nat by lia.
    reflexivity.
  - cbn [_pprinter]. rewrite !reindent_app, reindent_newline.
    rewrite (reindent_one_line k "dict(") by reflexivity.
    rewrite (reindent_one_line k ")") by reflexivity.
    f_equal. f_equal.
    cbn [flat] in Hflat. revert Hflat.
    induction IHd as [|[item v] d Hv _ IH]; intros Hflat; [reflexivity|].
    apply andb_true_iff in Hflat as [Hfv Hfl].
    apply andb_true_iff in Hfv as [Hitem Hfv].
    rewrite !reindent_app, reindent_newline.
    rewrite (reindent_one_line k item) by exact Hitem.
    rewrite (reindent_one_line k "=") by reflexivity.
    rewrite (reindent_one_line k ",") by reflexivity.
    rewrite <- (Hv Hfv), <- (IH Hfl).
    replace (indent + k + 4)%nat with (indent + 4 + k)%nat by lia.
    reflexivity.
Qed.

End Printed.

Lemma _pprinter_indent_witness :
  flat (C := TFA_Demo.demo false false) default_config = true
  /\ _pprinter (C := TFA_Demo.demo false false) default_config (0 + 4)
     = reindent 4 (_pprinter (C := TFA_Demo.demo false false) default_config 0).
Proof.
  split; [reflexivity|].
  apply (_pprinter_indent (C := TFA_Demo.demo false false) default_config 4).
  reflexivity.
Defined.

End TFA_Printer_Facts.

(* ===================================================================== *)
(** ** dashboards/TFA.py: the configuration and the session               *)
(* ===================================================================== *)

Module TFA_Session_Facts.
Import Py TFA TFA_UI PyFacts TFA_Facts.
Local Open Scope py_scope.

Section Session.
Context `{C : Collaborators}.

Ltac norm_gui g :=
  repeat match goal with
  | |- context [make_config ?x] =>
      lazymatch x with
      | g => fail
      | _ => rewrite (make_config_frame g x) by reflexivity
      end
  | |- context [get_cli ?x] =>
      lazymatch x with
      | g => fail
      | _ => rewrite (get_cli_frame g x) by reflexivity
      end
  | |- context [get_vires_code ?x] =>
      lazymatch x with
      | g => fail
      | _ => rewrite (get_vires_code_frame g x) by reflexivity
      end
  | |- context [_using_cdf_input ?x] =>
      lazymatch x with
      | g => fail
      | _ => rewrite (_using_cdf_input_frame g x) by reflexivity
      end
  end.

Ltac step g := first [apply wp_in_world | wp_step_with ltac:(tfa_simp; norm_gui g) keep_calls].

(** *** The configuration *)

(** X5. With the remote tab as the source the configuration can always be
    built, and it is the one written out here: the request to VirES for the
    time range of the widgets, and the four steps with the values of the
    widgets. Its collection, which is also the dataset of the first
    processing step, is the product of the spacecraft chosen, and the
    product of Swarm-A for a spacecraft that is none of the three. *)
Theorem make_config_vires (g : TFA_GUI) :
  _using_cdf_input g = false ->
  exists product,
    make_config g =
    Ok (PDict
          [("data_params",
            PList [PDict [("provider", PStr "vires");
                          ("collection", PStr product);
                          ("measurements", PList [PStr "B_NEC"]);
                          ("models",
                           PList [PStr "Model='CHAOS-Core'+'CHAOS-Static'"]);
                          ("auxiliaries", PList [PStr "QDLat"; PStr "MLT"]);
                          ("start_time",
                           PStr (isoformat (fst (start_end (widgets g)))));
                          ("end_time",
                           PStr (isoformat (snd (start_end (widgets g)))));
                          ("pad_times", PList [PStr "03:00:00"; PStr "03:00:00"]);
                          ("server_url", PStr "https://vires.services/ows")]]);
           ("process_params",
            PList [
            PDict [("process_name", PStr "TFA_Preprocess");
                   ("dataset", PStr product);
                   ("active_variable", PStr "B_NEC");
                   ("active_component", PInt (preprocess_active_component (widgets g)));
                   ("sampling_rate", PFloat (preprocess_sampling_rate (widgets g)));
                   ("remove_model", PBool false)];
            PDict [("process_name", PStr "TFA_Clean");
                   ("window_size", PInt (clean_window_size (widgets g)));
                   ("method", PStr (clean_method (widgets g)));
                   ("multiplier", PFloat (clean_multiplier (widgets g)))];
            PDict [("process_name", PStr "TFA_Filter");
                   ("cutoff_frequency", PFloat (filter_cutoff (widgets g)))];
            PDict [("process_name", PStr "TFA_Wavelet");
                   ("min_frequency", PFloat (wavelet_min_frequency (widgets g)));
                   ("max_frequency", PFloat (wavelet_max_frequency (widgets g)));
                   ("dj", PFloat (wavelet_dj (widgets g)))]])])
    /\ (spacecraft (widgets g) = "Swarm-B" -> product = "SW_OPER_MAGB_LR_1B")
    /\ (spacecraft (widgets g) = "Swarm-C" -> product = "SW_OPER_MAGC_LR_1B")
    /\ (spacecraft (widgets g) <> "Swarm-B" -> spacecraft (widgets g) <> "Swarm-C" ->
        product = "SW_OPER_MAGA_LR_1B").
Proof.
  intros Hv.
  unfold make_config, _make_data_params, _make_vires_data_params, _get_data_product.
  rewrite Hv.
  destruct (String.eqb_spec (spacecraft (widgets g)) "Swarm-A") as [Ea|Na];
    [|destruct (String.eqb_spec (spacecraft (widgets g)) "Swarm-B") as [Eb|Nb];
      [|destruct (String.eqb_spec (spacecraft (widgets g)) "Swarm-C") as [Ec|Nc]]];
    cbn [rbind]; eexists; (split; [reflexivity|]);
    repeat split; intros; congruence.
Qed.

(** X6. With the file tab as the source the configuration can be built
    exactly when the dropper holds both names of a file, and it is the one
    written out here: the file that is read is the temporary one, and the
    dataset, in the input parameters and in the first processing step
    alike, is what [re.sub] leaves of the stem of the name of the user's
    file; the other steps carry the values of the widgets. With a name
    missing, building it raises [AttributeError]. *)
Theorem make_config_cdf (g : TFA_GUI) :
  _using_cdf_input g = true ->
  match temp_file (file_dropper (widgets g)),
        file_in_mem (file_dropper (widgets g)) with
  | Some tmp, Some user =>
      make_config g =
      Ok (PDict
            [("data_params",
              PList [PDict [("provider", PStr "file");
                            ("filename", PStr tmp);
                            ("filetype", PStr "cdf");
                            ("dataset", PStr (strip_date_version (stem user)))]]);
             ("process_params",
              PList [
              PDict [("process_name", PStr "TFA_Preprocess");
                     ("dataset", PStr (strip_date_version (stem user)));
                     ("active_variable", PStr "B_NEC");
                     ("active_component", PInt (preprocess_active_component (widgets g)));
                     ("sampling_rate", PFloat (preprocess_sampling_rate (widgets g)));
                     ("remove_model", PBool false)];
              PDict [("process_name", PStr "TFA_Clean");
                     ("window_size", PInt (clean_window_size (widgets g)));
                     ("method", PStr (clean_method (widgets g)));
                     ("multiplier", PFloat (clean_multiplier (widgets g)))];
              PDict [("process_name", PStr "TFA_Filter");
                     ("cutoff_frequency", PFloat (filter_cutoff (widgets g)))];
              PDict [("process_name", PStr "TFA_Wavelet");
                     ("min_frequency", PFloat (wavelet_min_frequency (widgets g)));
                     ("max_frequency", PFloat (wavelet_max_frequency (widgets g)));
                     ("dj", PFloat (wavelet_dj (widgets g)))]])])
  | _, _ =>
      make_config g
      = Raise (mkExn "AttributeError" "'NoneType' object has no attribute 'name'")
  end.
Proof.
  intros Hc.
  unfold make_config, _make_data_params, _make_cdf_data_params, _get_data_product.
  rewrite Hc.
  destruct (temp_file (file_dropper (widgets g))) as [tmp|],
           (file_in_mem (file_dropper (widgets g))) as [user|]; reflexivity.
Qed.

(** *** The indicator of the log button *)

Lemma update_analysis_idle (title : string) (s : St) :
  idle (snd s) -> wp (update_analysis title) (fun s' _ => idle (snd s')) s.
Proof.
  destruct s as [w g]. intros Hidle. unfold update_analysis.
  repeat step g.
  all: unfold idle in *; tfa_cbn; auto.
Qed.

Lemma update_input_data_idle (s : St) :
  idle (snd s) -> wp update_input_data (fun s' _ => idle (snd s')) s.
Proof.
  destruct s as [w g]. intros Hidle. unfold update_input_data.
  repeat step g.
  all: try (apply update_analysis_idle).
  all: unfold idle in *; tfa_cbn; auto.
Qed.

Ltac call_with lem tac :=
  eapply wp_mono; [apply lem; tac | cbv beta; intros [? ?] [[]|?] ?].

Ltac idle_leaf := unfold idle in *; tfa_cbn; auto.

Lemma init_idle (ws : Widgets) (w : World) :
  wp init_from_cache_or_load (fun s' _ => idle (snd s')) (w, new_gui ws).
Proof.
  unfold init_from_cache_or_load, _load_initial_data.
  repeat step (new_gui ws).
  all: try (call_with update_input_data_idle idle_leaf;
            repeat match goal with
                   | g : TFA_GUI |- wp _ _ (_, ?g') => step g'
                   end).
  all: idle_leaf.
  all: repeat split; reflexivity.
Qed.

(** X7. The indicator of the log button is back at rest after every
    handler, however the handler ends: a session starts with the indicator
    at rest, and a click or a change of a value that finds it at rest leaves
    it at rest, whether the callback returns or raises. *)
Theorem loading_indicator_at_rest (ev : UIEvent) (ws : Widgets) (w : World) (s : St) :
  idle (snd (fst (__init__ ws w)))
  /\ (idle (snd s) -> idle (snd (fst (dispatch ev s)))).
Proof.
  split.
  - apply (wp_run init_from_cache_or_load (fun s' _ => idle (snd s'))), init_idle.
  - intros Hidle.
    apply (wp_run (dispatch ev) (fun s' _ => idle (snd s'))).
    destruct ev as [widget|widget]; unfold dispatch.
    + destruct (String.eqb widget "button-fetch-data");
        [apply update_input_data_idle; exact Hidle|].
      destruct (String.eqb widget "button-run-analysis");
        [apply update_analysis_idle; exact Hidle | exact Hidle].
    + destruct (existsb (String.eqb widget) watched);
        [apply update_analysis_idle; exact Hidle | exact Hidle].
Qed.

(** *** The handles of a session *)

Ltac ok_leaf :=
  unfold session_ok, cache_ok, valid_handle, distinct_handles, cache_entry_of in *;
  tfa_cbn; cbn [c_raw_data c_data] in *;
  repeat match goal with
         | H : _ !! _ = Some _ |- _ => apply lookup_lt_Some in H
         | H : _ /\ _ |- _ => destruct H
         end;
  repeat match goal with
         | H : ?x = _ |- context [match ?x with _ => _ end] => rewrite H
         | H : ?x = _, H' : context [match ?x with _ => _ end] |- _ => rewrite H in H'
         | |- context [match ?x with _ => _ end] => destruct x eqn:?
         | H : context [match ?x with _ => _ end] |- _ => destruct x eqn:?
         end;
  repeat match goal with
         | H : _ /\ _ |- _ => destruct H
         | H : Some _ = Some _ |- _ => injection H as ?; subst
         end;
  rewrite ?length_app, ?length_insert in *; cbn [length] in *;
  repeat split; try congruence; try lia.

Lemma update_analysis_session_ok (title : string) (s : St) :
  session_ok s -> wp (update_analysis title) (fun s' _ => session_ok s') s.
Proof.
  destruct s as [[c h t] g]. intros Hok. unfold update_analysis.
  repeat step g.
  all: ok_leaf.
Qed.

Lemma update_input_data_session_ok (s : St) :
  session_ok s -> wp update_input_data (fun s' _ => session_ok s') s.
Proof.
  destruct s as [[c h t] g]. intros Hok. unfold update_input_data.
  repeat step g.
  all: try (apply update_analysis_session_ok).
  all: ok_leaf.
Qed.

Lemma init_session_ok (ws : Widgets) (w : World) :
  cache_ok w ->
  wp init_from_cache_or_load (fun s' _ => session_ok s') (w, new_gui ws).
Proof.
  destruct w as [c h t]. intros Hok.
  unfold init_from_cache_or_load, _load_initial_data, new_gui.
  repeat match goal with |- wp _ _ (_, ?g') => step g' end.
  all: try (call_with update_input_data_session_ok ok_leaf;
            repeat match goal with
                   | g : TFA_GUI |- wp _ _ (_, ?g') => step g'
                   end).
  all: ok_leaf.
Qed.

Lemma _populate_tfa_cache_ok (w : World) :
  cache_ok w -> wp _populate_tfa_cache (fun w' _ => cache_ok w') w.
Proof.
  destruct w as [c h t]. intros Hok. unfold _populate_tfa_cache.
  repeat wp_step_with tfa_simp keep_calls.
  all: ok_leaf.
Qed.

(** X8. The handles of a session always name objects of the store, and the
    raw and the processed handle never name the same object. This holds
    after the precache and the start of a session in a process whose cache
    entry is in order (an empty process to begin with), and every click or
    change of a value keeps it, whether the callback returns or raises. *)
Theorem handles_stay_valid (ev : UIEvent) (ws : Widgets) (w : World) (s : St) :
  (cache_ok w -> cache_ok (fst (_populate_tfa_cache w)))
  /\ (cache_ok w -> session_ok (fst (__init__ ws w)))
  /\ (session_ok s -> session_ok (fst (dispatch ev s)))
  /\ session_ok (fst (module_load (mkWorld None [] []))).
Proof.
  assert (Hpop : forall w0, cache_ok w0 -> cache_ok (fst (_populate_tfa_cache w0))).
  { intros w0 H0.
    apply (wp_run _populate_tfa_cache (fun w' _ => cache_ok w')),
      _populate_tfa_cache_ok, H0. }
  assert (Hinit : forall w0, cache_ok w0 -> session_ok (fst (__init__ ws w0))).
  { intros w0 H0.
    apply (wp_run init_from_cache_or_load (fun s' _ => session_ok s')),
      init_session_ok, H0. }
  split; [apply Hpop|]. split; [apply Hinit|]. split.
  - intros Hok.
    apply (wp_run (dispatch ev) (fun s' _ => session_ok s')).
    destruct ev as [widget|widget]; unfold dispatch.
    + destruct (String.eqb widget "button-fetch-data");
        [apply update_input_data_session_ok; exact Hok|].
      destruct (String.eqb widget "button-run-analysis");
        [apply update_analysis_session_ok; exact Hok | exact Hok].
    + destruct (existsb (String.eqb widget) watched);
        [apply update_analysis_session_ok; exact Hok | exact Hok].
  - unfold module_load.
    apply (wp_run init_from_cache_or_load (fun s' _ => session_ok s')),
      init_session_ok, Hpop.
    exact I.
Qed.

(** *** What a callback leaves alone *)

Ltac log_leaf :=
  tfa_cbn; rewrite <- ?app_assoc;
  first [ exists []; symmetry; apply app_nil_r | eexists; reflexivity ].

Lemma update_analysis_log (title : string) (s : St) :
  wp (update_analysis title)
    (fun s' _ => exists new, log_messages (snd s') = log_messages (snd s) ++ new) s.
Proof.
  destruct s as [w g]. unfold update_analysis.
  repeat step g.
  all: log_leaf.
Qed.

Lemma update_input_data_log (s : St) :
  wp update_input_data
    (fun s' _ => exists new, log_messages (snd s') = log_messages (snd s) ++ new) s.
Proof.
  destruct s as [w g]. unfold update_input_data.
  repeat step g.
  all: try (eapply wp_mono; [apply update_analysis_log|]; cbv beta;
            intros [w' g'] res [new Hnew]; rewrite Hnew).
  all: log_leaf.
Qed.

(** What a callback does to the process and to the session, whatever the
    event. *)
Lemma dispatch_frame (ev : UIEvent) (s : St) :
  wp (dispatch ev)
    (fun s' _ =>
       cache (fst s') = cache (fst s)
       /\ heap_preserved (fst s) (fst s')
       /\ (exists evs,
             trace (fst s') = trace (fst s) ++ evs
             /\ (count_fetches evs <= 1)%nat
             /\ (ev <> Click "button-fetch-data" -> no_fetch evs = true))
       /\ widgets (snd s') = widgets (snd s)
       /\ data_tabs (snd s') = data_tabs (snd s)
       /\ (ev <> Click "button-fetch-data" -> raw_data (snd s') = raw_data (snd s))) s.
Proof.
  assert (Hstay :
    forall ev', wp (ret (S := St) tt)
      (fun s' _ =>
         cache (fst s') = cache (fst s)
         /\ heap_preserved (fst s) (fst s')
         /\ (exists evs,
               trace (fst s') = trace (fst s) ++ evs
               /\ (count_fetches evs <= 1)%nat
               /\ (ev' <> Click "button-fetch-data" -> no_fetch evs = true))
         /\ widgets (snd s') = widgets (snd s)
         /\ data_tabs (snd s') = data_tabs (snd s)
         /\ (ev' <> Click "button-fetch-data" -> raw_data (snd s') = raw_data (snd s))) s).
  { intros ev'. apply wp_ret. split; [reflexivity|].
    split; [intros r d H; exact H|].
    split.
    { exists []. rewrite app_nil_r. split; [reflexivity|].
      split; [unfold count_fetches; simpl; lia | reflexivity]. }
    repeat split. }
  assert (Hana :
    forall ev', wp (update_analysis default_title)
      (fun s' _ =>
         cache (fst s') = cache (fst s)
         /\ heap_preserved (fst s) (fst s')
         /\ (exists evs,
               trace (fst s') = trace (fst s) ++ evs
               /\ (count_fetches evs <= 1)%nat
               /\ (ev' <> Click "button-fetch-data" -> no_fetch evs = true))
         /\ widgets (snd s') = widgets (snd s)
         /\ data_tabs (snd s') = data_tabs (snd s)
         /\ (ev' <> Click "button-fetch-data" -> raw_data (snd s') = raw_data (snd s))) s).
  { intros ev'. eapply wp_mono; [apply update_analysis_frame|]. cbv beta.
    intros s' res (Hc & Hh & [evs [Ht Hn]] & Hr & Hw & Hdt & _).
    split; [exact Hc|]. split; [exact Hh|].
    split; [exists evs; rewrite (count_fetches_no_fetch evs Hn);
            split; [exact Ht | split; [lia | intros _; exact Hn]]|].
    split; [exact Hw|]. split; [exact Hdt | intros _; exact Hr]. }
  destruct ev as [widget|widget]; unfold dispatch.
  - destruct (String.eqb_spec widget "button-fetch-data") as [->|Hne].
    + eapply wp_mono; [apply update_input_data_frame|]. cbv beta.
      intros s' res (Hc & Hh & [evs [Ht Hn]] & Hw & Hdt & _).
      split; [exact Hc|]. split; [exact Hh|].
      split.
      * exists evs. split; [exact Ht|]. split; [|congruence].
        rewrite Hn. unfold fetches_of_update_input_data.
        destruct (_ && _); [lia|]. destruct (is_ok _); lia.
      * split; [exact Hw|]. split; [exact Hdt|]. congruence.
    + destruct (String.eqb widget "button-run-analysis"); [apply Hana | apply Hstay].
  - destruct (existsb (String.eqb widget) watched); [apply Hana | apply Hstay].
Qed.

(** X9. Only the button [button-fetch-data] makes a fetch, and at most one
    for a click: every other click and every change of a value leaves the
    raw handle alone and adds no fetch to the calls made. A change of the
    value of a widget that is not one of the nine process widgets (the
    spacecraft, the time range and the file dropper are not), and a click on
    a widget that is neither of the two buttons, run no callback at all. *)
Theorem only_the_fetch_button_fetches (ev : UIEvent) (s : St) :
  (exists evs,
     trace (fst (fst (dispatch ev s))) = trace (fst s) ++ evs
     /\ (count_fetches evs <= 1)%nat
     /\ (ev <> Click "button-fetch-data" -> no_fetch evs = true))
  /\ (ev <> Click "button-fetch-data" ->
      raw_data (snd (fst (dispatch ev s))) = raw_data (snd s))
  /\ (forall widget,
        ev = ValueChanged widget -> ~ In widget watched -> dispatch ev s = (s, Ok tt))
  /\ (forall widget,
        ev = Click widget -> widget <> "button-fetch-data" ->
        widget <> "button-run-analysis" -> dispatch ev s = (s, Ok tt))
  /\ ~ In "spacecraft" watched /\ ~ In "start-end" watched
  /\ ~ In "file-dropper" watched.
Proof.
  pose proof (wp_run _ _ _ (dispatch_frame ev s)) as F. cbv beta in F.
  destruct F as (_ & _ & Htrace & _ & _ & Hraw).
  split; [exact Htrace|]. split; [exact Hraw|]. split; [|split].
  - intros widget -> Hnot. unfold dispatch.
    replace (existsb (String.eqb widget) watched) with false; [reflexivity|].
    symmetry. apply not_true_is_false. intros Hex.
    apply existsb_exists in Hex as [x [Hin Heq]].
    apply String.eqb_eq in Heq. subst. exact (Hnot Hin).
  - intros widget -> H1 H2. unfold dispatch.
    destruct (String.eqb_spec widget "button-fetch-data"); [congruence|].
    destruct (String.eqb_spec widget "button-run-analysis"); [congruence|].
    reflexivity.
  - repeat split; unfold watched; cbn [In]; intuition congruence.
Qed.

(** X10. No callback takes anything back: after any click or change of a
    value the log is the log before with entries added, the calls made are
    the calls made before with calls added, every dataset object that
    existed is still there unchanged, and the cache entry, the values of the
    widgets and the tabs are as they were. *)
Theorem callbacks_only_append (ev : UIEvent) (s : St) :
  (exists new,
     log_messages (snd (fst (dispatch ev s))) = log_messages (snd s) ++ new)
  /\ (exists evs, trace (fst (fst (dispatch ev s))) = trace (fst s) ++ evs)
  /\ heap_preserved (fst s) (fst (fst (dispatch ev s)))
  /\ cache (fst (fst (dispatch ev s))) = cache (fst s)
  /\ widgets (snd (fst (dispatch ev s))) = widgets (snd s)
  /\ data_tabs (snd (fst (dispatch ev s))) = data_tabs (snd s).
Proof.
  pose proof (wp_run _ _ _ (dispatch_frame ev s)) as F. cbv beta in F.
  destruct F as (Hc & Hh & [evs [Ht _]] & Hw & Hdt & _).
  split; [|repeat split; eauto].
  apply (wp_run (dispatch ev)
           (fun s' _ => exists new, log_messages (snd s') = log_messages (snd s) ++ new)).
  assert (Hstay : exists new, log_messages (snd s) = log_messages (snd s) ++ new).
  { exists []. symmetry. apply app_nil_r. }
  destruct ev as [widget|widget]; unfold dispatch.
  - destruct (String.eqb widget "button-fetch-data"); [apply update_input_data_log|].
    destruct (String.eqb widget "button-run-analysis");
      [apply update_analysis_log | exact Hstay].
  - destruct (existsb (String.eqb widget) watched);
      [apply update_analysis_log | exact Hstay].
Qed.

(** *** Loading the module *)

(** X11. Loading the module ([_populate_tfa_cache()], then
    [TFA_GUI(widgets)]) never raises, whatever the fetches do. It makes no
    call at all when the cache slot is filled, one fetch when the precache
    fills it, and two fetches, the one of the precache and the one of the
    session, when the precache fails. *)
Theorem module_load_total (w : World) :
  snd (module_load w) = Ok tt
  /\ exists evs,
       trace (fst (fst (module_load w))) = trace w ++ evs
       /\ match cache w, cache (fst (_populate_tfa_cache w)) with
          | Some _, _ => evs = []
          | None, Some _ => count_fetches evs = 1%nat
          | None, None => count_fetches evs = 2%nat
          end.
Proof.
  unfold module_load. destruct (cache w) as [c|] eqn:Hc.
  - rewrite (_populate_tfa_cache_present w c Hc). cbn [fst].
    destruct (init_with_cache widgets0 w c Hc) as (Hres & Hw & _).
    split; [exact Hres|]. exists []. rewrite Hw, app_nil_r. split; reflexivity.
  - pose proof (wp_run _ _ _ (_populate_tfa_cache_absent w Hc)) as P. cbv beta in P.
    destruct P as (_ & _ & (evs1 & Ht1 & Hn1) & _).
    destruct (cache (fst (_populate_tfa_cache w))) as [c1|] eqn:Hc1.
    + destruct (init_with_cache widgets0 _ c1 Hc1) as (Hres & Hw & _).
      split; [exact Hres|]. rewrite Hw, Ht1. eexists. split; [reflexivity|].
      unfold count_fetches in *. simpl. rewrite Hn1. reflexivity.
    + destruct (init_loads_once widgets0 _ Hc1) as (Hres & (config & evs2 & _ & Ht2 & Hn2) & _).
      split; [exact Hres|]. rewrite Ht2, Ht1, <- app_assoc. eexists. split; [reflexivity|].
      change (EvPrint "Starting TFA precache..." :: EvFetch default_config :: evs1)
        with ([EvPrint "Starting TFA precache..."; EvFetch default_config] ++ evs1).
      rewrite <- app_assoc, !count_fetches_app, Hn1.
      change (EvFetch config :: evs2) with ([EvFetch config] ++ evs2).
      rewrite count_fetches_app, Hn2. reflexivity.
Qed.

(** *** The calls of a fetch *)

Lemma update_analysis_trace (title : string) (w : World) (g : TFA_GUI)
    (r0 : ref) (d0 : Dataset) (config process_params : PyVal) :
  raw_data g = Some r0 ->
  heap w !! r0 = Some d0 ->
  make_config g = Ok config ->
  getitem config "process_params" = Ok process_params ->
  wp (update_analysis title)
    (fun s' res =>
       res = Ok tt ->
       exists tail,
         trace (fst s') = trace w ++ EvApply (length (heap w)) process_params :: tail
         /\ (tail = []
             \/ (_using_cdf_input g = false
                 /\ tail = [EvQuicklook (length (heap w))
                              (PStr (isoformat (fst (start_end (widgets g)))),
                               PStr (isoformat (snd (start_end (widgets g)))))]))
         /\ length (heap (fst s')) = S (length (heap w)))
    (w, g).
Proof.
  intros Hraw Hd0 Hcfg Hpp. unfold update_analysis.
  repeat step g.
  all: intros Hres; try discriminate.
  all: tfa_simp; rewrite <- ?app_assoc; cbn [app].
  all: eexists; split; [reflexivity|]; split;
    [first [left; reflexivity
           | right; split; [first [assumption | reflexivity] | reflexivity]]
    | rewrite ?length_app; simpl; lia].
Qed.

(** The calls of a run of [update_input_data] that got past its guard and
    returned normally. *)
Lemma update_input_data_calls (w : World) (g : TFA_GUI) (config : PyVal) :
  _using_cdf_input g && negb (fd_value (file_dropper (widgets g))) = false ->
  make_config g = Ok config ->
  snd (update_input_data (w, g)) = Ok tt ->
  exists process_params tail,
    getitem config "process_params" = Ok process_params
    /\ trace (fst (fst (update_input_data (w, g)))) =
       trace w ++ EvFetch config
                :: EvApply (S (length (heap w))) process_params
                :: EvApply (S (S (length (heap w)))) process_params :: tail
    /\ (tail = []
        \/ (_using_cdf_input g = false
            /\ tail = [EvQuicklook (S (S (length (heap w))))
                         (PStr (isoformat (fst (start_end (widgets g)))),
                          PStr (isoformat (snd (start_end (widgets g)))))]))
    /\ data (snd (fst (update_input_data (w, g)))) = Some (S (S (length (heap w))))
    /\ length (heap (fst (fst (update_input_data (w, g))))) = (length (heap w) + 3)%nat.
Proof.
  intros Hguard Hcfg.
  apply (wp_run update_input_data
           (fun s' res =>
              res = Ok tt ->
              exists process_params tail,
                getitem config "process_params" = Ok process_params
                /\ trace (fst s') =
                   trace w ++ EvFetch config
                            :: EvApply (S (length (heap w))) process_params
                            :: EvApply (S (S (length (heap w)))) process_params :: tail
                /\ (tail = []
                    \/ (_using_cdf_input g = false
                        /\ tail = [EvQuicklook (S (S (length (heap w))))
                                     (PStr (isoformat (fst (start_end (widgets g)))),
                                      PStr (isoformat (snd (start_end (widgets g)))))]))
                /\ data (snd s') = Some (S (S (length (heap w))))
                /\ length (heap (fst s')) = (length (heap w) + 3)%nat)).
  unfold update_input_data.
  repeat step g.
  all: try (intros; discriminate).
  eapply wp_mono.
  - apply wp_conj; [idtac | apply wp_conj]; [apply update_analysis_frame | idtac | idtac].
    + eapply update_analysis_trace with (d0 := a); tfa_cbn.
      * reflexivity.
      * apply lookup_old_app, lookup_fresh.
      * rewrite (make_config_frame g) by reflexivity. exact Hcfg.
      * eassumption.
    + eapply update_analysis_result with (d0 := a); tfa_cbn.
      * reflexivity.
      * apply lookup_old_app, lookup_fresh.
      * rewrite (make_config_frame g) by reflexivity. exact Hcfg.
      * eassumption.
  - cbv beta. intros [w' g'] res (_ & Htr & Hdata & _) Hres.
    destruct (Htr Hres) as (tail & Ht & Htail & Hlen).
    tfa_cbn. rewrite !length_app in *. cbn [length] in *.
    exists a0, tail. split; [reflexivity|]. split.
    + rewrite Ht, <- !app_assoc. cbn [app].
      replace (length (heap w) + 1 + 1)%nat with (S (S (length (heap w)))) by lia.
      replace (length (heap w) + 1)%nat with (S (length (heap w))) by lia.
      reflexivity.
    + split.
      * replace (length (heap w) + 1 + 1)%nat with (S (S (length (heap w)))) in Htail by lia.
        rewrite !(_using_cdf_input_frame g) in Htail by reflexivity.
        exact Htail.
      * split; [rewrite Hdata; f_equal; lia | lia].
Qed.

(** X12. A run of [update_input_data] that returns normally either
    returned at once, the file tab being active with no file dropped, and
    then nothing was called and nothing changed; or it has made, in this
    order: the fetch, with the configuration built from the widgets; a run
    of the processing chain on a first copy of the dataset fetched; a second
    run of the same chain on a second copy, which is the one the session
    keeps; and then, with the remote tab as the source, at most one plot of
    that second copy. Three objects were then added to the store. *)
Theorem fetch_runs_the_chain_twice (w : World) (g : TFA_GUI) :
  snd (update_input_data (w, g)) = Ok tt ->
  (_using_cdf_input g = true
   /\ fd_value (file_dropper (widgets g)) = false
   /\ update_input_data (w, g) = ((w, g), Ok tt))
  \/ ((_using_cdf_input g = false \/ fd_value (file_dropper (widgets g)) = true)
      /\ exists config process_params tail,
           make_config g = Ok config
           /\ getitem config "process_params" = Ok process_params
           /\ trace (fst (fst (update_input_data (w, g)))) =
              trace w ++ EvFetch config
                       :: EvApply (S (length (heap w))) process_params
                       :: EvApply (S (S (length (heap w)))) process_params :: tail
           /\ (tail = []
               \/ (_using_cdf_input g = false
                   /\ tail = [EvQuicklook (S (S (length (heap w))))
                                (PStr (isoformat (fst (start_end (widgets g)))),
                                 PStr (isoformat (snd (start_end (widgets g)))))]))
           /\ data (snd (fst (update_input_data (w, g))))
              = Some (S (S (length (heap w))))
           /\ length (heap (fst (fst (update_input_data (w, g)))))
              = (length (heap w) + 3)%nat).
Proof.
  intros Hok.
  destruct (_using_cdf_input g && negb (fd_value (file_dropper (widgets g))))
    eqn:Hguard.
  - left. apply andb_true_iff in Hguard as [Hcdf Hv].
    apply negb_true_iff in Hv.
    split; [exact Hcdf|]. split; [exact Hv|].
    apply (update_input_data_returns_at_once (w, g)). cbn [fst snd].
    rewrite Hcdf, Hv. reflexivity.
  - right. split.
    { apply andb_false_iff in Hguard as [H|H]; [left; exact H|].
      right. apply negb_false_iff in H. exact H. }
    destruct (make_config g) as [config|e] eqn:Hcfg.
    + destruct (update_input_data_calls w g config Hguard Hcfg Hok)
        as (process_params & tail & H).
      exists config, process_params, tail. split; [reflexivity | exact H].
    + pose proof (wp_run _ _ _ (update_input_data_config_raises w g e Hguard Hcfg))
        as R.
      cbv beta in R. destruct R as (R & _). congruence.
Qed.

(** X13. With the file tab as the source, [update_analysis] makes no plot:
    no call of [quicklook] is added to the calls made, and the plot pane
    keeps the figure it showed before, whatever the outcome of the run. *)
Theorem update_analysis_plots_remote_only (title : string) (s : St) :
  _using_cdf_input (snd s) = true ->
  (exists evs,
     trace (fst (fst (update_analysis title s))) = trace (fst s) ++ evs
     /\ forallb (fun e => negb (is_quicklook e)) evs = true)
  /\ swarmpal_quicklook (snd (fst (update_analysis title s)))
     = swarmpal_quicklook (snd s).
Proof.
  destruct s as [w g]. cbn [fst snd]. intros Hcdf.
  apply (wp_run (update_analysis title)
           (fun s' _ =>
              (exists evs,
                 trace (fst s') = trace w ++ evs
                 /\ forallb (fun e => negb (is_quicklook e)) evs = true)
              /\ swarmpal_quicklook (snd s') = swarmpal_quicklook g)).
  unfold update_analysis.
  repeat step g.
  all: tfa_simp; rewrite <- ?app_assoc.
  all: split; [|reflexivity].
  all: first [ exists []; split; [symmetry; apply app_nil_r | reflexivity]
             | eexists; split; reflexivity ].
Qed.

End Session.

(** *** Concrete runs *)

Import TFA_Demo TFA_UI_Demo.

Lemma make_config_vires_witness :
  _using_cdf_input (snd new_session) = false
  /\ make_config (snd new_session) = Ok default_config.
Proof.
  split; [reflexivity|].
  destruct (make_config_vires (snd new_session) eq_refl) as (product & H & _ & _ & Ha).
  assert (Hb : spacecraft (widgets (snd new_session)) <> "Swarm-B")
    by (vm_compute; discriminate).
  assert (Hc : spacecraft (widgets (snd new_session)) <> "Swarm-C")
    by (vm_compute; discriminate).
  rewrite (Ha Hb Hc) in H. exact H.
Defined.

Lemma make_config_cdf_witness :
  _using_cdf_input (snd file_session) = true
  /\ exists config, make_config (snd file_session) = Ok config.
Proof.
  split; [reflexivity|].
  pose proof (make_config_cdf (snd file_session) eq_refl) as H.
  cbn in H. eexists. exact H.
Defined.

Lemma fetch_runs_the_chain_twice_witness :
  snd (update_input_data new_session) = Ok tt
  /\ exists process_params tail,
       trace (fst (fst (update_input_data new_session))) =
       [] ++ EvFetch default_config
          :: EvApply 1%nat process_params :: EvApply 2%nat process_params :: tail.
Proof.
  assert (Hok : snd (update_input_data new_session) = Ok tt)
    by (vm_compute; reflexivity).
  split; [exact Hok|].
  destruct (fetch_runs_the_chain_twice (world0 (demo false false)) (new_gui widgets0)
              Hok)
    as [(Hcdf & _)|(_ & config & process_params & tail & Hcfg & _ & Ht & _)].
  { vm_compute in Hcdf. discriminate. }
  change (Ok default_config = Ok config) in Hcfg. injection Hcfg as <-.
  exists process_params, tail. exact Ht.
Defined.

Lemma update_analysis_plots_remote_only_witness :
  _using_cdf_input (snd file_session) = true
  /\ swarmpal_quicklook (snd (fst (update_analysis default_title file_session)))
     = Some "old plot".
Proof.
  split; [reflexivity|].
  apply (update_analysis_plots_remote_only default_title file_session).
  reflexivity.
Defined.

End TFA_Session_Facts.

(* ===================================================================== *)
(** ** dashboards/DSECS.py: the handlers and what they keep               *)
(* ===================================================================== *)

Module DSECS_Handlers_Facts.
Import Py DSECS DSECS_Handlers PyFacts DSECS_Facts.
Local Open Scope py_scope.

Ltac more_cbn := dsecs_cbn; cbn [keys map fst snd rbind] in *.
Ltac run_step := wp_step_with more_cbn keep_calls.

Section Handlers.
Context `{T : Toolbox}.

(** *** The datasets of the two spacecraft *)

Lemma find_datasets_fold (names : list string) (found : option string * option string) :
  fold_left
    (fun found name =>
       if is_alpha name then (Some name, snd found)
       else if is_charlie name then (fst found, Some name)
       else found)
    names found
  = (match last (List.filter is_alpha names) with
     | Some a => Some a
     | None => fst found
     end,
     match last (List.filter (fun n => is_charlie n && negb (is_alpha n)) names) with
     | Some c => Some c
     | None => snd found
     end).
Proof.
  revert found. induction names as [|n names IH]; intros [a c]; [reflexivity|].
  cbn [fold_left List.filter]. rewrite IH.
  destruct (is_alpha n) eqn:Ha; cbn [negb andb fst snd];
    rewrite ?andb_false_r, ?andb_true_r;
    [|destruct (is_charlie n) eqn:Hc; cbn [fst snd]];
    rewrite ?last_cons;
    repeat match goal with
           | |- context [last ?l] => destruct (last l)
           end;
    reflexivity.
Qed.

Lemma last_filter_In {A} (f : A -> bool) (l : list A) (x : A) :
  last (List.filter f l) = Some x -> In x l /\ f x = true.
Proof.
  intros H. apply last_Some in H as [l' H].
  assert (Hin : In x (List.filter f l)).
  { rewrite H. apply in_or_app. right. left. reflexivity. }
  apply List.filter_In in Hin. exact Hin.
Qed.

Lemma contains_empty_hay (needle : string) :
  needle <> EmptyString -> contains needle EmptyString = false.
Proof. destruct needle; [congruence | reflexivity]. Qed.

Lemma find_datasets_found (names : list string) :
  (forall a, fst (find_datasets names) = Some a ->
     In a names /\ is_alpha a = true /\ a <> EmptyString)
  /\ (forall c, snd (find_datasets names) = Some c ->
        In c names /\ is_charlie c = true /\ is_alpha c = false /\ c <> EmptyString).
Proof.
  unfold find_datasets. rewrite find_datasets_fold. cbn [fst snd].
  assert (H1 : forall o : option string,
             match o with Some a => Some a | None => None end = o)
    by (intros [?|]; reflexivity).
  rewrite !H1. split.
  - intros a Ha. apply last_filter_In in Ha as [Hin Hf].
    split; [exact Hin|]. split; [exact Hf|]. intros ->. discriminate.
  - intros c Hc. apply last_filter_In in Hc as [Hin Hf].
    apply andb_true_iff in Hf as [Hc Ha]. apply negb_true_iff in Ha.
    split; [exact Hin|]. split; [exact Hc|]. split; [exact Ha|].
    intros ->. discriminate.
Qed.

Lemma truthy_found (names : list string) :
  truthy (fst (find_datasets names)) = fst (find_datasets names)
  /\ truthy (snd (find_datasets names)) = snd (find_datasets names).
Proof.
  destruct (find_datasets_found names) as [Ha Hc].
  split.
  - destruct (fst (find_datasets names)) as [a|]; [|reflexivity].
    destruct (Ha a eq_refl) as (_ & _ & Hne). unfold truthy.
    destruct (String.eqb_spec a EmptyString); [contradiction | reflexivity].
  - destruct (snd (find_datasets names)) as [c|]; [|reflexivity].
    destruct (Hc c eq_refl) as (_ & _ & _ & Hne). unfold truthy.
    destruct (String.eqb_spec c EmptyString); [contradiction | reflexivity].
Qed.

(** X14. The loop of [run_preprocessing] takes as the dataset of Swarm-A
    the last name that holds [MAGA] or [Swarm-A], and as the dataset of
    Swarm-C the last name that holds [MAGC] or [Swarm-C] and is not a name
    of Swarm-A: a name that matches both counts for Swarm-A only. A name it
    finds is one of the names given and is not empty. *)
Theorem find_datasets_spec (names : list string) :
  fst (find_datasets names) = last (List.filter is_alpha names)
  /\ snd (find_datasets names)
     = last (List.filter (fun n => is_charlie n && negb (is_alpha n)) names)
  /\ (forall a, fst (find_datasets names) = Some a ->
        In a names /\ is_alpha a = true /\ a <> EmptyString)
  /\ (forall c, snd (find_datasets names) = Some c ->
        In c names /\ is_charlie c = true /\ is_alpha c = false /\ c <> EmptyString).
Proof.
  split; [|split; [|apply find_datasets_found]].
  - unfold find_datasets. rewrite find_datasets_fold. cbn [fst].
    destruct (last (List.filter is_alpha names)); reflexivity.
  - unfold find_datasets. rewrite find_datasets_fold. cbn [snd].
    destruct (last (List.filter _ names)); reflexivity.
Qed.

(** *** What the three updates of the panes do *)

Lemma _update_data_view_run (x : DsecsDataExplorer) :
  exists view,
    fst (_update_data_view x) = set_data_view (Some view) x
    /\ snd (_update_data_view x) = Ok tt.
Proof.
  apply (wp_run _update_data_view
           (fun x' res => exists view, x' = set_data_view (Some view) x /\ res = Ok tt)).
  unfold _update_data_view. repeat run_step.
  all: eexists; split; reflexivity.
Qed.

Lemma _update_code_snippet_run (x : DsecsDataExplorer) :
  exists code,
    fst (_update_code_snippet x) = set_code_snippet (Some code) x
    /\ snd (_update_code_snippet x) = Ok tt.
Proof.
  apply (wp_run _update_code_snippet
           (fun x' res => exists code, x' = set_code_snippet (Some code) x /\ res = Ok tt)).
  unfold _update_code_snippet. repeat run_step.
  all: eexists; split; reflexivity.
Qed.

(** The explorer after new frames were set up. *)
Lemma _setup_animated_quicklook_run (figures_dict : list (Z * Figure))
    (x : DsecsDataExplorer) :
  snd (_setup_animated_quicklook figures_dict x) = Ok tt
  /\ match keys (resize_figures figures_dict) with
     | [] =>
         resize_figures figures_dict = []
         /\ fst (_setup_animated_quicklook figures_dict x) =
            set_swarmpal_animated (Some _pending_matplotlib_figure)
              (set_play_button (mkButton (btn_name (play_button x)) true)
                 (set_frame_slider
                    (mkSlider (sl_start (frame_slider x)) (sl_end (frame_slider x))
                       (sl_value (frame_slider x)) true)
                    (set_animation_figures [] x)))
     | k :: ks =>
         exists fig,
           dict_lookup (py_min k ks) (resize_figures figures_dict) = Some fig
           /\ fst (_setup_animated_quicklook figures_dict x) =
              set_swarmpal_animated (Some fig)
                (set_play_button (mkButton (btn_name (play_button x)) false)
                   (set_frame_slider
                      (mkSlider (py_min k ks) (py_max k ks) (py_min k ks) false)
                      (set_animation_figures (resize_figures figures_dict) x)))
     end.
Proof.
  apply (wp_run (_setup_animated_quicklook figures_dict)
           (fun x' res =>
              res = Ok tt
              /\ match keys (resize_figures figures_dict) with
                 | [] =>
                     resize_figures figures_dict = []
                     /\ x' =
                        set_swarmpal_animated (Some _pending_matplotlib_figure)
                          (set_play_button (mkButton (btn_name (play_button x)) true)
                             (set_frame_slider
                                (mkSlider (sl_start (frame_slider x))
                                   (sl_end (frame_slider x))
                                   (sl_value (frame_slider x)) true)
                                (set_animation_figures [] x)))
                 | k :: ks =>
                     exists fig,
                       dict_lookup (py_min k ks) (resize_figures figures_dict) = Some fig
                       /\ x' =
                          set_swarmpal_animated (Some fig)
                            (set_play_button (mkButton (btn_name (play_button x)) false)
                               (set_frame_slider
                                  (mkSlider (py_min k ks) (py_max k ks) (py_min k ks)
                                     false)
                                  (set_animation_figures (resize_figures figures_dict)
                                     x)))
                 end)).
  unfold _setup_animated_quicklook. cbv zeta.
  apply wp_bind, wp_modify. cbv beta iota.
  destruct (resize_figures figures_dict) as [|[k0 v0] rest] eqn:Hres.
  - repeat run_step. cbn [keys map]. repeat split; reflexivity.
  - cbn [keys map fst].
    destruct (py_min_spec k0 (map fst rest)) as (_ & _ & Hin).
    destruct (dict_lookup_in_keys (py_min k0 (map fst rest)) ((k0, v0) :: rest) Hin)
      as [fig Hfig].
    repeat run_step.
    all: split; [reflexivity|]; exists fig;
      split; [first [exact Hfig | reflexivity] | reflexivity].
Qed.

Lemma _update_quicklook_run (x : DsecsDataExplorer) :
  snd (_update_quicklook x) = Ok tt
  /\ fst (_update_quicklook x) =
     match data x, analyzed x with
     | Some d, true =>
         match quicklook d with
         | Ok (f :: figs) => fst (_setup_animated_quicklook (f :: figs) x)
         | Ok [] => set_status_info "⚠️ No figures generated from DSECS quicklook" x
         | Raise e => set_status_info ("⚠️ Plotting error: " +:+ exn_msg e) x
         end
     | _, _ => x
     end.
Proof.
  split; [apply _update_quicklook_returns|].
  unfold _update_quicklook, bind, self, gets, try_except, lift, set_status, modify, ret.
  cbn [fst snd].
  destruct (data x) as [d|]; [|reflexivity].
  destruct (analyzed x); [|reflexivity].
  destruct (quicklook d) as [[|f figs]|e]; try reflexivity.
  destruct (_setup_animated_quicklook_run (f :: figs) x) as [Hok _].
  destruct (_setup_animated_quicklook (f :: figs) x) as [x' r]. cbn [fst snd] in *.
  subst r. reflexivity.
Qed.

(** *** The handlers, with their exceptions resolved *)

Ltac run_call :=
  first
    [ apply wp_on_self
    | run_step
    | apply wp_of_ok;
      [ first [ apply _update_data_view_returns
              | apply _update_quicklook_returns
              | apply _update_code_snippet_returns ]
      | cbv beta iota ] ].

Lemma update_input_data_run (x : DsecsDataExplorer) :
  snd (update_input_data x) = Ok tt
  /\ fst (update_input_data x) =
     match fetched x with
     | Ok d =>
         updated_views false
           (set_analyzed false
              (set_preprocessed false
                 (set_data (Some d) (set_status_info "Fetched data from VirES" x))))
     | Raise e => set_status_info (fetch_failed e) x
     end.
Proof.
  apply (wp_run update_input_data
           (fun x' res =>
              res = Ok tt
              /\ x' =
                 match fetched x with
                 | Ok d =>
                     updated_views false
                       (set_analyzed false
                          (set_preprocessed false
                             (set_data (Some d)
                                (set_status_info "Fetched data from VirES" x))))
                 | Raise e => set_status_info (fetch_failed e) x
                 end)).
  unfold update_input_data, fetch_data, fetched, printing, updated_views, fetch_failed.
  repeat run_call.
  all: split; reflexivity.
Qed.

Lemma run_preprocessing_run (x : DsecsDataExplorer) :
  snd (run_preprocessing x) = Ok tt
  /\ fst (run_preprocessing x) =
     match data x with
     | None => set_status_info "⚠️ Please fetch data first" x
     | Some d =>
         match Preprocess with
         | Raise e => set_status_info (preprocessing_failed e) x
         | Ok p1 =>
             match dataset_names d with
             | Raise e => set_status_info (preprocessing_failed e) x
             | Ok names =>
                 match truthy (fst (find_datasets names)),
                       truthy (snd (find_datasets names)) with
                 | Some alpha, Some charlie =>
                     match set_config p1 alpha charlie with
                     | Raise e => set_status_info (preprocessing_failed e) x
                     | Ok p1' =>
                         match snd (call p1' d) with
                         | Raise e =>
                             set_status_info (preprocessing_failed e)
                               (set_data (Some (fst (call p1' d))) x)
                         | Ok returned =>
                             updated_views false
                               (set_status_info "✅ Preprocessing completed"
                                  (set_preprocessed true
                                     (set_data (Some returned) x)))
                         end
                     end
                 | _, _ =>
                     set_status_info
                       "⚠️ Could not find both Swarm-A and Swarm-C datasets" x
                 end
             end
         end
     end.
Proof.
  apply (wp_run run_preprocessing
           (fun x' res =>
              res = Ok tt
              /\ x' =
                 match data x with
                 | None => set_status_info "⚠️ Please fetch data first" x
                 | Some d =>
                     match Preprocess with
                     | Raise e => set_status_info (preprocessing_failed e) x
                     | Ok p1 =>
                         match dataset_names d with
                         | Raise e => set_status_info (preprocessing_failed e) x
                         | Ok names =>
                             match truthy (fst (find_datasets names)),
                                   truthy (snd (find_datasets names)) with
                             | Some alpha, Some charlie =>
                                 match set_config p1 alpha charlie with
                                 | Raise e => set_status_info (preprocessing_failed e) x
                                 | Ok p1' =>
                                     match snd (call p1' d) with
                                     | Raise e =>
                                         set_status_info (preprocessing_failed e)
                                           (set_data (Some (fst (call p1' d))) x)
                                     | Ok returned =>
                                         updated_views false
                                           (set_status_info "✅ Preprocessing completed"
                                              (set_preprocessed true
                                                 (set_data (Some returned) x)))
                                     end
                                 end
                             | _, _ =>
                                 set_status_info
                                   "⚠️ Could not find both Swarm-A and Swarm-C datasets"
                                   x
                             end
                         end
                     end
                 end)).
  unfold run_preprocessing, updated_views, preprocessing_failed.
  repeat run_call.
  all: split; reflexivity.
Qed.

Lemma run_analysis_run (start_time end_time : Q) (x : DsecsDataExplorer) :
  snd (run_analysis start_time end_time x) = Ok tt
  /\ fst (run_analysis start_time end_time x) =
     match data x with
     | None => set_status_info "⚠️ Please fetch data first" x
     | Some d =>
         if negb (preprocessed x)
         then set_status_info "⚠️ Please run preprocessing first" x
         else
           match Analysis with
           | Raise e => set_status_info (analysis_failed e) x
           | Ok p2 =>
               match snd (call p2 d) with
               | Raise e =>
                   set_status_info (analysis_failed e)
                     (set_data (Some (fst (call p2 d))) x)
               | Ok returned =>
                   updated_views true
                     (set_status_info
                        ("✅ **DSECS analysis completed** in "
                         +:+ format_1f (end_time - start_time)%Q +:+ " seconds")
                        (set_analyzed true (set_data (Some returned) x)))
               end
           end
     end.
Proof.
  apply (wp_run (run_analysis start_time end_time)
           (fun x' res =>
              res = Ok tt
              /\ x' =
                 match data x with
                 | None => set_status_info "⚠️ Please fetch data first" x
                 | Some d =>
                     if negb (preprocessed x)
                     then set_status_info "⚠️ Please run preprocessing first" x
                     else
                       match Analysis with
                       | Raise e => set_status_info (analysis_failed e) x
                       | Ok p2 =>
                           match snd (call p2 d) with
                           | Raise e =>
                               set_status_info (analysis_failed e)
                                 (set_data (Some (fst (call p2 d))) x)
                           | Ok returned =>
                               updated_views true
                                 (set_status_info
                                    ("✅ **DSECS analysis completed** in "
                                     +:+ format_1f (end_time - start_time)%Q
                                     +:+ " seconds")
                                    (set_analyzed true (set_data (Some returned) x)))
                           end
                       end
                 end)).
  unfold run_analysis, updated_views, analysis_failed.
  repeat run_call.
  all: split; reflexivity.
Qed.

Lemma load_netcdf_data_run (x : DsecsDataExplorer) (p f : string) :
  fd_value (netcdf_dropper x) = true ->
  temp_file (netcdf_dropper x) = Some p ->
  file_in_mem (netcdf_dropper x) = Some f ->
  snd (load_netcdf_data x) = Ok tt
  /\ fst (load_netcdf_data x) =
     match open_datatree p with
     | Raise e => set_status_info (failed_to_load f e) x
     | Ok d =>
         match str d with
         | Raise e => set_status_info (failed_to_load f e) (set_data (Some d) x)
         | Ok _ =>
             match groups_text d with
             | Raise e => set_status_info (failed_to_load f e) (set_data (Some d) x)
             | Ok groups =>
                 if has_dsecs_output groups
                 then
                   updated_views true
                     (set_status_info
                        "✅ **Pre-computed DSECS results loaded successfully!**"
                        (set_analyzed true (set_preprocessed true (set_data (Some d) x))))
                 else
                   updated_views false
                     (set_status_info
                        "✅ Raw data loaded from NetCDF (ready for processing"
                        (set_analyzed false
                           (set_preprocessed false (set_data (Some d) x))))
             end
         end
     end.
Proof.
  intros Hv Hp Hf.
  apply (wp_run load_netcdf_data
           (fun x' res =>
              res = Ok tt
              /\ x' =
                 match open_datatree p with
                 | Raise e => set_status_info (failed_to_load f e) x
                 | Ok d =>
                     match str d with
                     | Raise e =>
                         set_status_info (failed_to_load f e) (set_data (Some d) x)
                     | Ok _ =>
                         match groups_text d with
                         | Raise e =>
                             set_status_info (failed_to_load f e) (set_data (Some d) x)
                         | Ok groups =>
                             if has_dsecs_output groups
                             then
                               updated_views true
                                 (set_status_info
                                    "✅ **Pre-computed DSECS results loaded successfully!**"
                                    (set_analyzed true
                                       (set_preprocessed true (set_data (Some d) x))))
                             else
                               updated_views false
                                 (set_status_info
                                    "✅ Raw data loaded from NetCDF (ready for processing"
                                    (set_analyzed false
                                       (set_preprocessed false (set_data (Some d) x))))
                         end
                     end
                 end)).
  unfold load_netcdf_data.
  apply wp_bind, wp_gets. cbv beta iota. unfold id. rewrite Hv. cbn [negb].
  change (wp load_netcdf_try
            (fun s res =>
               res = Ok tt
               /\ fst s =
                 match open_datatree p with
                 | Raise e => set_status_info (failed_to_load f e) x
                 | Ok d =>
                     match str d with
                     | Raise e =>
                         set_status_info (failed_to_load f e) (set_data (Some d) x)
                     | Ok _ =>
                         match groups_text d with
                         | Raise e =>
                             set_status_info (failed_to_load f e) (set_data (Some d) x)
                         | Ok groups =>
                             if has_dsecs_output groups
                             then
                               updated_views true
                                 (set_status_info
                                    "✅ **Pre-computed DSECS results loaded successfully!**"
                                    (set_analyzed true
                                       (set_preprocessed true (set_data (Some d) x))))
                             else
                               updated_views false
                                 (set_status_info
                                    "✅ Raw data loaded from NetCDF (ready for processing"
                                    (set_analyzed false
                                       (set_preprocessed false (set_data (Some d) x))))
                         end
                     end
                 end)
            (x, mkFrame None None)).
  unfold load_netcdf_try, groups_text, has_dsecs_output, updated_views, failed_to_load.
  apply wp_try_except, wp_bind, wp_on_self. unfold self. apply wp_gets.
  cbv beta iota. unfold id. cbn [fst snd]. rewrite Hp, Hf.
  repeat run_call.
  all: split; reflexivity.
Qed.

(** A file whose names cannot be read, and no file at all. *)
Lemma load_netcdf_data_unnamed (x : DsecsDataExplorer) :
  fd_value (netcdf_dropper x) = true ->
  temp_file (netcdf_dropper x) = None \/ file_in_mem (netcdf_dropper x) = None ->
  fst (load_netcdf_data x) = x.
Proof.
  intros Hv Hnone.
  unfold load_netcdf_data, bind, self, gets. cbn [fst snd id]. rewrite Hv. cbn [negb].
  unfold load_netcdf_try, try_except, bind, on_self, self, gets, lift, read_local,
    bind_file_path, modify, raise.
  cbn [fst snd id].
  destruct Hnone as [Hnone|Hnone].
  - rewrite Hnone. reflexivity.
  - destruct (temp_file (netcdf_dropper x)); rewrite Hnone; reflexivity.
Qed.

Lemma load_netcdf_data_no_file (x : DsecsDataExplorer) :
  fd_value (netcdf_dropper x) = false ->
  load_netcdf_data x
  = (set_status_info "⚠️ Please upload a NetCDF file first" x, Ok tt).
Proof.
  intros Hv. unfold load_netcdf_data, bind, self, gets. cbn [fst snd id].
  rewrite Hv. reflexivity.
Qed.

(** *** What the updates of the panes leave alone *)

Lemma same_session_refl (x : DsecsDataExplorer) : same_session x x.
Proof. unfold same_session. repeat split. Qed.

Lemma same_session_trans (x y z : DsecsDataExplorer) :
  same_session x y -> same_session y z -> same_session x z.
Proof. unfold same_session. intuition congruence. Qed.

Lemma _setup_animated_quicklook_same (figures_dict : list (Z * Figure))
    (x : DsecsDataExplorer) :
  same_session x (fst (_setup_animated_quicklook figures_dict x)).
Proof.
  destruct (_setup_animated_quicklook_run figures_dict x) as [_ H].
  destruct (keys (resize_figures figures_dict)).
  - destruct H as [_ ->]. unfold same_session. repeat split.
  - destruct H as (fig & _ & ->). unfold same_session. repeat split.
Qed.

Lemma _update_quicklook_same (x : DsecsDataExplorer) :
  same_session x (fst (_update_quicklook x)).
Proof.
  destruct (_update_quicklook_run x) as [_ ->].
  destruct (data x) as [d|]; [|apply same_session_refl].
  destruct (analyzed x); [|apply same_session_refl].
  destruct (quicklook d) as [[|f figs]|e].
  - unfold same_session. repeat split.
  - apply _setup_animated_quicklook_same.
  - unfold same_session. repeat split.
Qed.

Lemma updated_views_same (with_quicklook : bool) (x : DsecsDataExplorer) :
  same_session x (updated_views with_quicklook x).
Proof.
  unfold updated_views. cbv zeta.
  destruct (_update_data_view_run x) as (view & Hv & _). rewrite Hv.
  apply same_session_trans with (set_data_view (Some view) x);
    [unfold same_session; repeat split|].
  destruct with_quicklook.
  - destruct (_update_code_snippet_run
                (fst (_update_quicklook (set_data_view (Some view) x))))
      as (code & Hc & _).
    rewrite Hc.
    apply same_session_trans with (fst (_update_quicklook (set_data_view (Some view) x)));
      [apply _update_quicklook_same | unfold same_session; repeat split].
  - destruct (_update_code_snippet_run (set_data_view (Some view) x)) as (code & Hc & _).
    rewrite Hc. unfold same_session. repeat split.
Qed.

(** *** The flags and the dataset *)

Lemma flags_ok_same (x x' : DsecsDataExplorer) :
  same_session x x' -> flags_ok x -> flags_ok x'.
Proof.
  unfold same_session, flags_ok. intros (_ & _ & -> & -> & -> & _). exact id.
Qed.

Lemma small_steps_same (a : Action) (x : DsecsDataExplorer) :
  match a with
  | PressPlay | Scrub _ | Tick _ => True
  | _ => False
  end ->
  data (fst (act a x)) = data x
  /\ preprocessed (fst (act a x)) = preprocessed x
  /\ analyzed (fst (act a x)) = analyzed x.
Proof.
  intros Ha.
  apply (wp_run (act a)
           (fun x' _ =>
              data x' = data x /\ preprocessed x' = preprocessed x
              /\ analyzed x' = analyzed x)).
  destruct a; try contradiction; unfold act.
  - unfold _toggle_animation. repeat wp_step. all: repeat split.
  - unfold set_frame_slider_value. repeat wp_step. all: repeat split.
  - unfold tick. repeat wp_step. all: repeat split.
Qed.

Ltac flags_leaf :=
  unfold flags_ok in *; more_cbn;
  repeat match goal with
         | H : negb _ = false |- _ => apply negb_false_iff in H
         | H : negb _ = true |- _ => apply negb_true_iff in H
         end;
  intuition congruence.

(** X15. Nothing is marked as analysed that is not marked as preprocessed,
    and nothing is marked as preprocessed while there is no dataset: this
    holds for a new explorer, and every call of a handler, every move of the
    slider, every firing of a callback and every change of the dropped file
    keeps it, whether the handler returns or raises. *)
Theorem flags_stay_consistent (a : Action) (x : DsecsDataExplorer)
    (dropper : FileDropper) (range : DateTime * DateTime) :
  flags_ok (new_explorer dropper range)
  /\ (flags_ok x -> flags_ok (fst (act a x))).
Proof.
  split; [unfold flags_ok; cbn; intuition congruence|].
  intros Hok. destruct a.
  - exact Hok.
  - cbn [act].
    destruct (fd_value (netcdf_dropper x)) eqn:Hv;
      [|rewrite (load_netcdf_data_no_file x Hv); exact Hok].
    destruct (temp_file (netcdf_dropper x)) as [p|] eqn:Hp;
      [|rewrite load_netcdf_data_unnamed by (auto); exact Hok].
    destruct (file_in_mem (netcdf_dropper x)) as [f|] eqn:Hf;
      [|rewrite load_netcdf_data_unnamed by (auto); exact Hok].
    destruct (load_netcdf_data_run x p f Hv Hp Hf) as [_ ->].
    repeat match goal with
           | |- context [match ?r with _ => _ end] => destruct r eqn:?
           end;
      try (eapply flags_ok_same; [apply updated_views_same|]); flags_leaf.
  - cbn [act]. destruct (update_input_data_run x) as [_ ->].
    repeat match goal with
           | |- context [match ?r with _ => _ end] => destruct r eqn:?
           end;
      try (eapply flags_ok_same; [apply updated_views_same|]); flags_leaf.
  - cbn [act]. destruct (run_preprocessing_run x) as [_ ->].
    repeat match goal with
           | |- context [match ?r with _ => _ end] => destruct r eqn:?
           end;
      try (eapply flags_ok_same; [apply updated_views_same|]); flags_leaf.
  - cbn [act]. destruct (run_analysis_run start_time end_time x) as [_ ->].
    repeat match goal with
           | |- context [match ?r with _ => _ end] => destruct r eqn:?
           end;
      try (eapply flags_ok_same; [apply updated_views_same|]); flags_leaf.
  - destruct (small_steps_same PressPlay x I) as (H1 & H2 & H3).
    unfold flags_ok in *. rewrite H1, H2, H3. exact Hok.
  - destruct (small_steps_same (Scrub value) x I) as (H1 & H2 & H3).
    unfold flags_ok in *. rewrite H1, H2, H3. exact Hok.
  - destruct (small_steps_same (Tick cb) x I) as (H1 & H2 & H3).
    unfold flags_ok in *. rewrite H1, H2, H3. exact Hok.
Qed.

(** *** The player and its timer *)

Lemma Action_eq_PressPlay (a : Action) : a = PressPlay \/ a <> PressPlay.
Proof. destruct a; first [left; reflexivity | right; discriminate]. Qed.

Ltac split_cases :=
  repeat match goal with
         | |- context [match ?r with _ => _ end] => destruct r eqn:?
         end.

Lemma handlers_keep_player (a : Action) (x : DsecsDataExplorer) :
  a <> PressPlay ->
  animation_playing (fst (act a x)) = animation_playing x
  /\ _animation_callback (fst (act a x)) = _animation_callback x
  /\ periodic_callbacks (fst (act a x)) = periodic_callbacks x
  /\ callbacks_created (fst (act a x)) = callbacks_created x
  /\ btn_name (play_button (fst (act a x))) = btn_name (play_button x).
Proof.
  intros Ha.
  assert (Hsame : forall b y,
            animation_playing y = animation_playing x
            /\ _animation_callback y = _animation_callback x
            /\ periodic_callbacks y = periodic_callbacks x
            /\ callbacks_created y = callbacks_created x
            /\ btn_name (play_button y) = btn_name (play_button x) ->
            animation_playing (updated_views b y) = animation_playing x
            /\ _animation_callback (updated_views b y) = _animation_callback x
            /\ periodic_callbacks (updated_views b y) = periodic_callbacks x
            /\ callbacks_created (updated_views b y) = callbacks_created x
            /\ btn_name (play_button (updated_views b y)) = btn_name (play_button x)).
  { intros b y Hy.
    pose proof (updated_views_same b y) as H.
    unfold same_session in H. intuition congruence. }
  destruct a; try congruence; cbn [act].
  - repeat split.
  - destruct (fd_value (netcdf_dropper x)) eqn:Hv;
      [|rewrite (load_netcdf_data_no_file x Hv); repeat split].
    destruct (temp_file (netcdf_dropper x)) as [p|] eqn:Hp;
      [|rewrite load_netcdf_data_unnamed by (auto); repeat split].
    destruct (file_in_mem (netcdf_dropper x)) as [f|] eqn:Hf;
      [|rewrite load_netcdf_data_unnamed by (auto); repeat split].
    destruct (load_netcdf_data_run x p f Hv Hp Hf) as [_ ->].
    split_cases; try apply Hsame; repeat split.
  - destruct (update_input_data_run x) as [_ ->].
    split_cases; try apply Hsame; repeat split.
  - destruct (run_preprocessing_run x) as [_ ->].
    split_cases; try apply Hsame; repeat split.
  - destruct (run_analysis_run start_time end_time x) as [_ ->].
    split_cases; try apply Hsame; repeat split.
  - apply (wp_run (set_frame_slider_value value)
             (fun x' _ =>
                animation_playing x' = animation_playing x
                /\ _animation_callback x' = _animation_callback x
                /\ periodic_callbacks x' = periodic_callbacks x
                /\ callbacks_created x' = callbacks_created x
                /\ btn_name (play_button x') = btn_name (play_button x))).
    unfold set_frame_slider_value. repeat wp_step. all: repeat split.
  - apply (wp_run (tick cb)
             (fun x' _ =>
                animation_playing x' = animation_playing x
                /\ _animation_callback x' = _animation_callback x
                /\ periodic_callbacks x' = periodic_callbacks x
                /\ callbacks_created x' = callbacks_created x
                /\ btn_name (play_button x') = btn_name (play_button x))).
    unfold tick. repeat wp_step. all: repeat split.
Qed.

Lemma _toggle_animation_player_ok (x : DsecsDataExplorer) :
  player_ok x -> player_ok (fst (_toggle_animation x)).
Proof.
  intros (Hrun & Hcb & Hname).
  apply (wp_run _toggle_animation (fun x' _ => player_ok x')).
  unfold _toggle_animation.
  destruct (animation_playing x) eqn:Hplay.
  - destruct (_animation_callback x) as [cb|] eqn:Hc.
    + repeat wp_step. unfold player_ok. more_cbn. rewrite Hrun. cbn [List.filter].
      unfold same_callback. rewrite Nat.eqb_refl. cbn [negb].
      split; [reflexivity|]. split; [intros cb' [=] | reflexivity].
    + repeat wp_step. unfold player_ok. more_cbn. rewrite Hc.
      split; [exact Hrun|]. split; [intros cb' [=] | reflexivity].
  - assert (Hnone : _animation_callback x = None).
    { destruct (_animation_callback x) as [cb|]; [|reflexivity].
      destruct (Hcb cb eq_refl) as [Hp _]. congruence. }
    rewrite Hnone in Hrun.
    repeat wp_step; unfold player_ok; more_cbn.
    + rewrite Hnone. split; [exact Hrun|]. split; [intros cb' [=] | reflexivity].
    + rewrite Hrun. split; [reflexivity|]. split; [|reflexivity].
      intros cb' [= <-]. cbn [cb_frames cb_period cb_id].
      repeat split; try discriminate; lia.
Qed.

(** X16. There is never more than one timer, and none is left behind:
    the callbacks running are the one the explorer holds, if it holds one;
    it holds one only while playing, over a list of frames that is not
    empty and with the period of 1200 ms; and the label of the button tells
    the state of the player. This holds for a new explorer and every action
    keeps it. *)
Theorem one_timer_at_most (a : Action) (x : DsecsDataExplorer)
    (dropper : FileDropper) (range : DateTime * DateTime) :
  player_ok (new_explorer dropper range)
  /\ (player_ok x -> player_ok (fst (act a x))).
Proof.
  split.
  - unfold player_ok. cbn. split; [reflexivity|]. split; [intros cb [=] | reflexivity].
  - intros Hok.
    destruct (Action_eq_PressPlay a) as [->|Ha];
      [apply _toggle_animation_player_ok, Hok|].
    destruct (handlers_keep_player a x Ha) as (H1 & H2 & H3 & H4 & H5).
    unfold player_ok in *. rewrite H1, H2, H3, H4, H5. exact Hok.
Qed.

(** X17. A callback that is running never raises when it fires: it moves
    the slider to one of the frames it captured and leaves the player
    playing. *)
Theorem running_callback_never_raises (x : DsecsDataExplorer) (cb : PeriodicCallback) :
  player_ok x ->
  In cb (periodic_callbacks x) ->
  snd (tick cb x) = Ok tt
  /\ In (sl_value (frame_slider (fst (tick cb x)))) (cb_frames cb)
  /\ animation_playing (fst (tick cb x)) = true.
Proof.
  intros (Hrun & Hcb & _) Hin.
  destruct (_animation_callback x) as [cb'|] eqn:Hc; rewrite Hrun in Hin;
    [|destruct Hin].
  destruct Hin as [<-|[]].
  destruct (Hcb cb' eq_refl) as (Hplay & Hframes & _).
  destruct (tick_moves x cb' Hplay) as (next & Hnext & Hres & Hval & Hp & _).
  { rewrite Hrun. cbn [existsb]. unfold same_callback. rewrite Nat.eqb_refl. reflexivity. }
  { exact Hframes. }
  split; [exact Hres|]. split; [|exact Hp].
  rewrite Hval. apply list_elem_of_In, list_elem_of_lookup. eauto.
Qed.

(** *** The controls and the figure shown *)

Lemma _setup_animated_quicklook_controls (figures_dict : list (Z * Figure))
    (x : DsecsDataExplorer) :
  controls_ok (fst (_setup_animated_quicklook figures_dict x)).
Proof.
  destruct (_setup_animated_quicklook_run figures_dict x) as [_ H].
  destruct (keys (resize_figures figures_dict)) as [|k ks] eqn:Hk.
  - destruct H as [Hnil ->]. unfold controls_ok. more_cbn.
    split; [reflexivity|]. split; [split; [discriminate | congruence]|].
    split; [exact I | left; reflexivity].
  - destruct H as (fig & Hfig & ->). unfold controls_ok. more_cbn.
    split; [reflexivity|]. split.
    + split; [|reflexivity]. intros _ Hnil. rewrite Hnil in Hk. discriminate.
    + rewrite Hk. split; [split; reflexivity|]. right. eauto.
Qed.

Lemma controls_ok_same_fields (x x' : DsecsDataExplorer) :
  frame_slider x' = frame_slider x ->
  btn_disabled (play_button x') = btn_disabled (play_button x) ->
  animation_figures x' = animation_figures x ->
  swarmpal_animated x' = swarmpal_animated x ->
  controls_ok x -> controls_ok x'.
Proof. unfold controls_ok. intros -> -> -> ->. exact id. Qed.

Lemma _update_quicklook_controls (x : DsecsDataExplorer) :
  controls_ok x -> controls_ok (fst (_update_quicklook x)).
Proof.
  intros Hok. destruct (_update_quicklook_run x) as [_ ->].
  destruct (data x) as [d|]; [|exact Hok].
  destruct (analyzed x); [|exact Hok].
  destruct (quicklook d) as [[|f figs]|e].
  - exact Hok.
  - apply _setup_animated_quicklook_controls.
  - exact Hok.
Qed.

Lemma updated_views_controls (with_quicklook : bool) (x : DsecsDataExplorer) :
  controls_ok x -> controls_ok (updated_views with_quicklook x).
Proof.
  intros Hok. unfold updated_views. cbv zeta.
  destruct (_update_data_view_run x) as (view & Hv & _). rewrite Hv.
  assert (H1 : controls_ok (set_data_view (Some view) x)) by exact Hok.
  destruct with_quicklook.
  - destruct (_update_code_snippet_run
                (fst (_update_quicklook (set_data_view (Some view) x))))
      as (code & Hc & _).
    rewrite Hc.
    apply (controls_ok_same_fields
             (fst (_update_quicklook (set_data_view (Some view) x))));
      try reflexivity.
    apply _update_quicklook_controls, H1.
  - destruct (_update_code_snippet_run (set_data_view (Some view) x)) as (code & Hc & _).
    rewrite Hc. exact H1.
Qed.

Ltac controls_leaf :=
  unfold controls_ok in *; more_cbn;
  repeat match goal with
         | H : _ /\ _ |- _ => destruct H
         end;
  repeat split; eauto; try tauto.

Lemma set_frame_slider_value_controls (value : Z) (x : DsecsDataExplorer) :
  controls_ok x ->
  wp (set_frame_slider_value value) (fun x' _ => controls_ok x') x.
Proof.
  intros Hok. unfold set_frame_slider_value. repeat wp_step.
  all: controls_leaf.
Qed.

(** X18. The slider and the play button are enabled together, and exactly
    when there are frames; the range of the slider is then the range of the
    keys of the frames; and the figure shown, if any, is the placeholder or
    one of the frames held, never a frame of an earlier set. This holds for a
    new explorer and every action keeps it. *)
Theorem controls_follow_the_frames (a : Action) (x : DsecsDataExplorer)
    (dropper : FileDropper) (range : DateTime * DateTime) :
  controls_ok (new_explorer dropper range)
  /\ (controls_ok x -> controls_ok (fst (act a x))).
Proof.
  split.
  - unfold controls_ok. cbn. split; [reflexivity|].
    split; [split; [discriminate | congruence]|]. split; exact I.
  - intros Hok. destruct a; cbn [act].
    + exact Hok.
    + destruct (fd_value (netcdf_dropper x)) eqn:Hv;
        [|rewrite (load_netcdf_data_no_file x Hv); exact Hok].
      destruct (temp_file (netcdf_dropper x)) as [p|] eqn:Hp;
        [|rewrite load_netcdf_data_unnamed by (auto); exact Hok].
      destruct (file_in_mem (netcdf_dropper x)) as [f|] eqn:Hf;
        [|rewrite load_netcdf_data_unnamed by (auto); exact Hok].
      destruct (load_netcdf_data_run x p f Hv Hp Hf) as [_ ->].
      split_cases; try apply updated_views_controls; exact Hok.
    + destruct (update_input_data_run x) as [_ ->].
      split_cases; try apply updated_views_controls; exact Hok.
    + destruct (run_preprocessing_run x) as [_ ->].
      split_cases; try apply updated_views_controls; exact Hok.
    + destruct (run_analysis_run start_time end_time x) as [_ ->].
      split_cases; try apply updated_views_controls; exact Hok.
    + apply (wp_run _toggle_animation (fun x' _ => controls_ok x')).
      unfold _toggle_animation. repeat wp_step. all: exact Hok.
    + apply (wp_run (set_frame_slider_value value) (fun x' _ => controls_ok x')).
      apply set_frame_slider_value_controls, Hok.
    + apply (wp_run (tick cb) (fun x' _ => controls_ok x')).
      unfold tick, advance_frame.
      repeat match goal with
             | |- wp (set_frame_slider_value _) _ _ =>
                 apply set_frame_slider_value_controls
             | |- controls_ok _ => exact Hok
             | _ => wp_step_with dsecs_cbn
                      ltac:(fun m => lazymatch m with
                                     | set_frame_slider_value _ => fail
                                     | _ => idtac
                                     end)
             end.
Qed.

(** X19. Pressing the button twice on a player that is stopped gives the
    explorer back: the first press starts a callback over the frames held
    (none when there is no frame), the second stops it and forgets it, and
    nothing but the count of the callbacks created has changed. *)
Theorem play_then_pause (x : DsecsDataExplorer) :
  player_ok x ->
  animation_playing x = false ->
  snd (_toggle_animation x) = Ok tt
  /\ animation_playing (fst (_toggle_animation x)) = true
  /\ snd (_toggle_animation (fst (_toggle_animation x))) = Ok tt
  /\ fst (_toggle_animation (fst (_toggle_animation x))) =
     match keys (animation_figures x) with
     | [] => x
     | _ :: _ => set_callbacks_created (S (callbacks_created x)) x
     end.
Proof.
  intros (Hrun & Hcb & Hname) Hplay.
  assert (Hnone : _animation_callback x = None).
  { destruct (_animation_callback x) as [cb|]; [|reflexivity].
    destruct (Hcb cb eq_refl) as [Hp _]. congruence. }
  rewrite Hnone in Hrun. rewrite Hplay in Hname. clear Hcb.
  destruct x as [fd se d pre ana st dv cs sa sl [bn bd] figs playing cb running n].
  cbn in Hrun, Hname, Hplay, Hnone. subst.
  unfold _toggle_animation, _start_animation, bind, self, gets, modify, ret.
  cbn [fst snd animation_playing set_animation_playing play_button set_play_button
       btn_disabled animation_figures].
  destruct figs as [|[k v] figs]; cbn.
  - repeat split.
  - unfold same_callback. cbn [cb_id]. rewrite Nat.eqb_refl. cbn.
    repeat split.
Qed.

(** *** Loading a file, fetching, preprocessing, analysing *)

Lemma updated_views_plain (x : DsecsDataExplorer) :
  exists view code,
    updated_views false x = set_code_snippet (Some code) (set_data_view (Some view) x).
Proof.
  unfold updated_views. cbv zeta.
  destruct (_update_data_view_run x) as (view & Hv & _). rewrite Hv.
  destruct (_update_code_snippet_run (set_data_view (Some view) x)) as (code & Hc & _).
  rewrite Hc. eauto.
Qed.

(** The status after the panes were updated with a plot. *)
Lemma updated_views_status (x : DsecsDataExplorer) (d : Dataset) :
  data x = Some d ->
  analyzed x = true ->
  status_info (updated_views true x) =
  match quicklook d with
  | Ok (_ :: _) => status_info x
  | Ok [] => "⚠️ No figures generated from DSECS quicklook"
  | Raise e => "⚠️ Plotting error: " +:+ exn_msg e
  end.
Proof.
  intros Hd Ha. unfold updated_views. cbv zeta.
  destruct (_update_data_view_run x) as (view & Hv & _). rewrite Hv.
  destruct (_update_code_snippet_run
              (fst (_update_quicklook (set_data_view (Some view) x))))
    as (code & Hc & _).
  rewrite Hc. cbn [status_info set_code_snippet].
  destruct (_update_quicklook_run (set_data_view (Some view) x)) as [_ ->].
  cbn [data analyzed set_data_view]. rewrite Hd, Ha.
  destruct (quicklook d) as [[|f figs]|e]; try reflexivity.
  destruct (_setup_animated_quicklook_run (f :: figs) (set_data_view (Some view) x))
    as [_ H].
  destruct (keys (resize_figures (f :: figs))).
  - destruct H as [_ ->]. reflexivity.
  - destruct H as (fig & _ & ->). reflexivity.
Qed.

(** X20. [load_netcdf_data] with no file dropped only sets the status.
    With a file whose two names can be read it never raises. When the file
    cannot be opened, only the status changes. Once the file is opened the
    new tree is held, also when its text cannot be made: the flags are then
    those of the data held before. Otherwise both flags say whether the text
    of the groups holds [DSECS_output] or [currents]; for a tree without
    results the frames and the figure shown are left alone. *)
Theorem load_netcdf_data_outcomes (x : DsecsDataExplorer) :
  (fd_value (netcdf_dropper x) = false ->
   load_netcdf_data x
   = (set_status_info "⚠️ Please upload a NetCDF file first" x, Ok tt))
  /\ (forall p f,
        fd_value (netcdf_dropper x) = true ->
        temp_file (netcdf_dropper x) = Some p ->
        file_in_mem (netcdf_dropper x) = Some f ->
        snd (load_netcdf_data x) = Ok tt
        /\ match open_datatree p with
           | Raise e =>
               fst (load_netcdf_data x) = set_status_info (failed_to_load f e) x
           | Ok d =>
               data (fst (load_netcdf_data x)) = Some d
               /\ match (let? _ := str d in groups_text d) with
                  | Raise e =>
                      fst (load_netcdf_data x)
                      = set_status_info (failed_to_load f e) (set_data (Some d) x)
                  | Ok groups =>
                      preprocessed (fst (load_netcdf_data x)) = has_dsecs_output groups
                      /\ analyzed (fst (load_netcdf_data x)) = has_dsecs_output groups
                      /\ (has_dsecs_output groups = false ->
                          status_info (fst (load_netcdf_data x))
                          = "✅ Raw data loaded from NetCDF (ready for processing"
                          /\ animation_figures (fst (load_netcdf_data x))
                             = animation_figures x
                          /\ swarmpal_animated (fst (load_netcdf_data x))
                             = swarmpal_animated x)
                  end
           end).
Proof.
  split; [apply load_netcdf_data_no_file|].
  intros p f Hv Hp Hf.
  destruct (load_netcdf_data_run x p f Hv Hp Hf) as [Hres ->].
  split; [exact Hres|].
  destruct (open_datatree p) as [d|e]; [|reflexivity].
  destruct (str d) as [text|e]; cbn [rbind]; [|split; reflexivity].
  destruct (groups_text d) as [groups|e]; [|split; reflexivity].
  destruct (has_dsecs_output groups).
  - pose proof (updated_views_same true
                  (set_status_info
                     "✅ **Pre-computed DSECS results loaded successfully!**"
                     (set_analyzed true (set_preprocessed true (set_data (Some d) x)))))
      as (_ & _ & H1 & H2 & H3 & _).
    rewrite H1, H2, H3. repeat split; discriminate.
  - destruct (updated_views_plain
                (set_status_info "✅ Raw data loaded from NetCDF (ready for processing"
                   (set_analyzed false (set_preprocessed false (set_data (Some d) x)))))
      as (view & code & ->).
    repeat split.
Qed.

(** X21. [run_preprocessing] never raises and never touches the flag
    [analyzed]. With no dataset it only sets the status. The dataset is
    preprocessed, and marked so, only when the names of both spacecraft are
    found among the groups and the process returns; with a name missing only
    the status changes and the process is not called. When the process
    raises, the dataset held is the tree as the failed call left it and the
    flag is as it was. *)
Theorem run_preprocessing_outcomes (x : DsecsDataExplorer) :
  snd (run_preprocessing x) = Ok tt
  /\ analyzed (fst (run_preprocessing x)) = analyzed x
  /\ match data x with
     | None =>
         fst (run_preprocessing x) = set_status_info "⚠️ Please fetch data first" x
     | Some d =>
         match Preprocess, dataset_names d with
         | Ok p1, Ok names =>
             match find_datasets names with
             | (Some alpha, Some charlie) =>
                 match set_config p1 alpha charlie with
                 | Ok p1' =>
                     match snd (call p1' d) with
                     | Ok returned =>
                         data (fst (run_preprocessing x)) = Some returned
                         /\ preprocessed (fst (run_preprocessing x)) = true
                         /\ status_info (fst (run_preprocessing x))
                            = "✅ Preprocessing completed"
                     | Raise e =>
                         fst (run_preprocessing x)
                         = set_status_info (preprocessing_failed e)
                             (set_data (Some (fst (call p1' d))) x)
                     end
                 | Raise e =>
                     fst (run_preprocessing x)
                     = set_status_info (preprocessing_failed e) x
                 end
             | _ =>
                 fst (run_preprocessing x)
                 = set_status_info
                     "⚠️ Could not find both Swarm-A and Swarm-C datasets" x
             end
         | Raise e, _ =>
             fst (run_preprocessing x) = set_status_info (preprocessing_failed e) x
         | Ok _, Raise e =>
             fst (run_preprocessing x) = set_status_info (preprocessing_failed e) x
         end
     end.
Proof.
  destruct (run_preprocessing_run x) as [Hres ->].
  split; [exact Hres|].
  destruct (data x) as [d|]; [|split; reflexivity].
  destruct Preprocess as [p1|e]; [|split; reflexivity].
  destruct (dataset_names d) as [names|e]; [|split; reflexivity].
  destruct (truthy_found names) as [-> ->].
  destruct (find_datasets names) as [[alpha|] [charlie|]]; cbn [fst snd];
    try (split; reflexivity).
  destruct (set_config p1 alpha charlie) as [p1'|e]; [|split; reflexivity].
  destruct (snd (call p1' d)) as [returned|e]; [|split; reflexivity].
  destruct (updated_views_plain
              (set_status_info "✅ Preprocessing completed"
                 (set_preprocessed true (set_data (Some returned) x))))
    as (view & code & ->).
  repeat split.
Qed.

(** X22. [run_analysis] never raises. With no dataset, or with a dataset
    that is not marked as preprocessed, it only sets the status and the
    analysis is not called. When the analysis returns, its result is the
    dataset held and is marked as analysed, and the status tells the time
    taken, unless the plot that follows failed or gave no figure, which the
    status then tells instead. When the analysis raises, the dataset held is
    the tree as the failed call left it and the flag is as it was. *)
Theorem run_analysis_outcomes (start_time end_time : Q) (x : DsecsDataExplorer) :
  snd (run_analysis start_time end_time x) = Ok tt
  /\ preprocessed (fst (run_analysis start_time end_time x)) = preprocessed x
  /\ match data x with
     | None =>
         fst (run_analysis start_time end_time x)
         = set_status_info "⚠️ Please fetch data first" x
     | Some d =>
         if preprocessed x then
           match Analysis with
           | Raise e =>
               fst (run_analysis start_time end_time x)
               = set_status_info (analysis_failed e) x
           | Ok p2 =>
               match snd (call p2 d) with
               | Raise e =>
                   fst (run_analysis start_time end_time x)
                   = set_status_info (analysis_failed e)
                       (set_data (Some (fst (call p2 d))) x)
               | Ok returned =>
                   data (fst (run_analysis start_time end_time x)) = Some returned
                   /\ analyzed (fst (run_analysis start_time end_time x)) = true
                   /\ status_info (fst (run_analysis start_time end_time x)) =
                      match quicklook returned with
                      | Ok (_ :: _) =>
                          "✅ **DSECS analysis completed** in "
                          +:+ format_1f (end_time - start_time)%Q +:+ " seconds"
                      | Ok [] => "⚠️ No figures generated from DSECS quicklook"
                      | Raise e => "⚠️ Plotting error: " +:+ exn_msg e
                      end
               end
           end
         else
           fst (run_analysis start_time end_time x)
           = set_status_info "⚠️ Please run preprocessing first" x
     end.
Proof.
  destruct (run_analysis_run start_time end_time x) as [Hres ->].
  split; [exact Hres|].
  destruct (data x) as [d|]; [|split; reflexivity].
  destruct (preprocessed x) eqn:Hpre; cbn [negb]; [|split; [exact Hpre | reflexivity]].
  destruct Analysis as [p2|e]; [|split; [exact Hpre | reflexivity]].
  destruct (snd (call p2 d)) as [returned|e]; [|split; [exact Hpre | reflexivity]].
  pose proof (updated_views_same true
                (set_status_info
                   ("✅ **DSECS analysis completed** in "
                    +:+ format_1f (end_time - start_time)%Q +:+ " seconds")
                   (set_analyzed true (set_data (Some returned) x))))
    as (_ & _ & H1 & H2 & H3 & _).
  rewrite H1, H2, H3. cbn [data preprocessed analyzed set_status_info set_analyzed set_data].
  split; [exact Hpre|]. split; [reflexivity|]. split; [reflexivity|].
  rewrite (updated_views_status _ returned) by reflexivity.
  reflexivity.
Qed.

(** X23. [update_input_data] never raises. The dataset held is replaced
    only when every request, the call of [create_paldata] and the debug
    lines went through: both flags are then reset and the status says that
    the data were fetched. On any failure, also one of a debug line after a
    fetch that succeeded, the dataset and the flags are as they were and
    only the status changes. *)
Theorem update_input_data_outcomes (x : DsecsDataExplorer) :
  snd (update_input_data x) = Ok tt
  /\ match fetched x with
     | Ok d =>
         data (fst (update_input_data x)) = Some d
         /\ preprocessed (fst (update_input_data x)) = false
         /\ analyzed (fst (update_input_data x)) = false
         /\ status_info (fst (update_input_data x)) = "Fetched data from VirES"
     | Raise e => fst (update_input_data x) = set_status_info (fetch_failed e) x
     end
  /\ (forall items kwargs d e,
        from_vires_all (get_data_config x) = Ok items ->
        keywords items = Ok kwargs ->
        create_paldata kwargs = Ok d ->
        printing d = Raise e ->
        fst (update_input_data x) = set_status_info (fetch_failed e) x).
Proof.
  destruct (update_input_data_run x) as [Hres ->].
  split; [exact Hres|]. split.
  - destruct (fetched x) as [d|e]; [|reflexivity].
    destruct (updated_views_plain
                (set_analyzed false
                   (set_preprocessed false
                      (set_data (Some d) (set_status_info "Fetched data from VirES" x)))))
      as (view & code & ->).
    repeat split.
  - intros items kwargs d e H1 H2 H3 H4. unfold fetched.
    rewrite H1. cbn [rbind]. rewrite H2. cbn [rbind]. rewrite H3. cbn [rbind].
    rewrite H4. reflexivity.
Qed.

(** X24. The configuration of the requests has an entry for the collection
    of Swarm-A and one for the collection of Swarm-C, in this order, or one
    entry when the table gives both the same collection (or neither). Each
    entry is keyed by the collection it asks for, and asks for the time
    range of the widget. *)
Theorem get_data_config_spec (x : DsecsDataExplorer) :
  let alpha := dict_get_str "Swarm-A" SPACECRAFT_TO_MAGLR_DATASET in
  let charlie := dict_get_str "Swarm-C" SPACECRAFT_TO_MAGLR_DATASET in
  map fst (get_data_config x)
  = (if key_eqb charlie alpha then [charlie] else [alpha; charlie])
  /\ Forall
       (fun entry =>
          snd entry =
          request_of (fst entry)
            (isoformat (fst (start_end x))) (isoformat (snd (start_end x))))
       (get_data_config x).
Proof.
  cbv zeta. unfold get_data_config. cbn [map fold_left config_store].
  destruct (key_eqb _ _); cbn [map fst]; split; try reflexivity;
    repeat constructor.
Qed.

(** *** The code snippet *)

Lemma _update_code_snippet_exact (x : DsecsDataExplorer) :
  fst (_update_code_snippet x) = set_code_snippet (Some (snippet_of x)) x.
Proof.
  apply (wp_run _update_code_snippet
           (fun x' _ => x' = set_code_snippet (Some (snippet_of x)) x)).
  unfold _update_code_snippet, snippet_of. repeat run_step.
  all: reflexivity.
Qed.

Lemma updated_views_code (with_quicklook : bool) (x : DsecsDataExplorer) :
  code_ok (updated_views with_quicklook x).
Proof.
  unfold updated_views. cbv zeta. rewrite _update_code_snippet_exact.
  right. reflexivity.
Qed.

Lemma code_ok_same_fields (x x' : DsecsDataExplorer) :
  code_snippet x' = code_snippet x ->
  start_end x' = start_end x ->
  preprocessed x' = preprocessed x ->
  analyzed x' = analyzed x ->
  code_ok x -> code_ok x'.
Proof.
  unfold code_ok, snippet_of, get_code. intros -> -> -> ->. exact id.
Qed.

(** X25. The code pane never goes stale: it is empty, as in a new
    explorer, or it shows the snippet rendered for the time range and for
    the two flags as they are now. Every action keeps this, however it
    ends: a handler that changes a flag renders the snippet again before it
    returns. *)
Theorem code_snippet_stays_current (a : Action) (x : DsecsDataExplorer)
    (dropper : FileDropper) (range : DateTime * DateTime) :
  code_ok (new_explorer dropper range)
  /\ (code_ok x -> code_ok (fst (act a x))).
Proof.
  split; [left; reflexivity|].
  intros Hok. destruct a; cbn [act].
  - exact Hok.
  - destruct (fd_value (netcdf_dropper x)) eqn:Hv;
      [|rewrite (load_netcdf_data_no_file x Hv); exact Hok].
    destruct (temp_file (netcdf_dropper x)) as [p|] eqn:Hp;
      [|rewrite load_netcdf_data_unnamed by (auto); exact Hok].
    destruct (file_in_mem (netcdf_dropper x)) as [f|] eqn:Hf;
      [|rewrite load_netcdf_data_unnamed by (auto); exact Hok].
    destruct (load_netcdf_data_run x p f Hv Hp Hf) as [_ ->].
    split_cases; try apply updated_views_code; exact Hok.
  - destruct (update_input_data_run x) as [_ ->].
    split_cases; try apply updated_views_code; exact Hok.
  - destruct (run_preprocessing_run x) as [_ ->].
    split_cases; try apply updated_views_code; exact Hok.
  - destruct (run_analysis_run start_time end_time x) as [_ ->].
    split_cases; try apply updated_views_code; exact Hok.
  - apply (wp_run _toggle_animation (fun x' _ => code_ok x')).
    unfold _toggle_animation. repeat wp_step. all: exact Hok.
  - apply (wp_run (set_frame_slider_value value) (fun x' _ => code_ok x')).
    unfold set_frame_slider_value. repeat wp_step. all: exact Hok.
  - apply (wp_run (tick cb) (fun x' _ => code_ok x')).
    unfold tick. repeat wp_step. all: exact Hok.
Qed.

End Handlers.

(** *** Concrete runs *)

Import DSECS_Demo DSECS_Handlers_Demo.

Lemma running_callback_never_raises_witness :
  player_ok playing012
  /\ In (callback0 [0; 1; 2]) (periodic_callbacks playing012)
  /\ snd (tick (callback0 [0; 1; 2]) playing012) = Ok tt.
Proof.
  assert (Hok : player_ok playing012).
  { unfold player_ok. split; [reflexivity|]. split; [|reflexivity].
    intros cb [= <-]. repeat split; [discriminate | vm_compute; lia]. }
  assert (Hin : In (callback0 [0; 1; 2]) (periodic_callbacks playing012)).
  { left. reflexivity. }
  split; [exact Hok|]. split; [exact Hin|].
  apply (running_callback_never_raises playing012 (callback0 [0; 1; 2]) Hok Hin).
Defined.

Lemma play_then_pause_witness :
  player_ok loaded012
  /\ animation_playing loaded012 = false
  /\ fst (_toggle_animation (fst (_toggle_animation loaded012)))
     = set_callbacks_created 1 loaded012.
Proof.
  assert (Hok : player_ok loaded012).
  { unfold player_ok. split; [reflexivity|]. split; [|reflexivity].
    intros cb [=]. }
  split; [exact Hok|]. split; [reflexivity|].
  apply (play_then_pause loaded012 Hok eq_refl).
Defined.

End DSECS_Handlers_Facts.
